(** * OpenFCU: fire-control state machine, input debouncing and settings menu

    A shallow embedding of the Arduino sketch (buttons.ino, the main sketch
    with the state machine, and menu.ino) and the properties of its
    specification.

    Conventions of the embedding.
    - The target is an 8-bit AVR board (the sketch uses [EEPROM.h],
      [PROGMEM] and [pgm_read_word]): [unsigned int] is 16 bits wide,
      [unsigned long] is 32 bits wide.  Integers are [Z] and the wrap-around
      of unsigned arithmetic is written out with [wrap16] and [wrap32].
    - The global variables of the sketch are the fields of [State]; a C
      function with side effects is a computation in the state monad [M].
    - The hardware is a [World]: the level of every input pin at every
      instant (in milliseconds since power-up).  The field [clock] is the
      real time; [millis()] is the clock modulo 2^32 and [delay(ms)] advances
      it.  Code between two delays is taken to run in no time.
    - Output actions (pin writes, delays, EEPROM writes, the exit messages of
      the menu) are appended to the log [outputs].  The pixel-level drawing
      on the OLED display is write-only and is left out. *)

From stdpp Require Import base list.
From Stdlib Require Import ZArith Lia Bool List.
Import ListNotations.
Local Open Scope Z_scope.

(** ** Machine integers *)

Definition wrap16 (x : Z) : Z := x mod 2 ^ 16.
Definition wrap32 (x : Z) : Z := x mod 2 ^ 32.

(** ** Constants of the sketch *)

Definition LOW : Z := 0.
Definition HIGH : Z := 1.

Definition BUTTON_PRESSED : Z := LOW.
Definition BUTTON_RELEASED : Z := HIGH.

Definition SOLENOID_ON : Z := HIGH.
Definition SOLENOID_OFF : Z := LOW.

Definition STATUS_IDLE : Z := 0.
Definition STATUS_SEMI_AUTO : Z := 1.
Definition STATUS_FULL_AUTO : Z := 2.
Definition STATUS_BINARY_TRIGGER_TAIL : Z := 3.
Definition STATUS_RELOAD : Z := 4.
Definition STATUS_MENU : Z := 5.

Definition RELOAD_WAITING_FOR_MAGAZINE_OUT : Z := 0.
Definition RELOAD_WAITING_FOR_MAGAZINE_IN : Z := 1.

Definition MENU_CONTINUE : Z := 0.
Definition MENU_SAVE_AND_EXIT : Z := 1.
Definition MENU_DISCARD_AND_EXIT : Z := 2.

Definition ID_MENU_EXIT_MESSAGE_NOT_MODIFIED : Z := 0.
Definition ID_MENU_EXIT_MESSAGE_DISCARDED : Z := 1.
Definition ID_MENU_EXIT_MESSAGE_SAVED : Z := 2.

Definition MENU_EXIT_MESSAGE_DURATION_MS : Z := 2000.

Definition triggerPin : Z := 3.
Definition fireSelectorPin : Z := 4.
Definition magazinePin : Z := 5.
Definition joyUpPin : Z := 8.
Definition joyLeftPin : Z := 9.
Definition joySelectPin : Z := 7.
Definition joyRightPin : Z := 11.
Definition joyDownPin : Z := 10.
Definition solenoidPin : Z := 2.
Definition muzzlePin : Z := 6.

Definition buttonsDebouncingTimeMs : Z := 50.

Definition ID_BUTTON_FIRE_SELECTOR : Z := 0.
Definition ID_BUTTON_MAGAZINE : Z := 1.
Definition ID_BUTTON_JOY_UP : Z := 2.
Definition ID_BUTTON_JOY_LEFT : Z := 3.
Definition ID_BUTTON_JOY_SELECT : Z := 4.
Definition ID_BUTTON_JOY_RIGHT : Z := 5.
Definition ID_BUTTON_JOY_DOWN : Z := 6.
Definition ID_BUTTON_INVALID : Z := -1.

Definition MENU_MODE_DISPLAY_MENU_PAGE : Z := 0.
Definition MENU_MODE_MODIFY_SETTING : Z := 1.

Definition ID_SETTING_SHOT_DELAY_MS : Z := 0.
Definition ID_SETTING_BURST_DELAY_MS : Z := 1.
Definition ID_SETTING_DWELL_MS : Z := 2.
Definition ID_SETTING_TRIGGER_DEBOUNCING_MS : Z := 3.
Definition ID_SETTING_NUM_SHOTS_PER_BURST : Z := 4.
Definition ID_SETTING_SHOT_LIMIT : Z := 5.
Definition ID_SETTING_FULL_AUTO_BURST : Z := 6.
Definition ID_SETTING_BINARY_TRIGGER : Z := 7.
Definition ID_SETTING_FORCE_RELOAD : Z := 8.
Definition ID_SETTING_MUZZLE_FLASH : Z := 9.
Definition ID_SETTINGS_INVERTED_FIRE_SELECTOR : Z := 10.

Definition SETTING_DELAY_VALUE_MIN : Z := 1.
Definition SETTING_DELAY_VALUE_MAX : Z := 2000.
Definition SETTING_DELAY_LONG_PRESS_DELTA : Z := 10.
Definition SETTING_NUM_SHOT_VALUE_MIN : Z := 1.
Definition SETTING_NUM_SHOT_VALUE_MAX : Z := 1000.
Definition SETTING_NUM_SHOT_LONG_PRESS_DELTA : Z := 5.

(** [USING_OLED_HEIGHT_32] is not defined in the sketch. *)
Definition NUM_MAX_SETTINGS_PER_MENU_PAGE : Z := 6.

Definition numTotSettings : Z := 11.
Definition numMenuPages : Z :=
  if negb (numTotSettings mod NUM_MAX_SETTINGS_PER_MENU_PAGE =? 0)
  then numTotSettings / NUM_MAX_SETTINGS_PER_MENU_PAGE + 1
  else numTotSettings / NUM_MAX_SETTINGS_PER_MENU_PAGE.

Definition minDurationForLongPressMs : Z := 2000.
Definition longPressIntervalBetweenIncDecMs : Z := 100.

(** ** Data *)

Record ButtonData := mkButtonData {
  pin : Z;
  startTimeMs : Z;            (* starting time of current status *)
  buttonStatus : Z;           (* current button status *)
  lastValidStatus : Z;        (* status after debouncing *)
  precStatusIsPressed : bool  (* last time we checked, it was pressed *)
}.

Record Settings := mkSettings {
  shotDelayMs : Z;
  burstDelayMs : Z;
  dwellMs : Z;
  triggerDebouncingMs : Z;
  numShotsPerBurst : Z;
  shotLimit : Z;
  fullAutoBurst : bool;
  binaryTrigger : bool;
  forceReload : bool;
  muzzleFlash : bool;
  invertedFireSelector : bool
}.

(** The default member initialisers of [struct tagSettings]. *)
Definition defaultSettings : Settings :=
  {| shotDelayMs := 200; burstDelayMs := 400; dwellMs := 200;
     triggerDebouncingMs := 50; numShotsPerBurst := 3; shotLimit := 30;
     fullAutoBurst := false; binaryTrigger := false; forceReload := true;
     muzzleFlash := false; invertedFireSelector := false |}.

(** The pointers held by [SettingValue] only ever point to a member of
    [tempSettings]; a pointer is the name of that member. *)
Inductive UIntField :=
  | FShotDelayMs | FBurstDelayMs | FDwellMs | FTriggerDebouncingMs
  | FNumShotsPerBurst | FShotLimit.

Inductive BoolField :=
  | FFullAutoBurst | FBinaryTrigger | FForceReload | FMuzzleFlash
  | FInvertedFireSelector.

(** [struct tagSettingValue]: [valueType] selects the member of the union
    that is in use; every access in the sketch is guarded by it.  [SVUnset]
    is the zero-initialised global, whose [valueType] is neither
    [SETTING_TYPE_BOOL] nor [SETTING_TYPE_UINT]. *)
Inductive SettingValue :=
  | SVUnset
  | SVBool (boolValuePtr : BoolField) (currBoolValue : bool)
  | SVUInt (uintValuePtr : UIntField)
           (currUIntValue uintValueMin uintValueMax longPressDelta : Z).

Record Menu := mkMenu {
  menuMode : Z;
  currMenuPage : Z;
  currMenuPageNumSettings : Z;
  currMenuCursorPos : Z;
  currMenuPageFirstSettingId : Z;
  currPressStartTimeMs : Z;
  currPressButtonId : Z;
  lastModificationTimeMs : Z;
  tempSettings : Settings;
  settingValue : SettingValue
}.

Inductive Event :=
  | DigitalWrite (p v : Z)
  | Delay (ms : Z)
  | EepromPut (st : Settings)
  | MenuExitMessage (msgId : Z).

Record State := mkState {
  buttons : list ButtonData;
  settings : Settings;
  shotCount : Z;
  currBurstShotCount : Z;
  reloadStatus : Z;
  status : Z;
  menu : Menu;
  eeprom : option Settings;  (* [None]: the magic prefix is not there *)
  clock : Z;                 (* real time, in ms since power-up *)
  outputs : list Event
}.

(** The level of each input pin at each instant; [true] is [HIGH]. *)
Definition World := Z -> Z -> bool.

(** ** Field updates *)

Definition set_startTimeMs (v : Z) (bd : ButtonData) : ButtonData :=
  mkButtonData (pin bd) v (buttonStatus bd) (lastValidStatus bd)
               (precStatusIsPressed bd).
Definition set_buttonStatus (v : Z) (bd : ButtonData) : ButtonData :=
  mkButtonData (pin bd) (startTimeMs bd) v (lastValidStatus bd)
               (precStatusIsPressed bd).
Definition set_lastValidStatus (v : Z) (bd : ButtonData) : ButtonData :=
  mkButtonData (pin bd) (startTimeMs bd) (buttonStatus bd) v
               (precStatusIsPressed bd).
Definition set_precStatusIsPressed (v : bool) (bd : ButtonData) : ButtonData :=
  mkButtonData (pin bd) (startTimeMs bd) (buttonStatus bd)
               (lastValidStatus bd) v.

Definition set_buttons (v : list ButtonData) (s : State) : State :=
  mkState v (settings s) (shotCount s) (currBurstShotCount s)
          (reloadStatus s) (status s) (menu s) (eeprom s) (clock s) (outputs s).
Definition set_settings (v : Settings) (s : State) : State :=
  mkState (buttons s) v (shotCount s) (currBurstShotCount s)
          (reloadStatus s) (status s) (menu s) (eeprom s) (clock s) (outputs s).
Definition set_shotCount (v : Z) (s : State) : State :=
  mkState (buttons s) (settings s) v (currBurstShotCount s)
          (reloadStatus s) (status s) (menu s) (eeprom s) (clock s) (outputs s).
Definition set_currBurstShotCount (v : Z) (s : State) : State :=
  mkState (buttons s) (settings s) (shotCount s) v
          (reloadStatus s) (status s) (menu s) (eeprom s) (clock s) (outputs s).
Definition set_reloadStatus (v : Z) (s : State) : State :=
  mkState (buttons s) (settings s) (shotCount s) (currBurstShotCount s)
          v (status s) (menu s) (eeprom s) (clock s) (outputs s).
Definition set_status (v : Z) (s : State) : State :=
  mkState (buttons s) (settings s) (shotCount s) (currBurstShotCount s)
          (reloadStatus s) v (menu s) (eeprom s) (clock s) (outputs s).
Definition set_menu (v : Menu) (s : State) : State :=
  mkState (buttons s) (settings s) (shotCount s) (currBurstShotCount s)
          (reloadStatus s) (status s) v (eeprom s) (clock s) (outputs s).
Definition set_eeprom (v : option Settings) (s : State) : State :=
  mkState (buttons s) (settings s) (shotCount s) (currBurstShotCount s)
          (reloadStatus s) (status s) (menu s) v (clock s) (outputs s).
Definition set_clock (v : Z) (s : State) : State :=
  mkState (buttons s) (settings s) (shotCount s) (currBurstShotCount s)
          (reloadStatus s) (status s) (menu s) (eeprom s) v (outputs s).
Definition set_outputs (v : list Event) (s : State) : State :=
  mkState (buttons s) (settings s) (shotCount s) (currBurstShotCount s)
          (reloadStatus s) (status s) (menu s) (eeprom s) (clock s) v.

(** ** The state monad of the sketch *)

Definition M (A : Type) : Type := State -> A * State.

Definition ret {A} (a : A) : M A := fun s => (a, s).
Definition bind {A B} (c : M A) (k : A -> M B) : M B :=
  fun s => let (a, s') := c s in k a s'.
Definition gets {A} (f : State -> A) : M A := fun s => (f s, s).
Definition modify (f : State -> State) : M unit := fun s => (tt, f s).
Definition exec {A} (c : M A) (s : State) : State := snd (c s).
Definition eval {A} (c : M A) (s : State) : A := fst (c s).

Declare Scope fcu_scope.
Delimit Scope fcu_scope with fcu.
Notation "x <- c ;; k" := (bind c (fun x => k))
  (at level 100, c at next level, k at level 200, right associativity)
  : fcu_scope.
Notation "c ;; k" := (bind c (fun _ => k))
  (at level 100, k at level 200, right associativity) : fcu_scope.
Local Open Scope fcu_scope.

(** ** Arduino primitives *)

Definition millis : M Z := gets (fun s => wrap32 (clock s)).

Definition digitalRead (w : World) (p : Z) : M Z :=
  gets (fun s => if w p (clock s) then HIGH else LOW).

Definition emit (e : Event) : M unit :=
  modify (fun s => set_outputs (outputs s ++ [e]) s).

Definition digitalWrite (p v : Z) : M unit := emit (DigitalWrite p v).

Definition delay (ms : Z) : M unit :=
  emit (Delay ms) ;;
  modify (fun s => set_clock (clock s + ms) s).

(** ** buttons.ino *)

(** [buttons[buttonId]]; the sketch only uses the ids 0 to 6, an index
    outside the array has no defined behaviour in C++ and reads as [None]. *)
Definition getButton (bs : list ButtonData) (buttonId : Z) : option ButtonData :=
  if buttonId <? 0 then None else bs !! Z.to_nat buttonId.

Definition setButton (buttonId : Z) (bd : ButtonData) (bs : list ButtonData)
  : list ButtonData :=
  if buttonId <? 0 then bs else <[Z.to_nat buttonId := bd]> bs.

Definition initialButton (p : Z) : ButtonData :=
  mkButtonData p 0 BUTTON_RELEASED BUTTON_RELEASED false.

Definition initialButtons : list ButtonData :=
  [ initialButton fireSelectorPin; initialButton magazinePin;
    initialButton joyUpPin; initialButton joyLeftPin;
    initialButton joySelectPin; initialButton joyRightPin;
    initialButton joyDownPin ].

(** The bodies of the functions of buttons.ino, on the [ButtonData] that
    [bd] refers to. *)

Definition buttonIsPressed_bd (bd : ButtonData) : bool :=
  lastValidStatus bd =? BUTTON_PRESSED.

Definition buttonPressDuration_bd (millisNow : Z) (bd : ButtonData) : Z :=
  if lastValidStatus bd =? BUTTON_PRESSED
  then wrap32 (millisNow - startTimeMs bd) else 0.

Definition readButtonWithDebouncing_bd (timeNow statusNow : Z) (bd : ButtonData)
  : ButtonData :=
  let bd1 :=
    if negb (statusNow =? buttonStatus bd)
    then set_buttonStatus statusNow (set_startTimeMs timeNow bd)
    else bd in
  if wrap32 (timeNow - startTimeMs bd1) >? buttonsDebouncingTimeMs
  then set_lastValidStatus (buttonStatus bd1) bd1
  else bd1.

Definition thereIsANewPress_bd (bd : ButtonData) : bool * ButtonData :=
  if negb (lastValidStatus bd =? BUTTON_PRESSED)
  then (false, set_precStatusIsPressed false bd)
  else if precStatusIsPressed bd
       then (false, bd)
       else (true, set_precStatusIsPressed true bd).

(** The functions themselves, on the global array. *)

Definition buttonIsPressed (buttonId : Z) : M bool :=
  gets (fun s => match getButton (buttons s) buttonId with
                 | Some bd => buttonIsPressed_bd bd
                 | None => false
                 end).

Definition buttonPressDuration (buttonId : Z) : M Z :=
  now <- millis ;;
  gets (fun s => match getButton (buttons s) buttonId with
                 | Some bd => buttonPressDuration_bd now bd
                 | None => 0
                 end).

Definition readButtonWithDebouncing (w : World) (buttonId : Z) : M unit :=
  fun s =>
    match getButton (buttons s) buttonId with
    | Some bd =>
        (timeNow <- millis ;;
         statusNow <- digitalRead w (pin bd) ;;
         modify (fun s' =>
           set_buttons
             (setButton buttonId
                (readButtonWithDebouncing_bd timeNow statusNow bd)
                (buttons s')) s')) s
    | None => (tt, s)
    end.

Definition thereIsANewPress (buttonId : Z) : M bool :=
  fun s =>
    match getButton (buttons s) buttonId with
    | Some bd =>
        let (r, bd') := thereIsANewPress_bd bd in
        (r, set_buttons (setButton buttonId bd' (buttons s)) s)
    | None => (false, s)
    end.

(** [for (int i = 0; i < numButtons; i++) readButtonWithDebouncing(i);] *)
Fixpoint forButtons (w : World) (n : nat) (i : Z) : M unit :=
  match n with
  | O => ret tt
  | S n' => readButtonWithDebouncing w i ;; forButtons w n' (i + 1)
  end.

Definition readAllButtons (w : World) : M unit :=
  numButtons <- gets (fun s => length (buttons s)) ;;
  forButtons w numButtons 0.

(** ** Main sketch: settings in the EEPROM *)

Definition isEepromValid : M bool :=
  gets (fun s => match eeprom s with Some _ => true | None => false end).

Definition saveSettingsToEeprom : M unit :=
  st <- gets settings ;;
  modify (set_eeprom (Some st)) ;;
  emit (EepromPut st).

Definition readSettingsFromEeprom : M bool :=
  fun s =>
    match eeprom s with
    | None => (false, s)
    | Some st => (true, set_settings st s)
    end.

(** ** Main sketch: buttons *)

Definition isTriggerPressed (w : World) : M bool :=
  v <- digitalRead w triggerPin ;;
  ret (v =? BUTTON_PRESSED).

Definition isMagazineButtonPressed : M bool :=
  buttonIsPressed ID_BUTTON_MAGAZINE.

Definition isFireSelectorInAutoPosition : M bool :=
  isFireSelectorPressed <- buttonIsPressed ID_BUTTON_FIRE_SELECTOR ;;
  st <- gets settings ;;
  ret (if invertedFireSelector st
       then negb isFireSelectorPressed else isFireSelectorPressed).

Definition thereIsANewJoySelectPress : M bool :=
  thereIsANewPress ID_BUTTON_JOY_SELECT.

(** ** Main sketch: state transitions *)

Definition transitionToStatusIdle : M unit :=
  modify (set_status STATUS_IDLE).

Definition transitionToStatusReload : M unit :=
  modify (set_reloadStatus RELOAD_WAITING_FOR_MAGAZINE_OUT) ;;
  modify (set_status STATUS_RELOAD).

Definition transitionToStatusBinaryTriggerTail : M unit :=
  modify (set_currBurstShotCount 0) ;;
  modify (set_status STATUS_BINARY_TRIGGER_TAIL).

Definition transitionToStatusSemiAuto : M unit :=
  modify (set_currBurstShotCount 0) ;;
  modify (set_status STATUS_SEMI_AUTO).

Definition transitionToStatusFullAuto : M unit :=
  modify (set_status STATUS_FULL_AUTO).

(** ** Main sketch: shot low level *)

(** The two branches of [if (settings.muzzleFlash)], which end the
    function with [return true]. *)
Definition fireShot (st : Settings) : M bool :=
  if muzzleFlash st
  then
    (digitalWrite solenoidPin SOLENOID_ON ;;
     digitalWrite muzzlePin HIGH ;;
     delay (dwellMs st) ;;
     digitalWrite solenoidPin SOLENOID_OFF ;;
     digitalWrite muzzlePin LOW ;;
     delay (shotDelayMs st) ;;
     ret true)
  else
    (digitalWrite solenoidPin SOLENOID_ON ;;
     delay (dwellMs st) ;;
     digitalWrite solenoidPin SOLENOID_OFF ;;
     delay (shotDelayMs st) ;;
     ret true).

(** Returns false if [forceReload] is true and the shot limit is reached.
    [shotCount++] is an increment of an [unsigned int]. *)
Definition doOneShot : M bool :=
  st <- gets settings ;;
  if forceReload st
  then
    (sc <- gets shotCount ;;
     if sc >=? shotLimit st
     then ret false
     else
       (modify (fun s => set_shotCount (wrap16 (shotCount s + 1)) s) ;;
        fireShot st))
  else fireShot st.

(** Returns true when the burst is done, otherwise false. *)
Definition doNextShotAndGoToStatusReloadIfShotError (numShotsRequired : Z)
  : M bool :=
  cb <- gets currBurstShotCount ;;
  if cb <? numShotsRequired
  then
    (ok <- doOneShot ;;
     if negb ok
     then (transitionToStatusReload ;; ret false)
     else
       (modify (fun s =>
          set_currBurstShotCount (wrap16 (currBurstShotCount s + 1)) s) ;;
        ret false))
  else ret true.

(** ** Main sketch: the handlers of the firing states

    Neither [APPLY_BINARY_TRIGGER_TO_FULL_AUTO] nor
    [APPLY_BINARY_TRIGGER_TO_FULL_AUTO_BURST] is defined in the sketch. *)

Definition manageStatusBinaryTriggerTail : M unit :=
  st <- gets settings ;;
  done <- doNextShotAndGoToStatusReloadIfShotError (numShotsPerBurst st) ;;
  if negb done then ret tt
  else transitionToStatusIdle.

Definition manageStatusSemiAuto (w : World) : M unit :=
  st <- gets settings ;;
  done <- doNextShotAndGoToStatusReloadIfShotError (numShotsPerBurst st) ;;
  if negb done then ret tt
  else
    (auto <- isFireSelectorInAutoPosition ;;
     if auto then transitionToStatusIdle
     else
       (trig <- isTriggerPressed w ;;
        if trig
        then
          (if negb (fullAutoBurst st) then ret tt
           else (modify (set_currBurstShotCount 0) ;;
                 delay (burstDelayMs st)))
        else
          (if fullAutoBurst st
           then (delay (triggerDebouncingMs st) ;; transitionToStatusIdle)
           else if binaryTrigger st
                then transitionToStatusBinaryTriggerTail
                else (delay (triggerDebouncingMs st) ;;
                      transitionToStatusIdle)))).

Definition manageStatusFullAuto (w : World) : M unit :=
  st <- gets settings ;;
  auto <- isFireSelectorInAutoPosition ;;
  if negb auto then transitionToStatusIdle
  else
    (ok <- doOneShot ;;
     if negb ok then transitionToStatusReload
     else
       (trig <- isTriggerPressed w ;;
        if negb trig
        then (delay (triggerDebouncingMs st) ;; transitionToStatusIdle)
        else ret tt)).

(** ** Main sketch: reload *)

Definition manageStatusReload : M unit :=
  rs <- gets reloadStatus ;;
  if rs =? RELOAD_WAITING_FOR_MAGAZINE_OUT
  then
    (mag <- isMagazineButtonPressed ;;
     if negb mag
     then modify (set_reloadStatus RELOAD_WAITING_FOR_MAGAZINE_IN)
     else ret tt)
  else if rs =? RELOAD_WAITING_FOR_MAGAZINE_IN
  then
    (mag <- isMagazineButtonPressed ;;
     if mag
     then (modify (set_shotCount 0) ;; transitionToStatusIdle)
     else ret tt)
  else ret tt.

(** ** menu.ino *)

Definition set_menuMode (v : Z) (m : Menu) : Menu :=
  mkMenu v (currMenuPage m) (currMenuPageNumSettings m) (currMenuCursorPos m)
         (currMenuPageFirstSettingId m) (currPressStartTimeMs m)
         (currPressButtonId m) (lastModificationTimeMs m) (tempSettings m)
         (settingValue m).
Definition set_currMenuPage (v : Z) (m : Menu) : Menu :=
  mkMenu (menuMode m) v (currMenuPageNumSettings m) (currMenuCursorPos m)
         (currMenuPageFirstSettingId m) (currPressStartTimeMs m)
         (currPressButtonId m) (lastModificationTimeMs m) (tempSettings m)
         (settingValue m).
Definition set_currMenuPageNumSettings (v : Z) (m : Menu) : Menu :=
  mkMenu (menuMode m) (currMenuPage m) v (currMenuCursorPos m)
         (currMenuPageFirstSettingId m) (currPressStartTimeMs m)
         (currPressButtonId m) (lastModificationTimeMs m) (tempSettings m)
         (settingValue m).
Definition set_currMenuCursorPos (v : Z) (m : Menu) : Menu :=
  mkMenu (menuMode m) (currMenuPage m) (currMenuPageNumSettings m) v
         (currMenuPageFirstSettingId m) (currPressStartTimeMs m)
         (currPressButtonId m) (lastModificationTimeMs m) (tempSettings m)
         (settingValue m).
Definition set_currMenuPageFirstSettingId (v : Z) (m : Menu) : Menu :=
  mkMenu (menuMode m) (currMenuPage m) (currMenuPageNumSettings m)
         (currMenuCursorPos m) v (currPressStartTimeMs m)
         (currPressButtonId m) (lastModificationTimeMs m) (tempSettings m)
         (settingValue m).
Definition set_currPressStartTimeMs (v : Z) (m : Menu) : Menu :=
  mkMenu (menuMode m) (currMenuPage m) (currMenuPageNumSettings m)
         (currMenuCursorPos m) (currMenuPageFirstSettingId m) v
         (currPressButtonId m) (lastModificationTimeMs m) (tempSettings m)
         (settingValue m).
Definition set_currPressButtonId (v : Z) (m : Menu) : Menu :=
  mkMenu (menuMode m) (currMenuPage m) (currMenuPageNumSettings m)
         (currMenuCursorPos m) (currMenuPageFirstSettingId m)
         (currPressStartTimeMs m) v (lastModificationTimeMs m) (tempSettings m)
         (settingValue m).
Definition set_lastModificationTimeMs (v : Z) (m : Menu) : Menu :=
  mkMenu (menuMode m) (currMenuPage m) (currMenuPageNumSettings m)
         (currMenuCursorPos m) (currMenuPageFirstSettingId m)
         (currPressStartTimeMs m) (currPressButtonId m) v (tempSettings m)
         (settingValue m).
Definition set_tempSettings (v : Settings) (m : Menu) : Menu :=
  mkMenu (menuMode m) (currMenuPage m) (currMenuPageNumSettings m)
         (currMenuCursorPos m) (currMenuPageFirstSettingId m)
         (currPressStartTimeMs m) (currPressButtonId m)
         (lastModificationTimeMs m) v (settingValue m).
Definition set_settingValue (v : SettingValue) (m : Menu) : Menu :=
  mkMenu (menuMode m) (currMenuPage m) (currMenuPageNumSettings m)
         (currMenuCursorPos m) (currMenuPageFirstSettingId m)
         (currPressStartTimeMs m) (currPressButtonId m)
         (lastModificationTimeMs m) (tempSettings m) v.

Definition getsMenu {A} (f : Menu -> A) : M A := gets (fun s => f (menu s)).
Definition modifyMenu (f : Menu -> Menu) : M unit :=
  modify (fun s => set_menu (f (menu s)) s).

(** Reading and writing a member of [tempSettings] through a pointer. *)

Definition readUInt (f : UIntField) (st : Settings) : Z :=
  match f with
  | FShotDelayMs => shotDelayMs st
  | FBurstDelayMs => burstDelayMs st
  | FDwellMs => dwellMs st
  | FTriggerDebouncingMs => triggerDebouncingMs st
  | FNumShotsPerBurst => numShotsPerBurst st
  | FShotLimit => shotLimit st
  end.

Definition writeUInt (f : UIntField) (v : Z) (st : Settings) : Settings :=
  match f with
  | FShotDelayMs =>
      mkSettings v (burstDelayMs st) (dwellMs st) (triggerDebouncingMs st)
        (numShotsPerBurst st) (shotLimit st) (fullAutoBurst st)
        (binaryTrigger st) (forceReload st) (muzzleFlash st)
        (invertedFireSelector st)
  | FBurstDelayMs =>
      mkSettings (shotDelayMs st) v (dwellMs st) (triggerDebouncingMs st)
        (numShotsPerBurst st) (shotLimit st) (fullAutoBurst st)
        (binaryTrigger st) (forceReload st) (muzzleFlash st)
        (invertedFireSelector st)
  | FDwellMs =>
      mkSettings (shotDelayMs st) (burstDelayMs st) v (triggerDebouncingMs st)
        (numShotsPerBurst st) (shotLimit st) (fullAutoBurst st)
        (binaryTrigger st) (forceReload st) (muzzleFlash st)
        (invertedFireSelector st)
  | FTriggerDebouncingMs =>
      mkSettings (shotDelayMs st) (burstDelayMs st) (dwellMs st) v
        (numShotsPerBurst st) (shotLimit st) (fullAutoBurst st)
        (binaryTrigger st) (forceReload st) (muzzleFlash st)
        (invertedFireSelector st)
  | FNumShotsPerBurst =>
      mkSettings (shotDelayMs st) (burstDelayMs st) (dwellMs st)
        (triggerDebouncingMs st) v (shotLimit st) (fullAutoBurst st)
        (binaryTrigger st) (forceReload st) (muzzleFlash st)
        (invertedFireSelector st)
  | FShotLimit =>
      mkSettings (shotDelayMs st) (burstDelayMs st) (dwellMs st)
        (triggerDebouncingMs st) (numShotsPerBurst st) v (fullAutoBurst st)
        (binaryTrigger st) (forceReload st) (muzzleFlash st)
        (invertedFireSelector st)
  end.

Definition readBool (f : BoolField) (st : Settings) : bool :=
  match f with
  | FFullAutoBurst => fullAutoBurst st
  | FBinaryTrigger => binaryTrigger st
  | FForceReload => forceReload st
  | FMuzzleFlash => muzzleFlash st
  | FInvertedFireSelector => invertedFireSelector st
  end.

Definition writeBool (f : BoolField) (v : bool) (st : Settings) : Settings :=
  match f with
  | FFullAutoBurst =>
      mkSettings (shotDelayMs st) (burstDelayMs st) (dwellMs st)
        (triggerDebouncingMs st) (numShotsPerBurst st) (shotLimit st) v
        (binaryTrigger st) (forceReload st) (muzzleFlash st)
        (invertedFireSelector st)
  | FBinaryTrigger =>
      mkSettings (shotDelayMs st) (burstDelayMs st) (dwellMs st)
        (triggerDebouncingMs st) (numShotsPerBurst st) (shotLimit st)
        (fullAutoBurst st) v (forceReload st) (muzzleFlash st)
        (invertedFireSelector st)
  | FForceReload =>
      mkSettings (shotDelayMs st) (burstDelayMs st) (dwellMs st)
        (triggerDebouncingMs st) (numShotsPerBurst st) (shotLimit st)
        (fullAutoBurst st) (binaryTrigger st) v (muzzleFlash st)
        (invertedFireSelector st)
  | FMuzzleFlash =>
      mkSettings (shotDelayMs st) (burstDelayMs st) (dwellMs st)
        (triggerDebouncingMs st) (numShotsPerBurst st) (shotLimit st)
        (fullAutoBurst st) (binaryTrigger st) (forceReload st) v
        (invertedFireSelector st)
  | FInvertedFireSelector =>
      mkSettings (shotDelayMs st) (burstDelayMs st) (dwellMs st)
        (triggerDebouncingMs st) (numShotsPerBurst st) (shotLimit st)
        (fullAutoBurst st) (binaryTrigger st) (forceReload st)
        (muzzleFlash st) v
  end.

(** *** Utility *)

Definition mapMenuRowToSettingId (menuRow : Z) : M Z :=
  first <- getsMenu currMenuPageFirstSettingId ;;
  let settingId := first + menuRow in
  ret (if settingId <? numTotSettings then settingId else -1).

Definition evalMenuPageNumSettingsByFirstSettingId (firstSettingId : Z) : Z :=
  let remainingSettings := Z.max (numTotSettings - firstSettingId) 0 in
  Z.min NUM_MAX_SETTINGS_PER_MENU_PAGE remainingSettings.

Definition evalMenuPageNumSettings (page : Z) : Z :=
  let firstSettingId := page * NUM_MAX_SETTINGS_PER_MENU_PAGE in
  evalMenuPageNumSettingsByFirstSettingId firstSettingId.

(** *** settingValue struct management *)

Definition initSettingValueBool (valuePtr : BoolField) : M unit :=
  ts <- getsMenu tempSettings ;;
  modifyMenu (set_settingValue (SVBool valuePtr (readBool valuePtr ts))).

Definition initSettingValueUInt (valuePtr : UIntField)
    (minVal maxVal longPressDelta : Z) : M unit :=
  ts <- getsMenu tempSettings ;;
  modifyMenu (set_settingValue
    (SVUInt valuePtr (readUInt valuePtr ts) minVal maxVal longPressDelta)).

Definition commitSetting : M unit :=
  sv <- getsMenu settingValue ;;
  match sv with
  | SVBool ptr cur =>
      modifyMenu (fun m => set_tempSettings (writeBool ptr cur (tempSettings m)) m)
  | SVUInt ptr cur _ _ _ =>
      modifyMenu (fun m => set_tempSettings (writeUInt ptr cur (tempSettings m)) m)
  | SVUnset => ret tt
  end.

Definition getSettingValue (settingId : Z) : M unit :=
  if settingId =? ID_SETTING_SHOT_DELAY_MS then
    initSettingValueUInt FShotDelayMs SETTING_DELAY_VALUE_MIN
      SETTING_DELAY_VALUE_MAX SETTING_DELAY_LONG_PRESS_DELTA
  else if settingId =? ID_SETTING_BURST_DELAY_MS then
    initSettingValueUInt FBurstDelayMs SETTING_DELAY_VALUE_MIN
      SETTING_DELAY_VALUE_MAX SETTING_DELAY_LONG_PRESS_DELTA
  else if settingId =? ID_SETTING_DWELL_MS then
    initSettingValueUInt FDwellMs SETTING_DELAY_VALUE_MIN
      SETTING_DELAY_VALUE_MAX SETTING_DELAY_LONG_PRESS_DELTA
  else if settingId =? ID_SETTING_TRIGGER_DEBOUNCING_MS then
    initSettingValueUInt FTriggerDebouncingMs SETTING_DELAY_VALUE_MIN
      SETTING_DELAY_VALUE_MAX SETTING_DELAY_LONG_PRESS_DELTA
  else if settingId =? ID_SETTING_NUM_SHOTS_PER_BURST then
    initSettingValueUInt FNumShotsPerBurst SETTING_NUM_SHOT_VALUE_MIN
      SETTING_NUM_SHOT_VALUE_MAX SETTING_NUM_SHOT_LONG_PRESS_DELTA
  else if settingId =? ID_SETTING_SHOT_LIMIT then
    initSettingValueUInt FShotLimit SETTING_NUM_SHOT_VALUE_MIN
      SETTING_NUM_SHOT_VALUE_MAX SETTING_NUM_SHOT_LONG_PRESS_DELTA
  else if settingId =? ID_SETTING_FULL_AUTO_BURST then
    initSettingValueBool FFullAutoBurst
  else if settingId =? ID_SETTING_BINARY_TRIGGER then
    initSettingValueBool FBinaryTrigger
  else if settingId =? ID_SETTING_FORCE_RELOAD then
    initSettingValueBool FForceReload
  else if settingId =? ID_SETTING_MUZZLE_FLASH then
    initSettingValueBool FMuzzleFlash
  else if settingId =? ID_SETTINGS_INVERTED_FIRE_SELECTOR then
    initSettingValueBool FInvertedFireSelector
  else ret tt.

(** *** Mode menu page management (the drawing is left out) *)

Definition moveMenuCursorTo (menuRow : Z) : M unit :=
  pos <- getsMenu currMenuCursorPos ;;
  if menuRow =? pos then ret tt
  else
    (sid <- mapMenuRowToSettingId menuRow ;;
     if sid =? -1 then ret tt
     else modifyMenu (set_currMenuCursorPos menuRow)).

Definition displayMenuPage (page menuRow : Z) : M unit :=
  if page >=? numMenuPages then ret tt
  else
    (modifyMenu (set_currMenuPage page) ;;
     modifyMenu (set_currMenuPageFirstSettingId
                   (page * NUM_MAX_SETTINGS_PER_MENU_PAGE)) ;;
     first <- getsMenu currMenuPageFirstSettingId ;;
     modifyMenu (set_currMenuPageNumSettings
                   (evalMenuPageNumSettingsByFirstSettingId first)) ;;
     modifyMenu (set_currMenuCursorPos (-1)) ;;
     moveMenuCursorTo menuRow).

Definition moveMenuCursorUp : M unit :=
  pos <- getsMenu currMenuCursorPos ;;
  page <- getsMenu currMenuPage ;;
  if pos >? 0 then moveMenuCursorTo (pos - 1)
  else if page >? 0
  then (let precPage := page - 1 in
        displayMenuPage precPage (evalMenuPageNumSettings precPage - 1))
  else ret tt.

Definition moveMenuCursorDown : M unit :=
  pos <- getsMenu currMenuCursorPos ;;
  num <- getsMenu currMenuPageNumSettings ;;
  page <- getsMenu currMenuPage ;;
  if pos <? num - 1 then moveMenuCursorTo (pos + 1)
  else if page <? numMenuPages - 1 then displayMenuPage (page + 1) 0
  else ret tt.

(** *** Mode modify setting management *)

Definition displayPageForSettingModify : M unit :=
  pos <- getsMenu currMenuCursorPos ;;
  settingId <- mapMenuRowToSettingId pos ;;
  getSettingValue settingId ;;
  modifyMenu (set_currPressButtonId ID_BUTTON_INVALID).

Definition updateMenuPage : M Z :=
  up <- thereIsANewPress ID_BUTTON_JOY_UP ;;
  if up then (moveMenuCursorUp ;; ret MENU_CONTINUE)
  else
    (down <- thereIsANewPress ID_BUTTON_JOY_DOWN ;;
     if down then (moveMenuCursorDown ;; ret MENU_CONTINUE)
     else
       (left <- thereIsANewPress ID_BUTTON_JOY_LEFT ;;
        if left then ret MENU_DISCARD_AND_EXIT
        else
          (right <- thereIsANewPress ID_BUTTON_JOY_RIGHT ;;
           if right then ret MENU_SAVE_AND_EXIT
           else
             (sel <- thereIsANewPress ID_BUTTON_JOY_SELECT ;;
              if sel
              then (modifyMenu (set_menuMode MENU_MODE_MODIFY_SETTING) ;;
                    displayPageForSettingModify ;;
                    ret MENU_CONTINUE)
              else ret MENU_CONTINUE)))).

(** The caller guards this function by [valueType == SETTING_TYPE_BOOL]. *)
Definition toggleCurrBoolValue (sv : SettingValue) : SettingValue :=
  match sv with
  | SVBool ptr cur => SVBool ptr (negb cur)
  | _ => sv
  end.

Definition updateMenuSettingBool : M unit :=
  up <- thereIsANewPress ID_BUTTON_JOY_UP ;;
  if up
  then modifyMenu (fun m => set_settingValue (toggleCurrBoolValue (settingValue m)) m)
  else
    (down <- thereIsANewPress ID_BUTTON_JOY_DOWN ;;
     if down
     then modifyMenu (fun m =>
            set_settingValue (toggleCurrBoolValue (settingValue m)) m)
     else ret tt).

(** All the operands are [unsigned int]. *)
Definition incDecSettingValue (delta : Z) (doIncrement : bool)
    (sv : SettingValue) : SettingValue :=
  match sv with
  | SVUInt ptr cur vmin vmax lpd =>
      if doIncrement
      then
        (if cur <? vmax
         then SVUInt ptr
                (if cur <? wrap16 (vmax - delta)
                 then wrap16 (cur + delta) else vmax)
                vmin vmax lpd
         else sv)
      else
        (if cur >? vmin
         then SVUInt ptr
                (if cur >? wrap16 (vmin + delta)
                 then wrap16 (cur - delta) else vmin)
                vmin vmax lpd
         else sv)
  | _ => sv
  end.

Definition incDecAndDisplaySettingValue (delta : Z) (doIncrement : bool)
  : M unit :=
  modifyMenu (fun m =>
    set_settingValue (incDecSettingValue delta doIncrement (settingValue m)) m).

Definition longPressDeltaOf (sv : SettingValue) : Z :=
  match sv with
  | SVUInt _ _ _ _ lpd => lpd
  | _ => 0
  end.

(** Manages short and long presses of the cursor up/down buttons. *)
Definition manageCursorUpDown (buttonId : Z) (doIncrement : bool) : M bool :=
  new <- thereIsANewPress buttonId ;;
  if new
  then
    (now <- millis ;;
     modifyMenu (set_currPressStartTimeMs now) ;;
     modifyMenu (set_lastModificationTimeMs now) ;;
     modifyMenu (set_currPressButtonId buttonId) ;;
     incDecAndDisplaySettingValue 1 doIncrement ;;
     ret true)
  else
    (pressed <- buttonIsPressed buttonId ;;
     cur <- getsMenu currPressButtonId ;;
     if negb pressed
     then
       ((if cur =? buttonId
         then modifyMenu (set_currPressButtonId ID_BUTTON_INVALID)
         else ret tt) ;;
        ret false)
     else if negb (cur =? buttonId)
     then (modifyMenu (set_currPressButtonId ID_BUTTON_INVALID) ;; ret true)
     else
       (timeNowMs <- millis ;;
        start <- getsMenu currPressStartTimeMs ;;
        lastMod <- getsMenu lastModificationTimeMs ;;
        if (wrap32 (timeNowMs - start) >=? minDurationForLongPressMs)
           && (wrap32 (timeNowMs - lastMod) >=? longPressIntervalBetweenIncDecMs)
        then
          (modifyMenu (set_lastModificationTimeMs timeNowMs) ;;
           lpd <- getsMenu (fun m => longPressDeltaOf (settingValue m)) ;;
           incDecAndDisplaySettingValue lpd doIncrement ;;
           ret true)
        else ret true)).

Definition updateMenuSettingUInt : M unit :=
  up <- manageCursorUpDown ID_BUTTON_JOY_UP true ;;
  if up then ret tt
  else (_ <- manageCursorUpDown ID_BUTTON_JOY_DOWN false ;; ret tt).

Definition updateMenuSetting : M unit :=
  left <- thereIsANewPress ID_BUTTON_JOY_LEFT ;;
  if left
  then
    (modifyMenu (set_menuMode MENU_MODE_DISPLAY_MENU_PAGE) ;;
     page <- getsMenu currMenuPage ;;
     pos <- getsMenu currMenuCursorPos ;;
     displayMenuPage page pos)
  else
    (right <- thereIsANewPress ID_BUTTON_JOY_RIGHT ;;
     if right
     then
       (commitSetting ;;
        modifyMenu (set_menuMode MENU_MODE_DISPLAY_MENU_PAGE) ;;
        page <- getsMenu currMenuPage ;;
        pos <- getsMenu currMenuCursorPos ;;
        displayMenuPage page pos)
     else
       (sv <- getsMenu settingValue ;;
        match sv with
        | SVUInt _ _ _ _ _ => updateMenuSettingUInt
        | SVBool _ _ => updateMenuSettingBool
        | SVUnset => ret tt
        end)).

(** *** Top level menu interface *)

Definition settingsEqual (a b : Settings) : bool :=
  Bool.eqb (binaryTrigger a) (binaryTrigger b) &&
  Bool.eqb (forceReload a) (forceReload b) &&
  Bool.eqb (fullAutoBurst a) (fullAutoBurst b) &&
  Bool.eqb (invertedFireSelector a) (invertedFireSelector b) &&
  Bool.eqb (muzzleFlash a) (muzzleFlash b) &&
  (burstDelayMs a =? burstDelayMs b) &&
  (shotDelayMs a =? shotDelayMs b) &&
  (dwellMs a =? dwellMs b) &&
  (triggerDebouncingMs a =? triggerDebouncingMs b) &&
  (numShotsPerBurst a =? numShotsPerBurst b) &&
  (shotLimit a =? shotLimit b).

(** [commitSettings(settings)], called on the global [settings]. *)
Definition commitSettings : M bool :=
  st <- gets settings ;;
  ts <- getsMenu tempSettings ;;
  if settingsEqual st ts then ret false
  else (modify (set_settings ts) ;; ret true).

Definition displayMenuExitMessage (msgId delayMs : Z) : M unit :=
  emit (MenuExitMessage msgId) ;;
  delay delayMs.

(** [displayFirstMenuPage(settings)], called on the global [settings]. *)
Definition displayFirstMenuPage : M unit :=
  st <- gets settings ;;
  modifyMenu (set_tempSettings st) ;;
  modifyMenu (set_menuMode MENU_MODE_DISPLAY_MENU_PAGE) ;;
  displayMenuPage 0 0.

Definition updateMenu : M Z :=
  mode <- getsMenu menuMode ;;
  if mode =? MENU_MODE_DISPLAY_MENU_PAGE then updateMenuPage
  else if mode =? MENU_MODE_MODIFY_SETTING
  then (updateMenuSetting ;; ret MENU_CONTINUE)
  else ret MENU_CONTINUE.

(** ** Main sketch: menu and idle states, setup and loop *)

Definition saveNewSettingsToEepromAndDisplayExitMessage : M unit :=
  modified <- commitSettings ;;
  if negb modified
  then displayMenuExitMessage ID_MENU_EXIT_MESSAGE_NOT_MODIFIED
         MENU_EXIT_MESSAGE_DURATION_MS
  else
    (saveSettingsToEeprom ;;
     displayMenuExitMessage ID_MENU_EXIT_MESSAGE_SAVED
       MENU_EXIT_MESSAGE_DURATION_MS).

Definition transitionToStatusMenu : M unit :=
  displayFirstMenuPage ;;
  modify (set_status STATUS_MENU).

Definition manageStatusMenu : M unit :=
  r <- updateMenu ;;
  if r =? MENU_SAVE_AND_EXIT
  then (saveNewSettingsToEepromAndDisplayExitMessage ;; transitionToStatusIdle)
  else if r =? MENU_DISCARD_AND_EXIT
  then (displayMenuExitMessage ID_MENU_EXIT_MESSAGE_DISCARDED
          MENU_EXIT_MESSAGE_DURATION_MS ;;
        transitionToStatusIdle)
  else ret tt.

Definition manageStatusIdle (w : World) : M unit :=
  trig <- isTriggerPressed w ;;
  if trig
  then
    (auto <- isFireSelectorInAutoPosition ;;
     if auto then transitionToStatusFullAuto
     else transitionToStatusSemiAuto)
  else
    (sel <- thereIsANewJoySelectPress ;;
     if sel then transitionToStatusMenu else ret tt).

Definition oledDisplayInit : M unit :=
  delay 250 ;;
  delay 2000.

Definition setup : M unit :=
  modify (set_shotCount 0) ;;
  oledDisplayInit ;;
  valid <- readSettingsFromEeprom ;;
  (if negb valid then saveSettingsToEeprom else ret tt) ;;
  transitionToStatusIdle.

Definition loop (w : World) : M unit :=
  readAllButtons w ;;
  st <- gets status ;;
  if st =? STATUS_IDLE then manageStatusIdle w
  else if st =? STATUS_FULL_AUTO then manageStatusFullAuto w
  else if st =? STATUS_SEMI_AUTO then manageStatusSemiAuto w
  else if st =? STATUS_BINARY_TRIGGER_TAIL then manageStatusBinaryTriggerTail
  else if st =? STATUS_RELOAD then manageStatusReload
  else if st =? STATUS_MENU then manageStatusMenu
  else ret tt.

(** ** Executions *)

(** The globals at power-up, given the content of the EEPROM. *)
Definition initialMenu : Menu :=
  mkMenu 0 0 0 0 0 0 0 0 defaultSettings SVUnset.

Definition powerUp (stored : option Settings) : State :=
  mkState initialButtons defaultSettings 0 0 0 0 initialMenu stored 0 [].

Definition boot (stored : option Settings) : State :=
  exec setup (powerUp stored).

(** [dt] milliseconds pass, then [loop()] runs once. *)
Definition tick (dt : Z) (s : State) : State := set_clock (clock s + dt) s.

Definition cycle (w : World) (dt : Z) (s : State) : State :=
  exec (loop w) (tick dt s).

Fixpoint run (w : World) (dts : list Z) (s : State) : State :=
  match dts with
  | [] => s
  | dt :: rest => run w rest (cycle w dt s)
  end.

(** The states at the start of each iteration, and the final one. *)
Fixpoint trace (w : World) (dts : list Z) (s : State) : list State :=
  match dts with
  | [] => [s]
  | dt :: rest => s :: trace w rest (cycle w dt s)
  end.

(** A state the device can be in: some stored settings, some behaviour of
    the input pins, and some pace of the control loop. *)
Definition reachable (s : State) : Prop :=
  exists (stored : option Settings) (w : World) (dts : list Z),
    Forall (fun dt => 0 <= dt) dts /\ s = run w dts (boot stored).

(** What the handler of an iteration sees: the state once the buttons have
    been read. *)
Definition snapshot (w : World) (dt : Z) (s : State) : State :=
  exec (readAllButtons w) (tick dt s).

(** The number of times the solenoid has been energised. *)
Definition isShot (e : Event) : bool :=
  match e with
  | DigitalWrite p v => (p =? solenoidPin) && (v =? SOLENOID_ON)
  | _ => false
  end.

Definition shotsFired (s : State) : nat := length (List.filter isShot (outputs s)).

(** * Definitions for the properties

    Helper notions, and the concrete scenarios (behaviours of the input
    pins, states reached) on which the properties are tried. *)

(** Every pin is [HIGH] (pulled up), except that pin [p] is [LOW] from
    instant [a] up to but excluding instant [b], for each [(p, a, b)]. *)
Definition lowDuring (presses : list (Z * Z * Z)) : World :=
  fun p t =>
    negb (existsb (fun '(q, a, b) => (q =? p) && (a <=? t) && (t <? b))
            presses).

(** The values of an [unsigned int]. *)
Definition uint16 (x : Z) : Prop := 0 <= x < 2 ^ 16.

(** What one poll does to a channel, at instant [c] of world [w]. *)
Definition pollAt (w : World) (c : Z) (bd : ButtonData) : ButtonData :=
  readButtonWithDebouncing_bd (wrap32 c) (if w (pin bd) c then HIGH else LOW) bd.

(** The [switch (status)] of [loop()]. *)
Definition handlerOf (w : World) (st : Z) : M unit :=
  if st =? STATUS_IDLE then manageStatusIdle w
  else if st =? STATUS_FULL_AUTO then manageStatusFullAuto w
  else if st =? STATUS_SEMI_AUTO then manageStatusSemiAuto w
  else if st =? STATUS_BINARY_TRIGGER_TAIL then manageStatusBinaryTriggerTail
  else if st =? STATUS_RELOAD then manageStatusReload
  else if st =? STATUS_MENU then manageStatusMenu
  else ret tt.

(** The factory settings (limit 30, bursts of 3, force-reload enabled),
    with 29 shots counted. *)
Definition nearlyEmpty : State := set_shotCount 29 (boot None).

(** A computation that changes nothing but the buttons array and the
    variables of the menu. *)
Definition touchesOnlyMenu {A} (c : M A) : Prop :=
  forall s, exists bs m, snd (c s) = set_buttons bs (set_menu m s).

(** The factory settings with force-reload disabled, stored in the EEPROM. *)
Definition relaxedSettings : Settings :=
  mkSettings 200 400 200 50 3 30 false false false false false.

(** The entry to SEMI_AUTO under these settings. *)
Definition relaxedBurst : State :=
  exec transitionToStatusSemiAuto (boot (Some relaxedSettings)).

(** A burst in semi-automatic mode, then the selector is moved to the auto
    position and the trigger is pulled again. *)
Definition burstThenAuto : World :=
  lowDuring [ (triggerPin, 3000, 3100);
              (fireSelectorPin, 5000, 9000);
              (triggerPin, 5200, 9000) ].

(** The state after 169 iterations, 10 ms apart. *)
Definition afterBurst : State :=
  run burstThenAuto (repeat 10 169%nat) (boot None).

(** The selector is in the auto position and the trigger is pulled at
    3000 ms; it is released at 3100 ms in one world and held in the other. *)
Definition triggerHeld : World :=
  lowDuring [ (fireSelectorPin, 2300, 9000); (triggerPin, 3000, 4000) ].

Definition triggerReleased : World :=
  lowDuring [ (fireSelectorPin, 2300, 9000); (triggerPin, 3000, 3100) ].

(** The state after 75 iterations, 10 ms apart: both worlds lead to it. *)
Definition firing : State := run triggerHeld (repeat 10 75%nat) (boot None).

(** What an iteration sees of the magazine switch: the debounced state of
    its button once the buttons have been read; [true] is "present". *)
Definition magazineSeen (w : World) (dt : Z) (s : State) : bool :=
  eval isMagazineButtonPressed (snapshot w dt s).

(** The readings of the magazine switch, iteration by iteration. *)
Fixpoint magazineReadings (w : World) (dts : list Z) (s : State) : list bool :=
  match dts with
  | [] => []
  | dt :: rest => magazineSeen w dt s :: magazineReadings w rest (cycle w dt s)
  end.

(** The magazine is in place at power-up, is taken out at 3000 ms and put
    back at 3500 ms. *)
Definition magazineSwap : World :=
  lowDuring [ (magazinePin, 0, 3000); (magazinePin, 3500, 9000) ].

(** The state after 20 iterations, 10 ms apart. *)
Definition beforeReload : State :=
  run magazineSwap (repeat 10 20%nat) (boot None).

(** A burst of three shots, then the menu: the cursor is moved down to
    "Shot limit", the value is lowered from 30 to 1 with a long press on
    "down", the value is kept ("right") and the settings are saved
    ("right"). *)
Definition lowerTheLimit : World :=
  lowDuring [ (triggerPin, 3000, 3100);
              (joySelectPin, 5000, 5100);
              (joyDownPin, 5300, 5400); (joyDownPin, 5500, 5600);
              (joyDownPin, 5700, 5800); (joyDownPin, 5900, 6000);
              (joyDownPin, 6100, 6200);
              (joySelectPin, 6400, 6500);
              (joyDownPin, 6700, 9700);
              (joyRightPin, 10000, 10100);
              (joyRightPin, 10300, 10400) ].

(** The state after 750 iterations, 10 ms apart. *)
Definition limitLowered : State :=
  run lowerTheLimit (repeat 10 750%nat) (boot None).

(** A channel polled at the instants and with the raw levels of [samples]. *)
Fixpoint pollAll (samples : list (Z * Z)) (bd : ButtonData) : ButtonData :=
  match samples with
  | [] => bd
  | (t, v) :: rest =>
      pollAll rest (readButtonWithDebouncing_bd (wrap32 t) v bd)
  end.

(** The debounced state after each poll. *)
Fixpoint debouncedAfter (samples : list (Z * Z)) (bd : ButtonData) : list Z :=
  match samples with
  | [] => []
  | (t, v) :: rest =>
      let bd' := readButtonWithDebouncing_bd (wrap32 t) v bd in
      lastValidStatus bd' :: debouncedAfter rest bd'
  end.

(** The raw level is [LOW] at every millisecond from 100 ms to 150 ms,
    and [HIGH] before and after; the channel is polled every millisecond. *)
Definition heldForTheWindow : list (Z * Z) :=
  map (fun k => (90 + Z.of_nat k, HIGH)) (seq 0 10)
  ++ map (fun k => (100 + Z.of_nat k, LOW)) (seq 0 51)
  ++ map (fun k => (151 + Z.of_nat k, HIGH)) (seq 0 100).

(** A channel that is polled and then asked for a new press, at each of
    [samples]: the debounced state and the answer, poll by poll. *)
Fixpoint edgeRun (samples : list (Z * Z)) (bd : ButtonData) : list (Z * bool) :=
  match samples with
  | [] => []
  | (t, v) :: rest =>
      let bd1 := readButtonWithDebouncing_bd (wrap32 t) v bd in
      let (r, bd2) := thereIsANewPress_bd bd1 in
      (lastValidStatus bd1, r) :: edgeRun rest bd2
  end.

(** The select button is pressed at 3000 ms and released at 3200 ms. *)
Definition onePress : list (Z * Z) :=
  [ (2990, HIGH); (3000, LOW); (3060, LOW); (3120, LOW); (3180, LOW);
    (3200, HIGH); (3260, HIGH); (3320, HIGH) ].

(** The instant of the latest poll of [samples] that found the raw level
    different from the recorded one; [t0] if there is none. *)
Fixpoint lastRawChange (samples : list (Z * Z)) (raw t0 : Z) : Z :=
  match samples with
  | [] => t0
  | (t, v) :: rest =>
      if v =? raw then lastRawChange rest raw t0 else lastRawChange rest v t
  end.

(** The instant of the latest poll of [samples] at which the debounced
    state became pressed; [acc] if there is none. *)
Fixpoint lastBecamePressed (samples : list (Z * Z)) (bd : ButtonData)
    (acc : option Z) : option Z :=
  match samples with
  | [] => acc
  | (t, v) :: rest =>
      let bd' := readButtonWithDebouncing_bd (wrap32 t) v bd in
      lastBecamePressed rest bd'
        (if buttonIsPressed_bd bd' && negb (buttonIsPressed_bd bd)
         then Some t else acc)
  end.

(** The button goes down at 1000 ms; the debounced state follows at the
    poll of 1051 ms. *)
Definition pressAt1000 : list (Z * Z) := [ (1000, LOW); (1051, LOW) ].

(** The output actions of one shot, in order. *)
Definition shotEvents (st : Settings) : list Event :=
  if muzzleFlash st
  then [ DigitalWrite solenoidPin SOLENOID_ON; DigitalWrite muzzlePin HIGH;
         Delay (dwellMs st);
         DigitalWrite solenoidPin SOLENOID_OFF; DigitalWrite muzzlePin LOW;
         Delay (shotDelayMs st) ]
  else [ DigitalWrite solenoidPin SOLENOID_ON; Delay (dwellMs st);
         DigitalWrite solenoidPin SOLENOID_OFF; Delay (shotDelayMs st) ].

(** The state a shot leaves behind. *)
Definition afterShot (s : State) : State :=
  let st := settings s in
  set_clock (clock s + dwellMs st + shotDelayMs st)
    (set_outputs (outputs s ++ shotEvents st)
       (if forceReload st
        then set_shotCount (wrap16 (shotCount s + 1)) s else s)).

(** Whether the log leaves the solenoid energised: the value of the last
    write to its pin, which is de-energised at power-up. *)
Definition energised (log : list Event) : bool :=
  fold_left
    (fun b e =>
       match e with
       | DigitalWrite p v => if p =? solenoidPin then v =? SOLENOID_ON else b
       | _ => b
       end)
    log false.

(** The time that the pauses between the iterations add up to. *)
Definition totalTime (dts : list Z) : Z := fold_right Z.add 0 dts.

(** The fire selector is held down and its debounced state is pressed:
    the first channel of the array is the one of the selector pin. *)
Definition selectorHeld (bs : list ButtonData) : Prop :=
  exists bd,
    bs !! 0%nat = Some bd /\ pin bd = fireSelectorPin /\
    buttonStatus bd = BUTTON_PRESSED /\ lastValidStatus bd = BUTTON_PRESSED.

(** The fire selector is held down from 2300 ms on and the trigger from
    3000 ms on, for ever. *)
Definition sustainedFire : World :=
  fun p t =>
    negb (((p =? fireSelectorPin) && (2300 <=? t))
          || ((p =? triggerPin) && (3000 <=? t))).

(** FULL_AUTO has just been entered, after 75 iterations 10 ms apart. *)
Definition sustained : State := run sustainedFire (repeat 10 75%nat) (boot None).

(** The cursor of the menu is on a setting that exists: the page is one of
    the [numMenuPages] pages, the first setting and the number of settings
    of the page are the ones of that page, and the cursor is on one of
    its rows. *)
Definition menuCursorOk (m : Menu) : Prop :=
  0 <= currMenuPage m < numMenuPages /\
  currMenuPageFirstSettingId m = currMenuPage m * NUM_MAX_SETTINGS_PER_MENU_PAGE /\
  currMenuPageNumSettings m = evalMenuPageNumSettings (currMenuPage m) /\
  0 <= currMenuCursorPos m < currMenuPageNumSettings m.

(** The value being edited, when it is a number. *)
Definition currUIntOf (sv : SettingValue) : Z :=
  match sv with
  | SVUInt _ cur _ _ _ => cur
  | _ => 0
  end.

(** The select button of the joystick is pressed at 3000 ms. *)
Definition selectPressed : World := lowDuring [ (joySelectPin, 3000, 3100) ].

(** Iteration 80, at 3050 ms, has not seen the press debounced yet; the
    next one, at 3060 ms, does. *)
Definition beforeMenu : State :=
  run selectPressed (repeat 10 80%nat) (boot None).

(** In the scenario that lowers the shot limit, the state before the
    iteration that saves the settings. *)
Definition beforeSave : State :=
  run lowerTheLimit (repeat 10 685%nat) (boot None).

(** The setting under the cursor, counted from the first setting of the
    first page. *)
Definition selectedSetting (m : Menu) : Z :=
  currMenuPageFirstSettingId m + currMenuCursorPos m.

(** In the scenario that lowers the shot limit, a state in the middle of
    the long press on "down", at 9500 ms. *)
Definition duringLongPress : State :=
  run lowerTheLimit (repeat 10 600%nat) (boot None).

(** The scenario that lowers the shot limit, followed by a pull of the
    trigger at 13500 ms, once the settings have been saved. *)
Definition lowerTheLimitThenFire : World :=
  fun p t =>
    lowerTheLimit p t && lowDuring [ (triggerPin, 13500, 13600) ] p t.

(** The state after 800 iterations, 10 ms apart: the iteration at 13500 ms
    has seen the trigger, and the next one attempts the first shot. *)
Definition triggerPulledAboveTheLimit : State :=
  run lowerTheLimitThenFire (repeat 10 800%nat) (boot None).

(** * Properties *)

(** ** Proof tools *)

Ltac unfold_m :=
  unfold bind, ret, gets, getsMenu, modify, modifyMenu, exec, eval, emit,
    digitalWrite, delay, millis, digitalRead in *.

Lemma wrap16_small x : uint16 x -> wrap16 x = x.
Proof. unfold uint16, wrap16. intros H. now apply Z.mod_small. Qed.

Lemma geb_true a b : b <= a -> (a >=? b) = true.
Proof. intros H. rewrite Z.geb_leb. now apply Z.leb_le. Qed.

Lemma geb_false a b : a < b -> (a >=? b) = false.
Proof. intros H. rewrite Z.geb_leb. now apply Z.leb_gt. Qed.

(** Reading the buttons changes the array [buttons] and nothing else. *)
Lemma readButtonWithDebouncing_frame w i s :
  exists bs, readButtonWithDebouncing w i s = (tt, set_buttons bs s).
Proof.
  unfold readButtonWithDebouncing.
  destruct (getButton (buttons s) i) as [bd|].
  - unfold_m. cbn. eexists. reflexivity.
  - exists (buttons s). now destruct s.
Qed.

Lemma forButtons_frame w n : forall i s,
  exists bs, forButtons w n i s = (tt, set_buttons bs s).
Proof.
  induction n as [|n IH]; intros i s; cbn [forButtons].
  - exists (buttons s). now destruct s.
  - unfold bind.
    destruct (readButtonWithDebouncing_frame w i s) as [bs1 ->].
    destruct (IH (i + 1) (set_buttons bs1 s)) as [bs2 ->].
    exists bs2. reflexivity.
Qed.

Lemma readAllButtons_frame w s :
  exists bs, readAllButtons w s = (tt, set_buttons bs s).
Proof. unfold readAllButtons, bind, gets. apply forButtons_frame. Qed.

Lemma snapshot_frame w dt s :
  exists bs, snapshot w dt s = set_buttons bs (tick dt s).
Proof.
  unfold snapshot, exec.
  destruct (readAllButtons_frame w (tick dt s)) as [bs ->]. now exists bs.
Qed.

Lemma readButtonWithDebouncing_effect w i s :
  0 <= i ->
  clock (snd (readButtonWithDebouncing w i s)) = clock s /\
  buttons (snd (readButtonWithDebouncing w i s)) =
    match buttons s !! Z.to_nat i with
    | Some bd => <[Z.to_nat i := pollAt w (clock s) bd]> (buttons s)
    | None => buttons s
    end.
Proof.
  intros Hi. unfold readButtonWithDebouncing, getButton, setButton.
  replace (i <? 0) with false by (symmetry; apply Z.ltb_ge; lia).
  destruct (buttons s !! Z.to_nat i) as [bd|]; cbn; auto.
Qed.

Lemma forButtons_effect w n : forall i s (j : nat),
  0 <= i ->
  clock (snd (forButtons w n i s)) = clock s /\
  buttons (snd (forButtons w n i s)) !! j =
    if (i <=? Z.of_nat j) && (Z.of_nat j <? i + Z.of_nat n)
    then pollAt w (clock s) <$> (buttons s !! j)
    else buttons s !! j.
Proof.
  induction n as [|n IH]; intros i s j Hi.
  - cbn [forButtons ret snd]. split; [reflexivity|].
    replace ((i <=? Z.of_nat j) && (Z.of_nat j <? i + Z.of_nat 0)) with false;
      [reflexivity|].
    symmetry. apply andb_false_iff.
    destruct (Z_le_gt_dec i (Z.of_nat j));
      [right; apply Z.ltb_ge; lia|left; apply Z.leb_gt; lia].
  - cbn [forButtons]. unfold bind.
    destruct (readButtonWithDebouncing_effect w i s Hi) as [Hc Hb].
    destruct (readButtonWithDebouncing w i s) as [u s1]. cbn [snd] in Hc, Hb.
    destruct (IH (i + 1) s1 j ltac:(lia)) as [Hc' Hb'].
    rewrite Hc', Hb', Hc, Hb. split; [reflexivity|].
    destruct (Z.eq_dec i (Z.of_nat j)) as [E|E].
    + replace ((i + 1 <=? Z.of_nat j) && (Z.of_nat j <? i + 1 + Z.of_nat n))
        with false
        by (symmetry; apply andb_false_iff; left; apply Z.leb_gt; lia).
      replace ((i <=? Z.of_nat j) && (Z.of_nat j <? i + Z.of_nat (S n)))
        with true
        by (symmetry; apply andb_true_iff; split;
            [apply Z.leb_le|apply Z.ltb_lt]; lia).
      replace (Z.to_nat i) with j by lia.
      destruct (buttons s !! j) as [bd|] eqn:L; [|now rewrite L].
      rewrite list_lookup_insert_eq; [reflexivity|].
      now apply lookup_lt_Some in L.
    + replace ((i + 1 <=? Z.of_nat j) && (Z.of_nat j <? i + 1 + Z.of_nat n))
        with ((i <=? Z.of_nat j) && (Z.of_nat j <? i + Z.of_nat (S n))).
      2:{ destruct (Z_le_gt_dec i (Z.of_nat j)).
          - rewrite (proj2 (Z.leb_le i _)), (proj2 (Z.leb_le (i + 1) _)) by lia.
            cbn. destruct (Z.ltb_spec (Z.of_nat j) (i + Z.of_nat (S n)));
              symmetry; [apply Z.ltb_lt|apply Z.ltb_ge]; lia.
          - rewrite (proj2 (Z.leb_gt i _)), (proj2 (Z.leb_gt (i + 1) _)) by lia.
            reflexivity. }
      assert (L : forall bs : list ButtonData,
                 match buttons s !! Z.to_nat i with
                 | Some bd => <[Z.to_nat i := pollAt w (clock s) bd]> bs
                 | None => bs
                 end !! j = bs !! j).
      { intros bs. destruct (buttons s !! Z.to_nat i); [|reflexivity].
        apply list_lookup_insert_ne. lia. }
      rewrite L. reflexivity.
Qed.

(** One iteration polls every channel of the array exactly once, at the
    instant the iteration starts. *)
Lemma readAllButtons_polls_each_channel w s (j : nat) :
  buttons (exec (readAllButtons w) s) !! j
    = pollAt w (clock s) <$> (buttons s !! j).
Proof.
  unfold readAllButtons, exec, bind, gets.
  destruct (forButtons_effect w (length (buttons s)) 0 s j ltac:(lia))
    as [_ ->].
  destruct (buttons s !! j) as [bd|] eqn:L.
  - apply lookup_lt_Some in L.
    replace ((0 <=? Z.of_nat j) && (Z.of_nat j <? 0 + Z.of_nat (length (buttons s))))
      with true; [reflexivity|].
    symmetry; apply andb_true_iff; split; [apply Z.leb_le|apply Z.ltb_lt]; lia.
  - now destruct ((0 <=? Z.of_nat j)
                  && (Z.of_nat j <? 0 + Z.of_nat (length (buttons s)))).
Qed.

(** ** The shot executor *)

Lemma doOneShot_limit_reached s :
  forceReload (settings s) = true ->
  shotLimit (settings s) <= shotCount s ->
  doOneShot s = (false, s).
Proof.
  intros Hf Hl. unfold doOneShot. unfold_m. rewrite Hf.
  rewrite geb_true by exact Hl. reflexivity.
Qed.

Lemma doOneShot_counted s :
  forceReload (settings s) = true ->
  shotCount s < shotLimit (settings s) ->
  eval doOneShot s = true /\
  shotCount (exec doOneShot s) = wrap16 (shotCount s + 1) /\
  shotsFired (exec doOneShot s) = S (shotsFired s) /\
  status (exec doOneShot s) = status s /\
  settings (exec doOneShot s) = settings s /\
  currBurstShotCount (exec doOneShot s) = currBurstShotCount s /\
  reloadStatus (exec doOneShot s) = reloadStatus s /\
  buttons (exec doOneShot s) = buttons s.
Proof.
  intros Hf Hl. unfold doOneShot, fireShot, shotsFired. unfold_m. rewrite Hf.
  rewrite geb_false by exact Hl.
  destruct (muzzleFlash (settings s)); cbn;
    rewrite !List.filter_app, !length_app; cbn; repeat split; lia.
Qed.

Lemma doOneShot_uncounted s :
  forceReload (settings s) = false ->
  eval doOneShot s = true /\
  shotCount (exec doOneShot s) = shotCount s /\
  shotsFired (exec doOneShot s) = S (shotsFired s) /\
  status (exec doOneShot s) = status s /\
  settings (exec doOneShot s) = settings s /\
  currBurstShotCount (exec doOneShot s) = currBurstShotCount s /\
  reloadStatus (exec doOneShot s) = reloadStatus s /\
  buttons (exec doOneShot s) = buttons s.
Proof.
  intros Hf. unfold doOneShot, fireShot, shotsFired. unfold_m. rewrite Hf.
  destruct (muzzleFlash (settings s)); cbn;
    rewrite !List.filter_app, !length_app; cbn; repeat split; lia.
Qed.

(** C2.  The shot executor returns false if and only if force-reload is
    enabled and [shotCount >= shotLimit]; in that case the whole state,
    with the log of output actions, is unchanged.  In every other case it
    returns true and the shot counter is incremented exactly when
    force-reload is enabled. *)
Theorem doOneShot_outcomes (s : State) :
  uint16 (shotCount s) -> uint16 (shotLimit (settings s)) ->
  (eval doOneShot s = false <->
     forceReload (settings s) = true /\ shotCount s >= shotLimit (settings s))
  /\ (eval doOneShot s = false -> exec doOneShot s = s)
  /\ (eval doOneShot s <> false ->
        eval doOneShot s = true /\
        shotCount (exec doOneShot s) =
          (if forceReload (settings s) then shotCount s + 1 else shotCount s)).
Proof.
  intros Hc Hl.
  destruct (forceReload (settings s)) eqn:Hf.
  - destruct (Z_lt_le_dec (shotCount s) (shotLimit (settings s))) as [Hlt|Hge].
    + destruct (doOneShot_counted s Hf Hlt) as (Hr & Hsc & _).
      rewrite Hr, Hsc, wrap16_small by (unfold uint16 in *; lia).
      repeat split; intros; try discriminate; try lia;
        try (destruct H; lia).
    + pose proof (doOneShot_limit_reached s Hf Hge) as H.
      unfold eval, exec. rewrite H. cbn.
      repeat split; try reflexivity; try lia; intros; congruence.
  - destruct (doOneShot_uncounted s Hf) as (Hr & Hsc & _).
    rewrite Hr, Hsc.
    repeat split; intros; try discriminate; try lia;
      try (destruct H; discriminate).
Qed.

Lemma doOneShot_outcomes_witness :
  uint16 (shotCount (boot None)) /\
  uint16 (shotLimit (settings (boot None))) /\
  (eval doOneShot (boot None) = false -> exec doOneShot (boot None) = boot None).
Proof.
  assert (Hc : uint16 (shotCount (boot None))) by (cbn; unfold uint16; lia).
  assert (Hl : uint16 (shotLimit (settings (boot None))))
    by (cbn; unfold uint16; lia).
  split; [exact Hc|]. split; [exact Hl|].
  exact (proj1 (proj2 (doOneShot_outcomes (boot None) Hc Hl))).
Defined.

(** ** One iteration of the control loop *)

Lemma cycle_handler w dt s :
  cycle w dt s = exec (handlerOf w (status s)) (snapshot w dt s).
Proof.
  unfold cycle, snapshot, loop, exec, bind, gets.
  destruct (readAllButtons_frame w (tick dt s)) as [bs ->]. reflexivity.
Qed.

(** The fields that reading the buttons leaves alone. *)
Lemma snapshot_fields w dt s :
  status (snapshot w dt s) = status s /\
  settings (snapshot w dt s) = settings s /\
  shotCount (snapshot w dt s) = shotCount s /\
  currBurstShotCount (snapshot w dt s) = currBurstShotCount s /\
  reloadStatus (snapshot w dt s) = reloadStatus s /\
  outputs (snapshot w dt s) = outputs s /\
  menu (snapshot w dt s) = menu s /\
  clock (snapshot w dt s) = clock s + dt.
Proof.
  destruct (snapshot_frame w dt s) as [bs ->]. cbn. repeat split.
Qed.

Lemma snapshot_shotsFired w dt s : shotsFired (snapshot w dt s) = shotsFired s.
Proof.
  unfold shotsFired.
  destruct (snapshot_fields w dt s) as (_ & _ & _ & _ & _ & -> & _).
  reflexivity.
Qed.

(** The burst step shared by SEMI_AUTO and BINARY_TRIGGER_TAIL. *)
Lemma burst_step_shot n s :
  currBurstShotCount s < n ->
  forceReload (settings s) = true ->
  shotCount s < shotLimit (settings s) ->
  exists s',
    doNextShotAndGoToStatusReloadIfShotError n s = (false, s') /\
    status s' = status s /\
    settings s' = settings s /\
    shotCount s' = wrap16 (shotCount s + 1) /\
    currBurstShotCount s' = wrap16 (currBurstShotCount s + 1) /\
    shotsFired s' = S (shotsFired s).
Proof.
  intros Hb Hf Hl. unfold doNextShotAndGoToStatusReloadIfShotError.
  unfold bind at 1. unfold gets at 1.
  replace (currBurstShotCount s <? n) with true
    by (symmetry; apply Z.ltb_lt; exact Hb).
  unfold bind at 1.
  destruct (doOneShot_counted s Hf Hl)
    as (Hr & Hsc & Hsf & Hst & Hse & Hcb & _).
  unfold eval, exec in *. destruct (doOneShot s) as [ok s1]. cbn in *.
  subst ok. cbn. eexists. split; [reflexivity|].
  unfold shotsFired in *. cbn. rewrite Hcb. repeat split; assumption.
Qed.

Lemma burst_step_limit n s :
  currBurstShotCount s < n ->
  forceReload (settings s) = true ->
  shotLimit (settings s) <= shotCount s ->
  doNextShotAndGoToStatusReloadIfShotError n s =
    (false, exec transitionToStatusReload s).
Proof.
  intros Hb Hf Hl. unfold doNextShotAndGoToStatusReloadIfShotError.
  unfold bind at 1. unfold gets at 1.
  replace (currBurstShotCount s <? n) with true
    by (symmetry; apply Z.ltb_lt; exact Hb).
  unfold bind at 1. rewrite (doOneShot_limit_reached s Hf Hl). reflexivity.
Qed.

Lemma handlerOf_idle w : handlerOf w STATUS_IDLE = manageStatusIdle w.
Proof. reflexivity. Qed.
Lemma handlerOf_full_auto w :
  handlerOf w STATUS_FULL_AUTO = manageStatusFullAuto w.
Proof. reflexivity. Qed.
Lemma handlerOf_semi_auto w :
  handlerOf w STATUS_SEMI_AUTO = manageStatusSemiAuto w.
Proof. reflexivity. Qed.
Lemma handlerOf_tail w :
  handlerOf w STATUS_BINARY_TRIGGER_TAIL = manageStatusBinaryTriggerTail.
Proof. reflexivity. Qed.
Lemma handlerOf_reload w : handlerOf w STATUS_RELOAD = manageStatusReload.
Proof. reflexivity. Qed.
Lemma handlerOf_menu w : handlerOf w STATUS_MENU = manageStatusMenu.
Proof. reflexivity. Qed.

(** While the burst is not done the handlers of SEMI_AUTO and of
    BINARY_TRIGGER_TAIL do nothing but the burst step. *)
Lemma manageStatusSemiAuto_burst w s s' :
  doNextShotAndGoToStatusReloadIfShotError (numShotsPerBurst (settings s)) s
    = (false, s') ->
  exec (manageStatusSemiAuto w) s = s'.
Proof.
  intros H. unfold manageStatusSemiAuto, exec.
  unfold bind at 1. unfold gets at 1. unfold bind at 1. rewrite H.
  reflexivity.
Qed.

Lemma manageStatusBinaryTriggerTail_burst s s' :
  doNextShotAndGoToStatusReloadIfShotError (numShotsPerBurst (settings s)) s
    = (false, s') ->
  exec manageStatusBinaryTriggerTail s = s'.
Proof.
  intros H. unfold manageStatusBinaryTriggerTail, exec.
  unfold bind at 1. unfold gets at 1. unfold bind at 1. rewrite H.
  reflexivity.
Qed.

(** C1.  Forced-reload arithmetic: entering SEMI_AUTO with force-reload
    enabled, 29 shots counted, a limit of 30 and bursts of 3, the first
    iteration fires one shot and raises the counter to 30; the second
    iteration fires nothing and puts the machine in RELOAD, so that a
    single shot of the burst has been fired. *)
Theorem semi_auto_burst_stops_at_limit (w : World) (dt1 dt2 : Z) (s0 : State) :
  forceReload (settings s0) = true ->
  shotCount s0 = 29 ->
  shotLimit (settings s0) = 30 ->
  numShotsPerBurst (settings s0) = 3 ->
  let s := exec transitionToStatusSemiAuto s0 in
  let s1 := cycle w dt1 s in
  let s2 := cycle w dt2 s1 in
  (status s1 = STATUS_SEMI_AUTO /\ shotCount s1 = 30 /\
   currBurstShotCount s1 = 1 /\ shotsFired s1 = S (shotsFired s0)) /\
  (status s2 = STATUS_RELOAD /\ shotCount s2 = 30 /\
   currBurstShotCount s2 = 1 /\ shotsFired s2 = S (shotsFired s0)).
Proof.
  intros Hf Hc Hl Hn s s1 s2.
  assert (H1 : status s1 = STATUS_SEMI_AUTO /\ shotCount s1 = 30 /\
               currBurstShotCount s1 = 1 /\ shotsFired s1 = S (shotsFired s0) /\
               settings s1 = settings s0).
  { subst s1. rewrite cycle_handler.
    destruct (snapshot_fields w dt1 s) as (Hst & Hse & Hsc & Hcb & _).
    pose proof (snapshot_shotsFired w dt1 s) as Hsf.
    set (x := snapshot w dt1 s) in *.
    change (status s) with STATUS_SEMI_AUTO in *.
    change (settings s) with (settings s0) in *.
    change (shotCount s) with (shotCount s0) in *.
    change (currBurstShotCount s) with 0 in *.
    change (shotsFired s) with (shotsFired s0) in *.
    rewrite handlerOf_semi_auto.
    destruct (burst_step_shot (numShotsPerBurst (settings x)) x)
      as (x' & Hx & Hst' & Hse' & Hsc' & Hcb' & Hsf');
      try (rewrite ?Hse, ?Hcb, ?Hsc; lia || assumption).
    rewrite (manageStatusSemiAuto_burst w x x' Hx).
    rewrite Hst', Hsc', Hcb', Hsf', Hse', Hst, Hsc, Hcb, Hsf, Hse, Hc.
    repeat split. }
  destruct H1 as (Hst1 & Hsc1 & Hcb1 & Hsf1 & Hse1).
  split; [repeat split; assumption|].
  subst s2. rewrite cycle_handler.
  destruct (snapshot_fields w dt2 s1) as (Hst & Hse & Hsc & Hcb & _).
  pose proof (snapshot_shotsFired w dt2 s1) as Hsf.
  set (x := snapshot w dt2 s1) in *.
  rewrite Hst1, handlerOf_semi_auto.
  rewrite (manageStatusSemiAuto_burst w x (exec transitionToStatusReload x)).
  - unfold shotsFired in *. cbn. rewrite Hsc, Hcb, Hsf.
    repeat split; assumption.
  - apply burst_step_limit; rewrite ?Hse, ?Hcb, ?Hsc, ?Hse1; lia || assumption.
Qed.

Lemma semi_auto_burst_stops_at_limit_witness :
  (forceReload (settings nearlyEmpty) = true /\
   shotCount nearlyEmpty = 29 /\
   shotLimit (settings nearlyEmpty) = 30 /\
   numShotsPerBurst (settings nearlyEmpty) = 3) /\
  status (cycle (lowDuring []) 10
            (cycle (lowDuring []) 10
               (exec transitionToStatusSemiAuto nearlyEmpty)))
    = STATUS_RELOAD.
Proof.
  split; [repeat split|].
  exact (proj1 (proj2 (semi_auto_burst_stops_at_limit (lowDuring []) 10 10
           nearlyEmpty eq_refl eq_refl eq_refl eq_refl))).
Defined.

(** ** Computations that only touch the buttons and the menu *)

Lemma tom_ret {A} (a : A) : touchesOnlyMenu (ret a).
Proof. intros s. exists (buttons s), (menu s). now destruct s. Qed.

Lemma tom_gets {A} (f : State -> A) : touchesOnlyMenu (gets f).
Proof. intros s. exists (buttons s), (menu s). now destruct s. Qed.

Lemma tom_getsMenu {A} (f : Menu -> A) : touchesOnlyMenu (getsMenu f).
Proof. apply tom_gets. Qed.

Lemma tom_millis : touchesOnlyMenu millis.
Proof. apply tom_gets. Qed.

Lemma tom_buttonIsPressed i : touchesOnlyMenu (buttonIsPressed i).
Proof. apply tom_gets. Qed.

Lemma tom_modifyMenu f : touchesOnlyMenu (modifyMenu f).
Proof. intros s. exists (buttons s), (f (menu s)). now destruct s. Qed.

Lemma tom_thereIsANewPress i : touchesOnlyMenu (thereIsANewPress i).
Proof.
  intros s. unfold thereIsANewPress.
  destruct (getButton (buttons s) i) as [bd|].
  - destruct (thereIsANewPress_bd bd) as [r bd']. cbn.
    eexists _, (menu s). now destruct s.
  - exists (buttons s), (menu s). now destruct s.
Qed.

Lemma tom_bind {A B} (c : M A) (k : A -> M B) :
  touchesOnlyMenu c -> (forall a, touchesOnlyMenu (k a)) ->
  touchesOnlyMenu (bind c k).
Proof.
  intros Hc Hk s. unfold bind.
  destruct (Hc s) as (bs1 & m1 & H1). destruct (c s) as [a s1]. cbn in H1.
  destruct (Hk a s1) as (bs2 & m2 & H2). rewrite H2, H1.
  exists bs2, m2. reflexivity.
Qed.

Lemma tom_if {A} (b : bool) (c1 c2 : M A) :
  touchesOnlyMenu c1 -> touchesOnlyMenu c2 ->
  touchesOnlyMenu (if b then c1 else c2).
Proof. now destruct b. Qed.

Create HintDb fcu_frame.
#[export] Hint Resolve tom_ret tom_gets tom_getsMenu tom_millis
  tom_buttonIsPressed tom_modifyMenu tom_thereIsANewPress tom_if : fcu_frame.

Ltac tom_step :=
  first
    [ solve [auto with fcu_frame]
    | apply tom_if
    | apply tom_bind; [|intros ?]
    | match goal with
      | |- touchesOnlyMenu (match ?x with _ => _ end) => destruct x
      end ].

Ltac tom := repeat tom_step.

Lemma tom_mapMenuRowToSettingId r : touchesOnlyMenu (mapMenuRowToSettingId r).
Proof. unfold mapMenuRowToSettingId. tom. Qed.

Lemma tom_moveMenuCursorTo r : touchesOnlyMenu (moveMenuCursorTo r).
Proof.
  unfold moveMenuCursorTo. pose proof tom_mapMenuRowToSettingId. tom.
Qed.

Lemma tom_displayMenuPage p r : touchesOnlyMenu (displayMenuPage p r).
Proof. unfold displayMenuPage. pose proof tom_moveMenuCursorTo. tom. Qed.

Lemma tom_getSettingValue i : touchesOnlyMenu (getSettingValue i).
Proof.
  unfold getSettingValue, initSettingValueUInt, initSettingValueBool. tom.
Qed.

Lemma tom_commitSetting : touchesOnlyMenu commitSetting.
Proof. unfold commitSetting. tom. Qed.

Lemma tom_displayFirstMenuPage : touchesOnlyMenu displayFirstMenuPage.
Proof. unfold displayFirstMenuPage. pose proof tom_displayMenuPage. tom. Qed.

Lemma tom_incDecAndDisplaySettingValue d b :
  touchesOnlyMenu (incDecAndDisplaySettingValue d b).
Proof. apply tom_modifyMenu. Qed.

Lemma tom_manageCursorUpDown i b : touchesOnlyMenu (manageCursorUpDown i b).
Proof.
  unfold manageCursorUpDown. pose proof tom_incDecAndDisplaySettingValue. tom.
Qed.

Lemma tom_updateMenuPage : touchesOnlyMenu updateMenuPage.
Proof.
  unfold updateMenuPage, moveMenuCursorUp, moveMenuCursorDown,
    displayPageForSettingModify.
  pose proof tom_displayMenuPage. pose proof tom_moveMenuCursorTo.
  pose proof tom_mapMenuRowToSettingId. pose proof tom_getSettingValue. tom.
Qed.

Lemma tom_updateMenuSetting : touchesOnlyMenu updateMenuSetting.
Proof.
  unfold updateMenuSetting, updateMenuSettingUInt, updateMenuSettingBool.
  pose proof tom_displayMenuPage. pose proof tom_commitSetting.
  pose proof tom_manageCursorUpDown. tom.
Qed.

Lemma tom_updateMenu : touchesOnlyMenu updateMenu.
Proof.
  unfold updateMenu.
  pose proof tom_updateMenuPage. pose proof tom_updateMenuSetting. tom.
Qed.

Lemma manageStatusMenu_effect s :
  shotCount (exec manageStatusMenu s) = shotCount s /\
  currBurstShotCount (exec manageStatusMenu s) = currBurstShotCount s /\
  reloadStatus (exec manageStatusMenu s) = reloadStatus s /\
  shotsFired (exec manageStatusMenu s) = shotsFired s /\
  (status (exec manageStatusMenu s) = status s \/
   status (exec manageStatusMenu s) = STATUS_IDLE).
Proof.
  unfold manageStatusMenu, exec, bind.
  destruct (tom_updateMenu s) as (bs & m & H).
  destruct (updateMenu s) as [r s1]. cbn in H. subst s1.
  unfold saveNewSettingsToEepromAndDisplayExitMessage, commitSettings,
    saveSettingsToEeprom, displayMenuExitMessage, transitionToStatusIdle,
    shotsFired.
  unfold_m. cbn.
  repeat match goal with
         | |- context [if ?c then _ else _] => destruct c; cbn
         end;
    rewrite ?List.filter_app, ?length_app; cbn; repeat split; auto; lia.
Qed.

Lemma transitionToStatusMenu_effect s :
  shotCount (exec transitionToStatusMenu s) = shotCount s /\
  currBurstShotCount (exec transitionToStatusMenu s) = currBurstShotCount s /\
  reloadStatus (exec transitionToStatusMenu s) = reloadStatus s /\
  settings (exec transitionToStatusMenu s) = settings s /\
  outputs (exec transitionToStatusMenu s) = outputs s /\
  status (exec transitionToStatusMenu s) = STATUS_MENU.
Proof.
  unfold transitionToStatusMenu, exec, bind.
  destruct (tom_displayFirstMenuPage s) as (bs & m & H).
  destruct (displayFirstMenuPage s) as [r s1]. cbn in H. subst s1.
  cbn. repeat split.
Qed.

Ltac case_ifs :=
  repeat match goal with
         | |- context [if ?c then _ else _] => destruct c eqn:?; cbn
         end.

Lemma doOneShot_uncounted_run s :
  forceReload (settings s) = false ->
  exists s',
    doOneShot s = (true, s') /\
    shotCount s' = shotCount s /\
    status s' = status s /\
    settings s' = settings s /\
    currBurstShotCount s' = currBurstShotCount s /\
    reloadStatus s' = reloadStatus s /\
    buttons s' = buttons s.
Proof.
  intros Hf.
  destruct (doOneShot_uncounted s Hf) as (Hr & Hc & _ & Hs & Hse & Hb & Hrs & Hbt).
  unfold eval, exec in *. destruct (doOneShot s) as [ok s']. cbn in *.
  subst ok. exists s'. repeat split; assumption.
Qed.

Lemma doOneShot_counted_run s :
  forceReload (settings s) = true ->
  shotCount s < shotLimit (settings s) ->
  exists s',
    doOneShot s = (true, s') /\
    shotCount s' = wrap16 (shotCount s + 1) /\
    status s' = status s /\
    settings s' = settings s /\
    currBurstShotCount s' = currBurstShotCount s /\
    reloadStatus s' = reloadStatus s /\
    buttons s' = buttons s.
Proof.
  intros Hf Hl.
  destruct (doOneShot_counted s Hf Hl)
    as (Hr & Hc & _ & Hs & Hse & Hb & Hrs & Hbt).
  unfold eval, exec in *. destruct (doOneShot s) as [ok s']. cbn in *.
  subst ok. exists s'. repeat split; assumption.
Qed.

(** The calls that the symbolic runs keep folded. *)
#[local] Arguments doOneShot : simpl never.
#[local] Arguments transitionToStatusMenu : simpl never.
#[local] Arguments thereIsANewPress : simpl never.

(** Runs a handler symbolically: case analysis on every test, with the
    known outcomes [_ = (_, _)] of the calls that are kept folded. *)
Ltac run_handler :=
  unfold_m; cbn;
  repeat (first
            [ match goal with
              | H : _ = (_, _) |- _ => rewrite H
              end
            | match goal with
              | |- context [if ?c then _ else _] => destruct c eqn:?
              end ];
          cbn).

(** With force-reload disabled, an iteration in a firing state does not
    end in RELOAD and does not count the shot. *)
Lemma firing_step_without_force_reload w dt s :
  forceReload (settings s) = false ->
  status s = STATUS_FULL_AUTO \/ status s = STATUS_SEMI_AUTO \/
    status s = STATUS_BINARY_TRIGGER_TAIL ->
  status (cycle w dt s) <> STATUS_RELOAD /\
  shotCount (cycle w dt s) = shotCount s.
Proof.
  intros Hf Hs. rewrite cycle_handler.
  destruct (snapshot_fields w dt s) as (Hst & Hse & Hsc & _).
  set (x := snapshot w dt s) in *.
  rewrite <- Hse in Hf. rewrite <- Hsc. clearbody x.
  destruct (doOneShot_uncounted_run x Hf) as (x1 & E & Hc1 & Hs1 & _).
  destruct Hs as [Hs|[Hs|Hs]]; rewrite Hs in *.
  - rewrite handlerOf_full_auto.
    unfold manageStatusFullAuto, isFireSelectorInAutoPosition,
      buttonIsPressed, isTriggerPressed, transitionToStatusIdle,
      transitionToStatusReload.
    run_handler;
      rewrite ?Hs1, ?Hc1, ?Hst; split; (discriminate || reflexivity).
  - rewrite handlerOf_semi_auto.
    unfold manageStatusSemiAuto, doNextShotAndGoToStatusReloadIfShotError,
      isFireSelectorInAutoPosition, buttonIsPressed, isTriggerPressed,
      transitionToStatusIdle, transitionToStatusReload,
      transitionToStatusBinaryTriggerTail.
    run_handler;
      rewrite ?Hs1, ?Hc1, ?Hst; split; (discriminate || reflexivity).
  - rewrite handlerOf_tail.
    unfold manageStatusBinaryTriggerTail,
      doNextShotAndGoToStatusReloadIfShotError,
      transitionToStatusIdle, transitionToStatusReload.
    run_handler;
      rewrite ?Hs1, ?Hc1, ?Hst; split; (discriminate || reflexivity).
Qed.

Lemma trace_head w dts s : trace w dts s !! 0%nat = Some s.
Proof. destruct dts; reflexivity. Qed.

(** C10.  If force-reload is disabled at every iteration of an execution,
    then at every state of the execution (and at every state with the same
    settings) the shot executor returns true and leaves the shot counter
    alone, and no iteration that starts in FULL_AUTO, SEMI_AUTO or
    BINARY_TRIGGER_TAIL ends in RELOAD. *)
Theorem without_force_reload_no_reload (w : World) (dts : list Z) (s : State) :
  Forall (fun x => forceReload (settings x) = false) (trace w dts s) ->
  Forall (fun x => forall y, settings y = settings x ->
            eval doOneShot y = true /\
            shotCount (exec doOneShot y) = shotCount y)
         (trace w dts s)
  /\ (forall (i : nat) (x y : State),
        trace w dts s !! i = Some x ->
        trace w dts s !! S i = Some y ->
        status x = STATUS_FULL_AUTO \/ status x = STATUS_SEMI_AUTO \/
          status x = STATUS_BINARY_TRIGGER_TAIL ->
        status y <> STATUS_RELOAD).
Proof.
  intros HF. split.
  - revert HF. apply List.Forall_impl. intros x Hx y Hy.
    rewrite <- Hy in Hx.
    destruct (doOneShot_uncounted y Hx) as (Hr & Hc & _). now split.
  - revert s HF. induction dts as [|dt rest IH]; intros s HF i x y Hx Hy Hs.
    + destruct i; discriminate.
    + cbn [trace] in *. inversion HF as [|? ? Hhd Htl]; subst.
      destruct i as [|i].
      * cbn in Hx, Hy. injection Hx as <-. rewrite trace_head in Hy.
        injection Hy as <-.
        now apply firing_step_without_force_reload.
      * cbn in Hx, Hy. exact (IH _ Htl i x y Hx Hy Hs).
Qed.

Lemma without_force_reload_no_reload_witness :
  Forall (fun x => forceReload (settings x) = false)
         (trace (lowDuring []) [10; 10] relaxedBurst) /\
  (forall (i : nat) (x y : State),
      trace (lowDuring []) [10; 10] relaxedBurst !! i = Some x ->
      trace (lowDuring []) [10; 10] relaxedBurst !! S i = Some y ->
      status x = STATUS_FULL_AUTO \/ status x = STATUS_SEMI_AUTO \/
        status x = STATUS_BINARY_TRIGGER_TAIL ->
      status y <> STATUS_RELOAD).
Proof.
  assert (HF : Forall (fun x => forceReload (settings x) = false)
                 (trace (lowDuring []) [10; 10] relaxedBurst))
    by (repeat constructor).
  split; [exact HF|].
  exact (proj2 (without_force_reload_no_reload (lowDuring []) [10; 10]
                  relaxedBurst HF)).
Defined.

(** ** Leaving IDLE on a trigger press *)

(** C9, as the code has it.  When the trigger is pressed in IDLE, the
    machine goes to FULL_AUTO if the fire selector is in the auto position
    and to SEMI_AUTO otherwise.  The burst counter is reset to 0 on entry
    to SEMI_AUTO; on entry to FULL_AUTO, which does not use it, it keeps
    its value. *)
Theorem idle_trigger_press (w : World) (dt : Z) (s : State) :
  status s = STATUS_IDLE ->
  eval (isTriggerPressed w) (snapshot w dt s) = true ->
  (eval isFireSelectorInAutoPosition (snapshot w dt s) = true ->
     status (cycle w dt s) = STATUS_FULL_AUTO /\
     currBurstShotCount (cycle w dt s) = currBurstShotCount s) /\
  (eval isFireSelectorInAutoPosition (snapshot w dt s) = false ->
     status (cycle w dt s) = STATUS_SEMI_AUTO /\
     currBurstShotCount (cycle w dt s) = 0).
Proof.
  intros Hs Ht. rewrite cycle_handler, Hs, handlerOf_idle.
  destruct (snapshot_fields w dt s) as (_ & _ & _ & Hcb & _).
  set (x := snapshot w dt s) in *. clearbody x.
  unfold manageStatusIdle, exec, bind, eval in *.
  assert (Hx : isTriggerPressed w x = (true, x)).
  { revert Ht. unfold isTriggerPressed. unfold_m. cbn. now intros ->. }
  rewrite Hx.
  assert (Ha : snd (isFireSelectorInAutoPosition x) = x) by reflexivity.
  destruct (isFireSelectorInAutoPosition x) as [a x']. cbn in Ha. subst x'.
  cbn. split; intros ->; cbn; auto.
Qed.

Lemma idle_trigger_press_witness :
  status afterBurst = STATUS_IDLE /\
  eval (isTriggerPressed burstThenAuto) (snapshot burstThenAuto 10 afterBurst)
    = true /\
  status (cycle burstThenAuto 10 afterBurst) = STATUS_FULL_AUTO.
Proof.
  assert (Hs : status afterBurst = STATUS_IDLE) by (vm_compute; reflexivity).
  assert (Ht : eval (isTriggerPressed burstThenAuto)
                 (snapshot burstThenAuto 10 afterBurst) = true)
    by (vm_compute; reflexivity).
  split; [exact Hs|]. split; [exact Ht|].
  apply (proj1 (idle_trigger_press burstThenAuto 10 afterBurst Hs Ht)).
  vm_compute; reflexivity.
Defined.

(** C9, as the specification states it, fails: this reachable IDLE state
    has the trigger pressed, the next iteration enters FULL_AUTO, and the
    burst counter still holds the 3 shots of the burst fired before. *)
Lemma burst_counter_not_reset_on_full_auto :
  reachable afterBurst /\
  status afterBurst = STATUS_IDLE /\
  eval (isTriggerPressed burstThenAuto) (snapshot burstThenAuto 10 afterBurst)
    = true /\
  status (cycle burstThenAuto 10 afterBurst) = STATUS_FULL_AUTO /\
  currBurstShotCount (cycle burstThenAuto 10 afterBurst) = 3 /\
  currBurstShotCount (cycle burstThenAuto 10 afterBurst) <> 0.
Proof.
  split.
  - exists None, burstThenAuto, (repeat 10 169%nat). split; [|reflexivity].
    apply Forall_forall. intros d Hd. apply repeat_spec in Hd. lia.
  - vm_compute. repeat split; discriminate.
Qed.

(** ** What an iteration reads *)

Lemma isTriggerPressed_ext (w1 w2 : World) :
  (forall t, w1 triggerPin t = w2 triggerPin t) ->
  forall x, isTriggerPressed w1 x = isTriggerPressed w2 x.
Proof.
  intros H x. unfold isTriggerPressed. unfold_m. cbn. now rewrite H.
Qed.

Ltac same_trigger w H :=
  repeat
    match goal with
    | |- context [isTriggerPressed w ?y] => rewrite (isTriggerPressed_ext _ _ H y)
    | |- context [let (_, _) := ?c in _] => destruct c
    | |- context [if ?c then _ else _] => destruct c
    end.

Lemma handlerOf_ext (w1 w2 : World) (st : Z) (x : State) :
  (forall t, w1 triggerPin t = w2 triggerPin t) ->
  handlerOf w1 st x = handlerOf w2 st x.
Proof.
  intros H. unfold handlerOf.
  destruct (st =? STATUS_IDLE).
  { unfold manageStatusIdle, bind.
    rewrite (isTriggerPressed_ext _ _ H x). reflexivity. }
  destruct (st =? STATUS_FULL_AUTO).
  { unfold manageStatusFullAuto, bind. same_trigger w1 H; reflexivity. }
  destruct (st =? STATUS_SEMI_AUTO).
  { unfold manageStatusSemiAuto, bind. same_trigger w1 H; reflexivity. }
  reflexivity.
Qed.

(** C3, as the code has it.  The outcome of an iteration is determined by
    the state once the buttons have been read (the debounced snapshot of
    the fire selector, the magazine switch and the joystick) together with
    the level of the trigger pin, which is not debounced: the handlers read
    it from the pin at the moment they decide. *)
Theorem iteration_reads_snapshot_and_trigger
    (w1 w2 : World) (dt : Z) (s : State) :
  (forall t, w1 triggerPin t = w2 triggerPin t) ->
  snapshot w1 dt s = snapshot w2 dt s ->
  cycle w1 dt s = cycle w2 dt s.
Proof.
  intros Ht Hs. rewrite !cycle_handler, Hs. unfold exec.
  now rewrite (handlerOf_ext w1 w2 (status s) (snapshot w2 dt s) Ht).
Qed.

Lemma iteration_reads_snapshot_and_trigger_witness :
  (forall t, triggerHeld triggerPin t = lowDuring [(triggerPin, 3000, 4000)] triggerPin t) /\
  snapshot triggerHeld 10 (boot None)
    = snapshot (lowDuring [(triggerPin, 3000, 4000)]) 10 (boot None) /\
  cycle triggerHeld 10 (boot None)
    = cycle (lowDuring [(triggerPin, 3000, 4000)]) 10 (boot None).
Proof.
  assert (Ht : forall t, triggerHeld triggerPin t
                         = lowDuring [(triggerPin, 3000, 4000)] triggerPin t)
    by (intros t; reflexivity).
  assert (Hs : snapshot triggerHeld 10 (boot None)
               = snapshot (lowDuring [(triggerPin, 3000, 4000)]) 10 (boot None))
    by (vm_compute; reflexivity).
  split; [exact Ht|]. split; [exact Hs|].
  exact (iteration_reads_snapshot_and_trigger _ _ 10 (boot None) Ht Hs).
Defined.

(** C3, as the specification states it, fails.  The two worlds agree on
    every pin until well after the iteration starts (at 3010 ms), and the
    iteration takes the same debounced snapshot in both.  The handler of
    FULL_AUTO fires a shot, which blocks for 400 ms, and then reads the
    trigger pin again: the machine stays in FULL_AUTO in one world and
    leaves for IDLE in the other. *)
Lemma trigger_is_resampled_within_iteration :
  reachable firing /\
  run triggerReleased (repeat 10 75%nat) (boot None) = firing /\
  status firing = STATUS_FULL_AUTO /\
  clock firing + 10 = 3010 /\
  (forall p t, t < 3100 -> triggerHeld p t = triggerReleased p t) /\
  snapshot triggerHeld 10 firing = snapshot triggerReleased 10 firing /\
  status (cycle triggerHeld 10 firing) = STATUS_FULL_AUTO /\
  status (cycle triggerReleased 10 firing) = STATUS_IDLE /\
  cycle triggerHeld 10 firing <> cycle triggerReleased 10 firing.
Proof.
  split.
  { exists None, triggerHeld, (repeat 10 75%nat). split; [|reflexivity].
    apply Forall_forall. intros d Hd. apply repeat_spec in Hd. lia. }
  split; [vm_compute; reflexivity|].
  split; [vm_compute; reflexivity|].
  split; [vm_compute; reflexivity|].
  split.
  { intros p t Ht. unfold triggerHeld, triggerReleased, lowDuring.
    cbn [existsb].
    rewrite (proj2 (Z.ltb_lt t 4000)) by lia.
    rewrite (proj2 (Z.ltb_lt t 3100)) by lia. reflexivity. }
  split; [vm_compute; reflexivity|].
  assert (H1 : status (cycle triggerHeld 10 firing) = STATUS_FULL_AUTO)
    by (vm_compute; reflexivity).
  assert (H2 : status (cycle triggerReleased 10 firing) = STATUS_IDLE)
    by (vm_compute; reflexivity).
  split; [exact H1|]. split; [exact H2|].
  intros E. rewrite E in H1. rewrite H1 in H2. clear E H1.
  discriminate H2.
Qed.

(** ** The reload cycle *)

Lemma reload_step_waiting_out w dt s :
  status s = STATUS_RELOAD ->
  reloadStatus s = RELOAD_WAITING_FOR_MAGAZINE_OUT ->
  status (cycle w dt s) = STATUS_RELOAD /\
  shotCount (cycle w dt s) = shotCount s /\
  reloadStatus (cycle w dt s) =
    (if magazineSeen w dt s then RELOAD_WAITING_FOR_MAGAZINE_OUT
     else RELOAD_WAITING_FOR_MAGAZINE_IN).
Proof.
  intros Hs Hr. rewrite cycle_handler, Hs, handlerOf_reload.
  unfold magazineSeen.
  destruct (snapshot_fields w dt s) as (Hst & _ & Hsc & _ & Hrs & _).
  set (x := snapshot w dt s) in *. clearbody x.
  unfold manageStatusReload, isMagazineButtonPressed, buttonIsPressed.
  unfold_m. cbn. rewrite Hrs, Hr. cbn.
  destruct (buttons x !! Z.to_nat ID_BUTTON_MAGAZINE) as [bd|];
    [destruct (buttonIsPressed_bd bd)|]; cbn; repeat split; congruence.
Qed.

Lemma reload_step_waiting_in w dt s :
  status s = STATUS_RELOAD ->
  reloadStatus s = RELOAD_WAITING_FOR_MAGAZINE_IN ->
  if magazineSeen w dt s
  then status (cycle w dt s) = STATUS_IDLE /\ shotCount (cycle w dt s) = 0
  else status (cycle w dt s) = STATUS_RELOAD /\
       shotCount (cycle w dt s) = shotCount s /\
       reloadStatus (cycle w dt s) = RELOAD_WAITING_FOR_MAGAZINE_IN.
Proof.
  intros Hs Hr. rewrite cycle_handler, Hs, handlerOf_reload.
  unfold magazineSeen.
  destruct (snapshot_fields w dt s) as (Hst & _ & Hsc & _ & Hrs & _).
  set (x := snapshot w dt s) in *. clearbody x.
  unfold manageStatusReload, isMagazineButtonPressed, buttonIsPressed,
    transitionToStatusIdle.
  unfold_m. cbn. rewrite Hrs, Hr. cbn.
  destruct (buttons x !! Z.to_nat ID_BUTTON_MAGAZINE) as [bd|];
    [destruct (buttonIsPressed_bd bd)|]; cbn; repeat split; congruence.
Qed.

(** The only way out of RELOAD is to IDLE, with the shot counter at 0. *)
Lemma reload_step_exit w dt s :
  status s = STATUS_RELOAD ->
  status (cycle w dt s) <> STATUS_RELOAD ->
  status (cycle w dt s) = STATUS_IDLE /\ shotCount (cycle w dt s) = 0 /\
  magazineSeen w dt s = true.
Proof.
  intros Hs Hne.
  destruct (Z.eq_dec (reloadStatus s) RELOAD_WAITING_FOR_MAGAZINE_OUT) as [Ho|Ho].
  { destruct (reload_step_waiting_out w dt s Hs Ho) as (H & _). contradiction. }
  destruct (Z.eq_dec (reloadStatus s) RELOAD_WAITING_FOR_MAGAZINE_IN) as [Hi|Hi].
  { pose proof (reload_step_waiting_in w dt s Hs Hi) as H.
    destruct (magazineSeen w dt s).
    - destruct H. now repeat split.
    - destruct H as (H & _). contradiction. }
  exfalso. apply Hne. rewrite cycle_handler, Hs, handlerOf_reload.
  destruct (snapshot_fields w dt s) as (Hst & _ & _ & _ & Hrs & _).
  set (x := snapshot w dt s) in *. clearbody x.
  unfold manageStatusReload. unfold_m. cbn. rewrite Hrs.
  apply Z.eqb_neq in Ho, Hi. rewrite Ho, Hi. cbn. congruence.
Qed.

Lemma reload_run_waiting_in w : forall dts s,
  status s = STATUS_RELOAD ->
  reloadStatus s = RELOAD_WAITING_FOR_MAGAZINE_IN ->
  status (run w dts s) <> STATUS_RELOAD ->
  exists j : nat, magazineReadings w dts s !! j = Some true.
Proof.
  induction dts as [|dt rest IH]; intros s Hs Hr Hne;
    cbn [run magazineReadings] in *.
  - contradiction.
  - pose proof (reload_step_waiting_in w dt s Hs Hr) as H.
    destruct (magazineSeen w dt s).
    + exists 0%nat. reflexivity.
    + destruct H as (H1 & _ & H2).
      destruct (IH _ H1 H2 Hne) as [j Hj]. exists (S j). exact Hj.
Qed.

Lemma reload_run_waiting_out w : forall dts s,
  status s = STATUS_RELOAD ->
  reloadStatus s = RELOAD_WAITING_FOR_MAGAZINE_OUT ->
  (status (run w dts s) <> STATUS_RELOAD ->
   exists i j : nat, (i < j)%nat /\
     magazineReadings w dts s !! i = Some false /\
     magazineReadings w dts s !! j = Some true) /\
  (Forall (fun r => r = true) (magazineReadings w dts s) ->
   status (run w dts s) = STATUS_RELOAD /\
   shotCount (run w dts s) = shotCount s).
Proof.
  induction dts as [|dt rest IH]; intros s Hs Hr; cbn [run magazineReadings].
  - split; [contradiction|]. now split.
  - destruct (reload_step_waiting_out w dt s Hs Hr) as (H1 & H2 & H3).
    destruct (magazineSeen w dt s) eqn:Hm.
    + destruct (IH _ H1 H3) as [IHa IHb]. split.
      * intros Hne. destruct (IHa Hne) as (i & j & Hij & Hi & Hj).
        exists (S i), (S j). repeat split; [lia|exact Hi|exact Hj].
      * intros HF. inversion HF; subst. rewrite <- H2. now apply IHb.
    + split.
      * intros Hne.
        destruct (reload_run_waiting_in w rest _ H1 H3 Hne) as [j Hj].
        exists 0%nat, (S j). repeat split; [lia|exact Hj].
      * intros HF. inversion HF; subst. discriminate.
Qed.

(** C4.  From the entry to RELOAD on: the machine is out of RELOAD only if
    the magazine switch was read "not present" at some iteration and
    "present" at a later one; an iteration that leaves RELOAD reads the
    switch "present" and ends in IDLE with the shot counter at 0; and as
    long as every reading is "present" the machine stays in RELOAD. *)
Theorem reload_needs_removal_then_insertion
    (w : World) (dts : list Z) (s0 : State) :
  let s := exec transitionToStatusReload s0 in
  (status (run w dts s) <> STATUS_RELOAD ->
   exists i j : nat, (i < j)%nat /\
     magazineReadings w dts s !! i = Some false /\
     magazineReadings w dts s !! j = Some true)
  /\ (forall (k : nat) (dt : Z) (x y : State),
        trace w dts s !! k = Some x ->
        dts !! k = Some dt ->
        trace w dts s !! S k = Some y ->
        status x = STATUS_RELOAD ->
        status y <> STATUS_RELOAD ->
        status y = STATUS_IDLE /\ shotCount y = 0 /\
        magazineReadings w dts s !! k = Some true)
  /\ (Forall (fun r => r = true) (magazineReadings w dts s) ->
      status (run w dts s) = STATUS_RELOAD).
Proof.
  intros s.
  assert (Hs : status s = STATUS_RELOAD) by reflexivity.
  assert (Hr : reloadStatus s = RELOAD_WAITING_FOR_MAGAZINE_OUT) by reflexivity.
  destruct (reload_run_waiting_out w dts s Hs Hr) as [Ha Hb].
  split; [exact Ha|]. split; [|intros HF; now apply Hb].
  clear. generalize s. clear s.
  induction dts as [|dt' rest IH]; intros s k dt x y Hx Hdt Hy Hsx Hsy.
  - destruct k; discriminate.
  - cbn [trace magazineReadings] in *. destruct k as [|k].
    + cbn in Hx, Hdt, Hy. injection Hx as <-. injection Hdt as <-.
      rewrite trace_head in Hy. injection Hy as <-.
      destruct (reload_step_exit w dt' s Hsx Hsy) as (H1 & H2 & H3).
      rewrite H3. now repeat split.
    + cbn in Hx, Hdt, Hy. exact (IH _ k dt x y Hx Hdt Hy Hsx Hsy).
Qed.

Lemma reload_needs_removal_then_insertion_witness :
  status (run magazineSwap (repeat 10 150%nat)
            (exec transitionToStatusReload beforeReload)) <> STATUS_RELOAD /\
  exists i j : nat, (i < j)%nat /\
    magazineReadings magazineSwap (repeat 10 150%nat)
      (exec transitionToStatusReload beforeReload) !! i = Some false /\
    magazineReadings magazineSwap (repeat 10 150%nat)
      (exec transitionToStatusReload beforeReload) !! j = Some true.
Proof.
  assert (H : status (run magazineSwap (repeat 10 150%nat)
                        (exec transitionToStatusReload beforeReload))
              <> STATUS_RELOAD) by (vm_compute; discriminate).
  split; [exact H|].
  exact (proj1 (reload_needs_removal_then_insertion magazineSwap
                  (repeat 10 150%nat) beforeReload) H).
Defined.

(** ** The bound on the shot counter *)

(** The three outcomes of the shot executor, on the state it leaves. *)
Lemma doOneShot_cases s :
  exists ok s',
    doOneShot s = (ok, s') /\
    settings s' = settings s /\
    status s' = status s /\
    (shotCount s' = shotCount s \/
     (shotCount s < shotLimit (settings s) /\
      shotCount s' = wrap16 (shotCount s + 1))).
Proof.
  destruct (forceReload (settings s)) eqn:Hf.
  - destruct (Z_lt_le_dec (shotCount s) (shotLimit (settings s))) as [Hlt|Hge].
    + destruct (doOneShot_counted_run s Hf Hlt) as (s' & E & Hc & Hs & Hse & _).
      exists true, s'. repeat split; auto.
    + exists false, s. rewrite (doOneShot_limit_reached s Hf Hge). auto.
  - destruct (doOneShot_uncounted_run s Hf) as (s' & E & Hc & Hs & Hse & _).
    exists true, s'. repeat split; auto.
Qed.

(** An iteration outside the menu keeps the settings, and either keeps the
    shot counter, or resets it to 0, or counts one shot below the limit. *)
Lemma step_outside_menu w dt s :
  status s <> STATUS_MENU ->
  settings (cycle w dt s) = settings s /\
  (shotCount (cycle w dt s) = shotCount s \/
   shotCount (cycle w dt s) = 0 \/
   (shotCount s < shotLimit (settings s) /\
    shotCount (cycle w dt s) = wrap16 (shotCount s + 1))).
Proof.
  intros Hm. rewrite cycle_handler.
  destruct (snapshot_fields w dt s) as (Hst & Hse & Hsc & _).
  set (x := snapshot w dt s) in *. clearbody x.
  rewrite <- Hse, <- Hsc.
  destruct (doOneShot_cases x) as (ok & x1 & E & Hse1 & Hst1 & Hc1).
  unfold handlerOf.
  destruct (status s =? STATUS_IDLE).
  { unfold manageStatusIdle, isTriggerPressed, isFireSelectorInAutoPosition,
      buttonIsPressed, transitionToStatusFullAuto, transitionToStatusSemiAuto,
      thereIsANewJoySelectPress.
    destruct (tom_thereIsANewPress ID_BUTTON_JOY_SELECT x) as (bs & m & Hp).
    destruct (thereIsANewPress ID_BUTTON_JOY_SELECT x) as [sel x2] eqn:Ep.
    cbn in Hp. subst x2.
    pose proof (transitionToStatusMenu_effect (set_buttons bs (set_menu m x)))
      as (Hm1 & _ & _ & Hm2 & _).
    unfold exec in Hm1, Hm2.
    destruct (transitionToStatusMenu (set_buttons bs (set_menu m x)))
      as [u x3] eqn:Et. cbn in Hm1, Hm2.
    run_handler; auto. }
  destruct (status s =? STATUS_FULL_AUTO).
  { unfold manageStatusFullAuto, isFireSelectorInAutoPosition,
      buttonIsPressed, isTriggerPressed, transitionToStatusIdle,
      transitionToStatusReload.
    run_handler; rewrite ?Hse1; auto;
      destruct Hc1 as [->|[? ->]]; auto. }
  destruct (status s =? STATUS_SEMI_AUTO).
  { unfold manageStatusSemiAuto, doNextShotAndGoToStatusReloadIfShotError,
      isFireSelectorInAutoPosition, buttonIsPressed, isTriggerPressed,
      transitionToStatusIdle, transitionToStatusReload,
      transitionToStatusBinaryTriggerTail.
    run_handler; rewrite ?Hse1; auto;
      destruct Hc1 as [->|[? ->]]; auto. }
  destruct (status s =? STATUS_BINARY_TRIGGER_TAIL).
  { unfold manageStatusBinaryTriggerTail,
      doNextShotAndGoToStatusReloadIfShotError,
      transitionToStatusIdle, transitionToStatusReload.
    run_handler; rewrite ?Hse1; auto;
      destruct Hc1 as [->|[? ->]]; auto. }
  destruct (status s =? STATUS_RELOAD).
  { unfold manageStatusReload, isMagazineButtonPressed, buttonIsPressed,
      transitionToStatusIdle.
    unfold_m. cbn. case_ifs; auto. }
  destruct (status s =? STATUS_MENU) eqn:Em.
  { apply Z.eqb_eq in Em. contradiction. }
  cbn. auto.
Qed.

Lemma boot_shotCount stored : shotCount (boot stored) = 0.
Proof. destruct stored; reflexivity. Qed.

(** What an iteration does to the shot counter.  It stays a value of
    [unsigned int].  An iteration outside the menu (firing a shot,
    completing a reload) keeps the settings, and keeps the counter within
    the limit when it is within it.  An iteration in the menu, which is
    where the settings are replaced, leaves the counter as it is, whatever
    limit it saves. *)
Lemma shotCount_across_iteration (w : World) (dt : Z) (s : State) :
  uint16 (shotCount s) ->
  uint16 (shotLimit (settings s)) ->
  uint16 (shotCount (cycle w dt s)) /\
  (status s <> STATUS_MENU ->
     settings (cycle w dt s) = settings s /\
     (shotCount s <= shotLimit (settings s) ->
      shotCount (cycle w dt s) <= shotLimit (settings (cycle w dt s)))) /\
  (status s = STATUS_MENU -> shotCount (cycle w dt s) = shotCount s).
Proof.
  intros Hc Hl.
  destruct (Z.eq_dec (status s) STATUS_MENU) as [Hm|Hm].
  - assert (H : shotCount (cycle w dt s) = shotCount s).
    { rewrite cycle_handler, Hm, handlerOf_menu.
      destruct (manageStatusMenu_effect (snapshot w dt s)) as (-> & _).
      now destruct (snapshot_fields w dt s) as (_ & _ & -> & _). }
    rewrite H. split; [exact Hc|]. split; [contradiction|]. reflexivity.
  - destruct (step_outside_menu w dt s Hm) as (Hse & [Hk|[Hz|[Hlt Hi]]]).
    + rewrite Hk, Hse. split; [exact Hc|]. split; [now split|contradiction].
    + rewrite Hz, Hse. unfold uint16 in *.
      split; [lia|]. split; [split; [reflexivity|lia]|contradiction].
    + rewrite Hi, Hse, wrap16_small by (unfold uint16 in *; lia).
      unfold uint16 in *.
      split; [lia|]. split; [split; [reflexivity|lia]|contradiction].
Qed.

(** The state reached by three shots and a shot limit lowered to 1: the
    counter is above the limit. *)
Lemma limitLowered_reached :
  reachable limitLowered /\
  status limitLowered = STATUS_IDLE /\
  forceReload (settings limitLowered) = true /\
  shotCount limitLowered = 3 /\
  shotLimit (settings limitLowered) = 1.
Proof.
  split.
  { exists None, lowerTheLimit, (repeat 10 750%nat). split; [|reflexivity].
    apply Forall_forall. intros d Hd. apply repeat_spec in Hd. lia. }
  repeat (split; [vm_compute; reflexivity|]). vm_compute; reflexivity.
Qed.

(** C7.  The code does not keep [0 <= shotCount <= shotLimit]: saving a
    lower shot limit in the menu breaks it.  From the factory settings a
    burst of three shots is fired, and the limit is then set to 1 in the
    menu and saved.  Before the iteration that saves, the bound holds;
    that iteration replaces the settings and keeps the counter, so that
    [shotCount = 3] is above [shotLimit = 1], in that state and in the
    IDLE state that follows.  There [doOneShot] refuses the shot, and the
    next pull of the trigger leads through SEMI_AUTO to RELOAD with no
    shot fired and with the counter different from the limit, where the
    callers of [doOneShot] expect [shotCount == shotLimit]. *)
Theorem saving_a_lower_limit_breaks_the_bound :
  (reachable beforeSave /\
   status beforeSave = STATUS_MENU /\
   0 <= shotCount beforeSave <= shotLimit (settings beforeSave)) /\
  (reachable (cycle lowerTheLimit 10 beforeSave) /\
   forceReload (settings (cycle lowerTheLimit 10 beforeSave)) = true /\
   shotCount (cycle lowerTheLimit 10 beforeSave) = 3 /\
   shotLimit (settings (cycle lowerTheLimit 10 beforeSave)) = 1) /\
  (reachable limitLowered /\
   status limitLowered = STATUS_IDLE /\
   ~ (0 <= shotCount limitLowered <= shotLimit (settings limitLowered)) /\
   doOneShot limitLowered = (false, limitLowered)) /\
  (reachable triggerPulledAboveTheLimit /\
   status triggerPulledAboveTheLimit = STATUS_SEMI_AUTO /\
   status (cycle lowerTheLimitThenFire 10 triggerPulledAboveTheLimit)
     = STATUS_RELOAD /\
   shotsFired (cycle lowerTheLimitThenFire 10 triggerPulledAboveTheLimit)
     = shotsFired limitLowered /\
   shotCount (cycle lowerTheLimitThenFire 10 triggerPulledAboveTheLimit)
     <> shotLimit
          (settings (cycle lowerTheLimitThenFire 10 triggerPulledAboveTheLimit))).
Proof.
  assert (Hpace : forall n, Forall (fun dt => 0 <= dt) (repeat 10 n)).
  { intros n. apply Forall_forall. intros d Hd. apply repeat_spec in Hd. lia. }
  destruct limitLowered_reached as (Hr & Hs & Hf & Hc & Hl).
  split; [|split; [|split]].
  - split.
    { exists None, lowerTheLimit, (repeat 10 685%nat).
      split; [apply Hpace|reflexivity]. }
    split; [vm_compute; reflexivity|].
    vm_compute. split; discriminate.
  - split.
    { exists None, lowerTheLimit, (repeat 10 686%nat).
      split; [apply Hpace|vm_compute; reflexivity]. }
    repeat (split; [vm_compute; reflexivity|]). vm_compute; reflexivity.
  - split; [exact Hr|]. split; [exact Hs|]. split.
    + rewrite Hc, Hl. lia.
    + apply doOneShot_limit_reached; [exact Hf|]. rewrite Hc, Hl. lia.
  - split.
    { exists None, lowerTheLimitThenFire, (repeat 10 800%nat).
      split; [apply Hpace|reflexivity]. }
    split; [vm_compute; reflexivity|].
    split; [vm_compute; reflexivity|].
    split; [vm_compute; reflexivity|].
    vm_compute. discriminate.
Qed.

(** ** One channel of the debouncer *)

Lemma wrap32_sub (a b : Z) : wrap32 (wrap32 a - wrap32 b) = wrap32 (a - b).
Proof. unfold wrap32. now rewrite <- Zminus_mod. Qed.

Lemma wrap32_small x : 0 <= x < 2 ^ 32 -> wrap32 x = x.
Proof. intros H. unfold wrap32. now apply Z.mod_small. Qed.

Lemma wrap32_idem x : wrap32 (wrap32 x) = wrap32 x.
Proof. unfold wrap32. apply Z.mod_mod. lia. Qed.

Lemma gtb_true a b : b < a -> (a >? b) = true.
Proof. intros H. rewrite Z.gtb_ltb. now apply Z.ltb_lt. Qed.

Lemma gtb_false a b : a <= b -> (a >? b) = false.
Proof. intros H. rewrite Z.gtb_ltb. now apply Z.ltb_ge. Qed.

(** A poll that sees the raw level change records the instant and the
    level, and does not touch the debounced state. *)
Lemma poll_change t v bd :
  buttonStatus bd <> v ->
  readButtonWithDebouncing_bd (wrap32 t) v bd =
    set_buttonStatus v (set_startTimeMs (wrap32 t) bd).
Proof.
  intros H. unfold readButtonWithDebouncing_bd.
  replace (v =? buttonStatus bd) with false
    by (symmetry; apply Z.eqb_neq; congruence).
  cbn. rewrite Z.sub_diag. reflexivity.
Qed.

(** A poll that sees the same raw level commits it once more than the
    window has elapsed since the recorded instant. *)
Lemma poll_steady t v bd :
  buttonStatus bd = v ->
  readButtonWithDebouncing_bd (wrap32 t) v bd =
    if wrap32 (wrap32 t - startTimeMs bd) >? buttonsDebouncingTimeMs
    then set_lastValidStatus v bd else bd.
Proof.
  intros H. unfold readButtonWithDebouncing_bd.
  replace (v =? buttonStatus bd) with true
    by (symmetry; apply Z.eqb_eq; congruence).
  cbn. now rewrite H.
Qed.

(** The debounced state changes only at a poll at which the raw level is
    the recorded one and more than the window has elapsed. *)
Lemma poll_commit_only_after_window timeNow statusNow bd :
  lastValidStatus (readButtonWithDebouncing_bd timeNow statusNow bd)
    <> lastValidStatus bd ->
  statusNow = buttonStatus bd /\
  startTimeMs (readButtonWithDebouncing_bd timeNow statusNow bd)
    = startTimeMs bd /\
  wrap32 (timeNow - startTimeMs bd) > buttonsDebouncingTimeMs.
Proof.
  unfold readButtonWithDebouncing_bd.
  destruct (statusNow =? buttonStatus bd) eqn:E; cbn.
  - apply Z.eqb_eq in E.
    destruct (wrap32 (timeNow - startTimeMs bd) >? buttonsDebouncingTimeMs)
      eqn:G; cbn; intros H; [|exfalso; apply H; reflexivity].
    repeat split; [exact E|]. rewrite Z.gtb_ltb in G. apply Z.ltb_lt in G. lia.
  - rewrite Z.sub_diag. cbn. intros H. exfalso. apply H. reflexivity.
Qed.

Lemma steady_polls t0 v : forall later bd,
  buttonStatus bd = v ->
  startTimeMs bd = wrap32 t0 ->
  Forall (fun t => t0 <= t < t0 + 2 ^ 32) later ->
  buttonStatus (pollAll (map (fun t => (t, v)) later) bd) = v /\
  startTimeMs (pollAll (map (fun t => (t, v)) later) bd) = wrap32 t0 /\
  (Forall (fun t => t - t0 <= buttonsDebouncingTimeMs) later ->
   lastValidStatus (pollAll (map (fun t => (t, v)) later) bd)
     = lastValidStatus bd) /\
  (Exists (fun t => t - t0 > buttonsDebouncingTimeMs) later \/ lastValidStatus bd = v ->
   lastValidStatus (pollAll (map (fun t => (t, v)) later) bd) = v).
Proof.
  induction later as [|t rest IH]; intros bd Hb Hs HF; cbn [map pollAll].
  - repeat split; auto. intros [H|H]; [inversion H|exact H].
  - inversion HF as [|? ? Ht HF']; subst.
    rewrite (poll_steady t (buttonStatus bd) bd eq_refl), Hs, wrap32_sub.
    rewrite (wrap32_small (t - t0)) by lia.
    destruct (Z_le_gt_dec (t - t0) buttonsDebouncingTimeMs) as [Hle|Hgt].
    + rewrite (gtb_false _ _ Hle).
      destruct (IH bd eq_refl Hs HF') as (I1 & I2 & I3 & I4).
      repeat split; auto.
      * intros H. inversion H; subst. auto.
      * intros [H|H]; [|auto]. inversion H; subst; [lia|auto].
    + rewrite gtb_true by lia.
      destruct (IH (set_lastValidStatus (buttonStatus bd) bd) eq_refl Hs HF')
        as (I1 & I2 & I3 & I4).
      repeat split; auto.
      intros H. inversion H; subst. lia.
Qed.

(** C6, as the code has it.  A poll at instant [t0] sees the raw level
    change to [v], and the later polls (all less than 2^32 ms later) see
    [v] again.  As long as every poll came at most [buttonsDebouncingTimeMs]
    after [t0], the debounced state is what it was before the change; as
    soon as one poll came more than [buttonsDebouncingTimeMs] after [t0],
    the debounced state is [v].  In general a poll changes the debounced
    state only if [now - startTimeMs > buttonsDebouncingTimeMs]. *)
Theorem debounce_commits_after_window
    (bd : ButtonData) (t0 v : Z) (later : list Z) :
  buttonStatus bd <> v ->
  Forall (fun t => t0 <= t < t0 + 2 ^ 32) later ->
  let bd' := pollAll (map (fun t => (t, v)) ((t0 :: later))) bd in
  (Forall (fun t => t - t0 <= buttonsDebouncingTimeMs) later ->
   lastValidStatus bd' = lastValidStatus bd) /\
  (Exists (fun t => t - t0 > buttonsDebouncingTimeMs) later ->
   lastValidStatus bd' = v) /\
  (forall timeNow statusNow b,
     lastValidStatus (readButtonWithDebouncing_bd timeNow statusNow b)
       <> lastValidStatus b ->
     wrap32 (timeNow - startTimeMs b) > buttonsDebouncingTimeMs).
Proof.
  intros Hne HF bd'. subst bd'. cbn [map pollAll].
  rewrite (poll_change t0 v bd Hne).
  destruct (steady_polls t0 v later
              (set_buttonStatus v (set_startTimeMs (wrap32 t0) bd))
              eq_refl eq_refl HF) as (_ & _ & H3 & H4).
  split; [exact H3|]. split; [intros H; apply H4; now left|].
  intros timeNow statusNow b H.
  now destruct (poll_commit_only_after_window timeNow statusNow b H) as (_ & _ & G).
Qed.

Lemma debounce_commits_after_window_witness :
  (buttonStatus (initialButton magazinePin) <> LOW /\
   Forall (fun t => 100 <= t < 100 + 2 ^ 32) [150; 151]) /\
  (Exists (fun t => t - 100 > buttonsDebouncingTimeMs) [150; 151] ->
   lastValidStatus
     (pollAll (map (fun t => (t, LOW)) [100; 150; 151])
        (initialButton magazinePin)) = LOW).
Proof.
  assert (Hne : buttonStatus (initialButton magazinePin) <> LOW)
    by (cbn; discriminate).
  assert (HF : Forall (fun t => 100 <= t < 100 + 2 ^ 32) [150; 151])
    by (repeat constructor; lia).
  split; [now split|].
  exact (proj1 (proj2 (debounce_commits_after_window
                         (initialButton magazinePin) 100 LOW [150; 151]
                         Hne HF))).
Defined.

(** C6, as the specification states it, fails at the boundary.  The raw
    level goes [LOW] at 100 ms and holds for the whole window, up to and
    including 150 ms, then goes back [HIGH].  The debounced state is not
    [LOW] when the window has elapsed (at 150 ms), nor at any other poll,
    although the channel is polled every millisecond. *)
Lemma debounce_not_committed_at_window :
  150 - 100 >= buttonsDebouncingTimeMs /\
  lastValidStatus
    (pollAll (map (fun k => (100 + Z.of_nat k, LOW)) (seq 0 51))
       (initialButton magazinePin)) <> LOW /\
  Forall (fun d => d = HIGH)
    (debouncedAfter heldForTheWindow (initialButton magazinePin)).
Proof.
  split; [unfold buttonsDebouncingTimeMs; lia|].
  split; [vm_compute; discriminate|].
  vm_compute. repeat constructor.
Qed.

(** ** New-press edges *)

Lemma poll_keeps_latch timeNow statusNow bd :
  precStatusIsPressed (readButtonWithDebouncing_bd timeNow statusNow bd)
    = precStatusIsPressed bd.
Proof.
  unfold readButtonWithDebouncing_bd.
  destruct (negb (statusNow =? buttonStatus bd)); cbn;
    match goal with |- context [if ?c then _ else _] => destruct c end;
    reflexivity.
Qed.

Lemma newPress_released bd :
  lastValidStatus bd = BUTTON_RELEASED ->
  fst (thereIsANewPress_bd bd) = false /\
  precStatusIsPressed (snd (thereIsANewPress_bd bd)) = false.
Proof. intros H. unfold thereIsANewPress_bd. rewrite H. now cbn. Qed.

Lemma newPress_pressed bd :
  lastValidStatus bd = BUTTON_PRESSED ->
  fst (thereIsANewPress_bd bd) = negb (precStatusIsPressed bd) /\
  precStatusIsPressed (snd (thereIsANewPress_bd bd)) = true.
Proof.
  intros H. unfold thereIsANewPress_bd. rewrite H. cbn.
  destruct (precStatusIsPressed bd) eqn:E; cbn; auto.
Qed.

Lemma edgeRun_cons t v rest bd :
  edgeRun ((t, v) :: rest) bd =
    let bd1 := readButtonWithDebouncing_bd (wrap32 t) v bd in
    (lastValidStatus bd1, fst (thereIsANewPress_bd bd1))
      :: edgeRun rest (snd (thereIsANewPress_bd bd1)).
Proof.
  cbn [edgeRun].
  now destruct (thereIsANewPress_bd (readButtonWithDebouncing_bd (wrap32 t) v bd)).
Qed.

Lemma edges_while_released : forall m samples bd,
  map fst (edgeRun samples bd) = repeat BUTTON_RELEASED m ->
  map snd (edgeRun samples bd) = repeat false m.
Proof.
  induction m as [|m IH]; intros [|[t v] rest] bd;
    rewrite ?edgeRun_cons; cbn [map fst snd repeat]; intros H;
    try discriminate; try reflexivity.
  injection H as H1 H2.
  destruct (newPress_released _ H1) as [Hr _].
  rewrite Hr, (IH rest _ H2). reflexivity.
Qed.

Lemma edges_while_held : forall n m samples bd,
  precStatusIsPressed bd = true ->
  map fst (edgeRun samples bd)
    = repeat BUTTON_PRESSED n ++ repeat BUTTON_RELEASED m ->
  map snd (edgeRun samples bd) = repeat false (n + m).
Proof.
  induction n as [|n IH]; intros m samples bd Hp.
  - cbn. apply edges_while_released.
  - destruct samples as [|[t v] rest];
      rewrite ?edgeRun_cons; cbn [map fst snd repeat app Nat.add]; intros H;
      try discriminate.
    injection H as H1 H2.
    destruct (newPress_pressed _ H1) as [Hr Hl].
    rewrite poll_keeps_latch, Hp in Hr. cbn in Hr.
    rewrite Hr, (IH m rest _ Hl H2). reflexivity.
Qed.

Lemma edges_from_press : forall n m samples bd,
  precStatusIsPressed bd = false ->
  map fst (edgeRun samples bd)
    = repeat BUTTON_PRESSED (S n) ++ repeat BUTTON_RELEASED m ->
  map snd (edgeRun samples bd) = true :: repeat false (n + m).
Proof.
  intros n m [|[t v] rest] bd Hp;
    rewrite ?edgeRun_cons; cbn [map fst snd repeat app]; intros H;
    try discriminate.
  injection H as H1 H2.
  destruct (newPress_pressed _ H1) as [Hr Hl].
  rewrite poll_keeps_latch, Hp in Hr. cbn in Hr.
  rewrite Hr, (edges_while_held n m rest _ Hl H2). reflexivity.
Qed.

Lemma edges_from_release : forall k n m samples bd,
  map fst (edgeRun samples bd)
    = repeat BUTTON_RELEASED (S k) ++ repeat BUTTON_PRESSED (S n)
      ++ repeat BUTTON_RELEASED m ->
  map snd (edgeRun samples bd)
    = repeat false (S k) ++ true :: repeat false (n + m).
Proof.
  induction k as [|k IH]; intros n m [|[t v] rest] bd;
    rewrite ?edgeRun_cons; intros H; try discriminate.
  - cbn [map fst snd repeat app] in *. injection H as H1 H2.
    destruct (newPress_released _ H1) as [Hr Hl].
    rewrite Hr. now rewrite (edges_from_press n m rest _ Hl H2).
  - change (repeat BUTTON_RELEASED (S (S k)))
      with (BUTTON_RELEASED :: repeat BUTTON_RELEASED (S k)) in H.
    change (repeat false (S (S k))) with (false :: repeat false (S k)).
    cbn [map fst snd app] in *. injection H as H1 H2.
    destruct (newPress_released _ H1) as [Hr _].
    rewrite Hr. now rewrite (IH n m rest _ H2).
Qed.

(** C5.  One press-hold-release-hold cycle of the debounced state, polled
    at every iteration: the state is pressed for [S n] polls and then
    released for [m] polls, after [k] polls in the released state (or,
    with [k = 0], from a latch that is down, as it is at power-up).  The
    query answers true at the first poll that finds the state pressed, and
    false at every other poll: exactly once. *)
Theorem new_press_exactly_once
    (samples : list (Z * Z)) (bd : ButtonData) (k n m : nat) :
  k <> 0%nat \/ precStatusIsPressed bd = false ->
  map fst (edgeRun samples bd)
    = repeat BUTTON_RELEASED k ++ repeat BUTTON_PRESSED (S n)
      ++ repeat BUTTON_RELEASED m ->
  map snd (edgeRun samples bd)
    = repeat false k ++ true :: repeat false (n + m)
  /\ length (List.filter (fun r => r) (map snd (edgeRun samples bd))) = 1%nat.
Proof.
  intros Hk H.
  assert (E : map snd (edgeRun samples bd)
              = repeat false k ++ true :: repeat false (n + m)).
  { destruct k as [|k].
    - destruct Hk as [Hk|Hk]; [congruence|].
      now apply edges_from_press.
    - now apply edges_from_release. }
  split; [exact E|]. rewrite E, List.filter_app. cbn.
  assert (F : forall j, List.filter (fun r : bool => r) (repeat false j) = [])
    by (induction j; cbn; auto).
  rewrite !F. reflexivity.
Qed.

Lemma new_press_exactly_once_witness :
  map fst (edgeRun onePress (initialButton joySelectPin))
    = repeat BUTTON_RELEASED 2 ++ repeat BUTTON_PRESSED 4
      ++ repeat BUTTON_RELEASED 2 /\
  map snd (edgeRun onePress (initialButton joySelectPin))
    = [false; false; true; false; false; false; false; false].
Proof.
  assert (H : map fst (edgeRun onePress (initialButton joySelectPin))
              = repeat BUTTON_RELEASED 2 ++ repeat BUTTON_PRESSED 4
                ++ repeat BUTTON_RELEASED 2) by (vm_compute; reflexivity).
  split; [exact H|].
  exact (proj1 (new_press_exactly_once onePress (initialButton joySelectPin)
                  2 3 2 (or_intror eq_refl) H)).
Defined.

(** ** Press duration *)

Lemma poll_raw_fields t v bd :
  buttonStatus (readButtonWithDebouncing_bd (wrap32 t) v bd) = v /\
  startTimeMs (readButtonWithDebouncing_bd (wrap32 t) v bd)
    = (if v =? buttonStatus bd then startTimeMs bd else wrap32 t).
Proof.
  unfold readButtonWithDebouncing_bd.
  destruct (v =? buttonStatus bd) eqn:E; cbn;
    match goal with |- context [if ?c then _ else _] => destruct c end;
    cbn; split; try reflexivity; symmetry; now apply Z.eqb_eq.
Qed.

Lemma pollAll_startTimeMs : forall samples bd,
  wrap32 (startTimeMs (pollAll samples bd))
    = wrap32 (lastRawChange samples (buttonStatus bd) (startTimeMs bd)).
Proof.
  induction samples as [|[t v] rest IH]; intros bd; cbn [pollAll lastRawChange].
  - reflexivity.
  - rewrite IH. destruct (poll_raw_fields t v bd) as [-> ->].
    destruct (v =? buttonStatus bd) eqn:E.
    + apply Z.eqb_eq in E. now rewrite E.
    + clear. revert v. generalize t.
      induction rest as [|[t' v'] rest IH]; intros t0 v; cbn [lastRawChange].
      * apply wrap32_idem.
      * destruct (v' =? v); [apply IH|reflexivity].
Qed.

(** C8, as the code has it.  The press duration is 0 whenever the
    debounced state is not pressed.  When it is pressed, the duration is
    [millis() - startTimeMs], the time elapsed (modulo 2^32) since the
    latest poll that found the raw level changed, not since the debounced
    state became pressed. *)
Theorem press_duration_since_raw_change
    (samples : list (Z * Z)) (bd : ButtonData) (now : Z) :
  let bd' := pollAll samples bd in
  let changed := lastRawChange samples (buttonStatus bd) (startTimeMs bd) in
  (buttonIsPressed_bd bd' = false ->
   buttonPressDuration_bd (wrap32 now) bd' = 0) /\
  (buttonIsPressed_bd bd' = true ->
   buttonPressDuration_bd (wrap32 now) bd' = wrap32 (now - changed)) /\
  (buttonIsPressed_bd bd' = true -> 0 <= now - changed < 2 ^ 32 ->
   buttonPressDuration_bd (wrap32 now) bd' = now - changed).
Proof.
  intros bd' changed.
  assert (H : buttonIsPressed_bd bd' = true ->
              buttonPressDuration_bd (wrap32 now) bd' = wrap32 (now - changed)).
  { unfold buttonPressDuration_bd, buttonIsPressed_bd. intros ->.
    rewrite <- (wrap32_sub (wrap32 now) (startTimeMs bd')), wrap32_idem.
    unfold bd'. rewrite pollAll_startTimeMs. fold changed.
    apply wrap32_sub. }
  split; [|split; [exact H|]].
  - unfold buttonPressDuration_bd, buttonIsPressed_bd. now intros ->.
  - intros Hp Hr. rewrite (H Hp). now apply wrap32_small.
Qed.

Lemma press_duration_since_raw_change_witness :
  buttonIsPressed_bd (pollAll pressAt1000 (initialButton joyUpPin)) = true /\
  buttonPressDuration_bd (wrap32 1100)
    (pollAll pressAt1000 (initialButton joyUpPin))
  = wrap32 (1100 - lastRawChange pressAt1000
                     (buttonStatus (initialButton joyUpPin))
                     (startTimeMs (initialButton joyUpPin))).
Proof.
  assert (H : buttonIsPressed_bd (pollAll pressAt1000 (initialButton joyUpPin))
              = true) by (vm_compute; reflexivity).
  split; [exact H|].
  exact (proj1 (proj2 (press_duration_since_raw_change pressAt1000
                         (initialButton joyUpPin) 1100)) H).
Defined.

(** C8, as the specification states it, fails: the debounced state became
    pressed at 1051 ms, so that 49 ms have elapsed at 1100 ms, and the
    press duration reported at 1100 ms is 100 ms. *)
Lemma press_duration_counts_from_raw_change :
  buttonIsPressed_bd (initialButton joyUpPin) = false /\
  debouncedAfter pressAt1000 (initialButton joyUpPin)
    = [BUTTON_RELEASED; BUTTON_PRESSED] /\
  lastBecamePressed pressAt1000 (initialButton joyUpPin) None = Some 1051 /\
  buttonPressDuration_bd (wrap32 1100)
    (pollAll pressAt1000 (initialButton joyUpPin)) = 100 /\
  buttonPressDuration_bd (wrap32 1100)
    (pollAll pressAt1000 (initialButton joyUpPin)) <> 1100 - 1051.
Proof. vm_compute. repeat split; discriminate. Qed.

(** * Further properties of the sketch *)

(** ** The debouncer and the edge query *)

Lemma debouncedAfter_app : forall l1 l2 bd,
  debouncedAfter (l1 ++ l2) bd
    = debouncedAfter l1 bd ++ debouncedAfter l2 (pollAll l1 bd).
Proof.
  induction l1 as [|[t v] l1 IH]; intros l2 bd; cbn [app debouncedAfter pollAll].
  - reflexivity.
  - now rewrite IH.
Qed.

Lemma polls_at_rest d : forall after bd,
  lastValidStatus bd = d ->
  Forall (fun x => x = d) (debouncedAfter (map (fun t => (t, d)) after) bd).
Proof.
  induction after as [|t rest IH]; intros bd Hd; cbn [map debouncedAfter].
  - constructor.
  - assert (H : lastValidStatus (readButtonWithDebouncing_bd (wrap32 t) d bd) = d).
    { destruct (Z.eq_dec (buttonStatus bd) d) as [E|E].
      - rewrite (poll_steady t d bd E).
        now destruct (wrap32 (wrap32 t - startTimeMs bd) >? buttonsDebouncingTimeMs).
      - now rewrite (poll_change t d bd E). }
    constructor; [exact H|]. now apply IH.
Qed.

Lemma polls_within_window t0 v d : forall pulse bd,
  lastValidStatus bd = d ->
  buttonStatus bd = v ->
  startTimeMs bd = wrap32 t0 ->
  Forall (fun t => 0 <= t - t0 <= buttonsDebouncingTimeMs) pulse ->
  Forall (fun x => x = d) (debouncedAfter (map (fun t => (t, v)) pulse) bd) /\
  lastValidStatus (pollAll (map (fun t => (t, v)) pulse) bd) = d.
Proof.
  induction pulse as [|t rest IH]; intros bd Hd Hv Hs HF;
    cbn [map debouncedAfter pollAll].
  - split; [constructor|exact Hd].
  - inversion HF as [|? ? Ht HF']; subst.
    assert (E : readButtonWithDebouncing_bd (wrap32 t) (buttonStatus bd) bd = bd).
    { rewrite (poll_steady t _ bd eq_refl), Hs, wrap32_sub.
      rewrite wrap32_small by (unfold buttonsDebouncingTimeMs in *; lia).
      now rewrite gtb_false by lia. }
    rewrite E. destruct (IH bd eq_refl eq_refl Hs HF') as [I1 I2].
    split; [constructor; [reflexivity|exact I1]|exact I2].
Qed.

(** X1.  A glitch is filtered out.  The channel is at rest at level [d];
    a poll at [t0] sees the raw level at [v], the polls of [pulse], all at
    most [buttonsDebouncingTimeMs] after [t0], see [v] again, and then the
    raw level is back at [d], for any polls whatever.  The debounced state
    is [d] after every one of these polls. *)
Theorem glitch_is_filtered
    (bd : ButtonData) (d v t0 : Z) (pulse after : list Z) :
  buttonStatus bd = d ->
  lastValidStatus bd = d ->
  v <> d ->
  Forall (fun t => 0 <= t - t0 <= buttonsDebouncingTimeMs) pulse ->
  Forall (fun x => x = d)
    (debouncedAfter
       (map (fun t => (t, v)) (t0 :: pulse) ++ map (fun t => (t, d)) after)
       bd).
Proof.
  intros Hb Hd Hv HF. rewrite debouncedAfter_app.
  cbn [map debouncedAfter pollAll].
  assert (Hne : buttonStatus bd <> v) by congruence.
  rewrite (poll_change t0 v bd Hne).
  destruct (polls_within_window t0 v d pulse
              (set_buttonStatus v (set_startTimeMs (wrap32 t0) bd))
              Hd eq_refl eq_refl HF) as [I1 I2].
  apply Forall_app. split.
  - constructor; [exact Hd|exact I1].
  - now apply polls_at_rest.
Qed.

Lemma glitch_is_filtered_witness :
  Forall (fun x => x = HIGH)
    (debouncedAfter
       (map (fun t => (t, LOW)) [1000; 1020; 1050]
        ++ map (fun t => (t, HIGH)) [1051; 1200])
       (initialButton magazinePin)).
Proof.
  apply (glitch_is_filtered (initialButton magazinePin) HIGH LOW 1000
           [1020; 1050] [1051; 1200]);
    try reflexivity; try discriminate.
  repeat constructor; unfold buttonsDebouncingTimeMs; lia.
Defined.

Lemma getButton_setButton bs i bd bd' :
  getButton bs i = Some bd -> getButton (setButton i bd' bs) i = Some bd'.
Proof.
  unfold getButton, setButton. destruct (i <? 0); [discriminate|].
  intros H. apply list_lookup_insert_eq. now apply lookup_lt_Some in H.
Qed.

(** X2.  A new press is consumed by the query that reports it: asked again
    for the same button before the buttons are read again, the query
    answers false, whatever the button and the state. *)
Theorem new_press_is_consumed (buttonId : Z) (s : State) :
  eval (thereIsANewPress buttonId) (exec (thereIsANewPress buttonId) s) = false.
Proof.
  unfold eval, exec, thereIsANewPress.
  destruct (getButton (buttons s) buttonId) as [bd|] eqn:G.
  - destruct (thereIsANewPress_bd bd) as [r bd'] eqn:E. cbn.
    rewrite (getButton_setButton _ _ _ bd' G).
    assert (H : fst (thereIsANewPress_bd bd') = false).
    { revert E. unfold thereIsANewPress_bd.
      destruct (negb (lastValidStatus bd =? BUTTON_PRESSED)) eqn:P.
      - intros [= <- <-]. cbn. now rewrite P.
      - destruct (precStatusIsPressed bd) eqn:Q.
        + intros [= <- <-]. now rewrite P, Q.
        + intros [= <- <-]. cbn. now rewrite P. }
    now destruct (thereIsANewPress_bd bd').
  - cbn. now rewrite G.
Qed.

(** ** The shot executor *)

Lemma doOneShot_fires_core (s : State) :
  forceReload (settings s) = false \/ shotCount s < shotLimit (settings s) ->
  doOneShot s = (true, afterShot s).
Proof.
  intros H. unfold doOneShot, fireShot, afterShot, shotEvents. unfold_m.
  destruct (forceReload (settings s)) eqn:Hf.
  - destruct H as [H|H]; [discriminate|]. rewrite geb_false by exact H.
    destruct (muzzleFlash (settings s)); destruct s; cbn;
      repeat rewrite <- app_assoc; reflexivity.
  - destruct (muzzleFlash (settings s)); destruct s; cbn;
      repeat rewrite <- app_assoc; reflexivity.
Qed.

(** X3.  When the shot is not refused (force-reload disabled, or the
    counter below the limit), the shot executor returns true and leaves
    exactly this state: the counter incremented if force-reload is
    enabled, the actions of one shot appended to the log (solenoid on,
    dwell, solenoid off, shot delay, with the muzzle pin in step when
    muzzle flash is enabled), and the clock advanced by
    [dwellMs + shotDelayMs]. *)
Theorem doOneShot_fires (s : State) :
  forceReload (settings s) = false \/ shotCount s < shotLimit (settings s) ->
  doOneShot s = (true, afterShot s).
Proof. apply doOneShot_fires_core. Qed.

Lemma doOneShot_fires_witness :
  (forceReload (settings nearlyEmpty) = false \/
   shotCount nearlyEmpty < shotLimit (settings nearlyEmpty)) /\
  doOneShot nearlyEmpty = (true, afterShot nearlyEmpty).
Proof.
  assert (H : forceReload (settings nearlyEmpty) = false \/
              shotCount nearlyEmpty < shotLimit (settings nearlyEmpty))
    by (right; cbn; lia).
  split; [exact H|]. exact (doOneShot_fires nearlyEmpty H).
Defined.

(** ** The firing states, iteration by iteration *)

Lemma doOneShot_two_outcomes s :
  (forceReload (settings s) = true /\ shotLimit (settings s) <= shotCount s /\
   doOneShot s = (false, s)) \/
  ((forceReload (settings s) = false \/ shotCount s < shotLimit (settings s)) /\
   doOneShot s = (true, afterShot s)).
Proof.
  destruct (forceReload (settings s)) eqn:Hf.
  - destruct (Z_lt_le_dec (shotCount s) (shotLimit (settings s))) as [Hlt|Hge].
    + right. split; [now right|]. apply doOneShot_fires_core. now right.
    + left. repeat split; [exact Hge|]. now apply doOneShot_limit_reached.
  - right. split; [now left|]. apply doOneShot_fires_core. now left.
Qed.

Lemma isFireSelectorInAutoPosition_pure s :
  isFireSelectorInAutoPosition s = (eval isFireSelectorInAutoPosition s, s).
Proof. reflexivity. Qed.

Lemma isTriggerPressed_at w s :
  isTriggerPressed w s = (negb (w triggerPin (clock s)), s).
Proof.
  unfold isTriggerPressed. unfold_m. cbn. now destruct (w triggerPin (clock s)).
Qed.

Lemma full_auto_iteration_core (w : World) (dt : Z) (s : State) :
  status s = STATUS_FULL_AUTO ->
  let x := snapshot w dt s in
  let st := settings s in
  cycle w dt s =
    if negb (eval isFireSelectorInAutoPosition x)
    then exec transitionToStatusIdle x
    else if forceReload st && (shotCount s >=? shotLimit st)
    then exec transitionToStatusReload x
    else if w triggerPin (clock s + dt + dwellMs st + shotDelayMs st)
    then exec (delay (triggerDebouncingMs st) ;; transitionToStatusIdle)
           (afterShot x)
    else afterShot x.
Proof.
  intros Hs x st. rewrite cycle_handler, Hs, handlerOf_full_auto.
  subst x st. destruct (snapshot_frame w dt s) as [bs ->].
  set (x := set_buttons bs (tick dt s)).
  change (settings s) with (settings x).
  change (shotCount s) with (shotCount x).
  change (clock s + dt) with (clock x).
  clearbody x.
  unfold manageStatusFullAuto, exec.
  unfold bind at 1. unfold gets at 1. unfold bind at 1.
  rewrite isFireSelectorInAutoPosition_pure. cbn [fst snd].
  destruct (eval isFireSelectorInAutoPosition x); cbn [negb]; [|reflexivity].
  unfold bind at 1.
  destruct (doOneShot_two_outcomes x) as [(Hf & Hl & E)|(H & E)]; rewrite E.
  - rewrite Hf, geb_true by exact Hl. reflexivity.
  - replace (forceReload (settings x) && (shotCount x >=? shotLimit (settings x)))
      with false
      by (destruct H as [->|H]; [reflexivity|];
          rewrite geb_false by exact H; now rewrite andb_false_r).
    cbn [negb]. unfold bind at 1. rewrite isTriggerPressed_at.
    change (clock (afterShot x))
      with (clock x + dwellMs (settings x) + shotDelayMs (settings x)).
    now destruct (w triggerPin
                    (clock x + dwellMs (settings x) + shotDelayMs (settings x))).
Qed.

(** X4.  One iteration in FULL_AUTO.  If the fire selector has left the
    auto position the machine goes to IDLE and nothing is fired.
    Otherwise, if the shot is refused (force-reload and the limit reached)
    it goes to RELOAD and nothing is fired.  Otherwise one shot is fired,
    and the trigger is then read from its pin, [dwellMs + shotDelayMs]
    after the start of the iteration: released, the machine waits
    [triggerDebouncingMs] and goes to IDLE; pressed, it stays in
    FULL_AUTO. *)
Theorem full_auto_iteration (w : World) (dt : Z) (s : State) :
  status s = STATUS_FULL_AUTO ->
  let x := snapshot w dt s in
  let st := settings s in
  cycle w dt s =
    if negb (eval isFireSelectorInAutoPosition x)
    then exec transitionToStatusIdle x
    else if forceReload st && (shotCount s >=? shotLimit st)
    then exec transitionToStatusReload x
    else if w triggerPin (clock s + dt + dwellMs st + shotDelayMs st)
    then exec (delay (triggerDebouncingMs st) ;; transitionToStatusIdle)
           (afterShot x)
    else afterShot x.
Proof. apply full_auto_iteration_core. Qed.

Lemma full_auto_iteration_witness :
  status firing = STATUS_FULL_AUTO /\
  status (cycle triggerReleased 10 firing) = STATUS_IDLE.
Proof.
  assert (H : status firing = STATUS_FULL_AUTO) by (vm_compute; reflexivity).
  split; [exact H|].
  rewrite (full_auto_iteration triggerReleased 10 firing H).
  vm_compute. reflexivity.
Defined.

Lemma semi_auto_after_burst_core (w : World) (dt : Z) (s : State) :
  status s = STATUS_SEMI_AUTO ->
  numShotsPerBurst (settings s) <= currBurstShotCount s ->
  let x := snapshot w dt s in
  let st := settings s in
  shotsFired (cycle w dt s) = shotsFired s /\
  cycle w dt s =
    if eval isFireSelectorInAutoPosition x
    then exec transitionToStatusIdle x
    else if negb (w triggerPin (clock s + dt))
    then (if fullAutoBurst st
          then exec (modify (set_currBurstShotCount 0) ;;
                     delay (burstDelayMs st)) x
          else x)
    else if fullAutoBurst st
    then exec (delay (triggerDebouncingMs st) ;; transitionToStatusIdle) x
    else if binaryTrigger st
    then exec transitionToStatusBinaryTriggerTail x
    else exec (delay (triggerDebouncingMs st) ;; transitionToStatusIdle) x.
Proof.
  intros Hs Hb x st.
  assert (E : cycle w dt s =
    if eval isFireSelectorInAutoPosition x
    then exec transitionToStatusIdle x
    else if negb (w triggerPin (clock s + dt))
    then (if fullAutoBurst st
          then exec (modify (set_currBurstShotCount 0) ;;
                     delay (burstDelayMs st)) x
          else x)
    else if fullAutoBurst st
    then exec (delay (triggerDebouncingMs st) ;; transitionToStatusIdle) x
    else if binaryTrigger st
    then exec transitionToStatusBinaryTriggerTail x
    else exec (delay (triggerDebouncingMs st) ;; transitionToStatusIdle) x).
  { rewrite cycle_handler, Hs, handlerOf_semi_auto.
    subst x st. destruct (snapshot_frame w dt s) as [bs ->].
    set (x := set_buttons bs (tick dt s)).
    change (settings s) with (settings x) in *.
    change (clock s + dt) with (clock x).
    change (currBurstShotCount s) with (currBurstShotCount x) in Hb.
    clearbody x.
    unfold manageStatusSemiAuto, exec.
    unfold bind at 1. unfold gets at 1. unfold bind at 1.
    unfold doNextShotAndGoToStatusReloadIfShotError.
    unfold bind at 1. unfold gets at 1.
    replace (currBurstShotCount x <? numShotsPerBurst (settings x)) with false
      by (symmetry; apply Z.ltb_ge; exact Hb).
    cbn [ret negb fst snd]. unfold bind at 1.
    rewrite isFireSelectorInAutoPosition_pure.
    destruct (eval isFireSelectorInAutoPosition x); [reflexivity|].
    unfold bind at 1. rewrite isTriggerPressed_at.
    destruct (w triggerPin (clock x)); cbn [negb];
      destruct (fullAutoBurst (settings x)); cbn [negb]; try reflexivity.
    now destruct (binaryTrigger (settings x)). }
  split; [|exact E]. rewrite E. subst x st.
  pose proof (snapshot_shotsFired w dt s) as Hsf. unfold shotsFired in *.
  destruct (eval isFireSelectorInAutoPosition (snapshot w dt s));
    [exact Hsf|].
  destruct (w triggerPin (clock s + dt)), (fullAutoBurst (settings s)),
    (binaryTrigger (settings s)); cbn;
    rewrite ?List.filter_app, ?length_app, ?Hsf; cbn; lia.
Qed.

(** X5.  One iteration in SEMI_AUTO once the burst is done.  Nothing is
    fired.  If the fire selector is in the auto position the machine goes
    to IDLE, whatever the trigger does.  Otherwise the trigger is read
    from its pin: pressed, the machine does nothing when full-auto-burst
    is off, and resets the burst counter and waits [burstDelayMs] when it
    is on; released, it goes to IDLE after [triggerDebouncingMs] when
    full-auto-burst is on, else to BINARY_TRIGGER_TAIL when binary trigger
    is on, else to IDLE after [triggerDebouncingMs]. *)
Theorem semi_auto_after_burst (w : World) (dt : Z) (s : State) :
  status s = STATUS_SEMI_AUTO ->
  numShotsPerBurst (settings s) <= currBurstShotCount s ->
  let x := snapshot w dt s in
  let st := settings s in
  shotsFired (cycle w dt s) = shotsFired s /\
  cycle w dt s =
    if eval isFireSelectorInAutoPosition x
    then exec transitionToStatusIdle x
    else if negb (w triggerPin (clock s + dt))
    then (if fullAutoBurst st
          then exec (modify (set_currBurstShotCount 0) ;;
                     delay (burstDelayMs st)) x
          else x)
    else if fullAutoBurst st
    then exec (delay (triggerDebouncingMs st) ;; transitionToStatusIdle) x
    else if binaryTrigger st
    then exec transitionToStatusBinaryTriggerTail x
    else exec (delay (triggerDebouncingMs st) ;; transitionToStatusIdle) x.
Proof. apply semi_auto_after_burst_core. Qed.

Lemma semi_auto_after_burst_witness :
  status (exec transitionToStatusSemiAuto afterBurst) = STATUS_SEMI_AUTO /\
  numShotsPerBurst (settings (exec transitionToStatusSemiAuto afterBurst))
    <= currBurstShotCount
         (set_currBurstShotCount 3 (exec transitionToStatusSemiAuto afterBurst)) /\
  shotsFired
    (cycle burstThenAuto 10
       (set_currBurstShotCount 3 (exec transitionToStatusSemiAuto afterBurst)))
  = shotsFired
      (set_currBurstShotCount 3 (exec transitionToStatusSemiAuto afterBurst)).
Proof.
  split; [reflexivity|]. split; [vm_compute; discriminate|].
  apply (semi_auto_after_burst burstThenAuto 10
           (set_currBurstShotCount 3 (exec transitionToStatusSemiAuto afterBurst))).
  - reflexivity.
  - vm_compute. discriminate.
Defined.

Lemma burst_iteration_core (w : World) (dt : Z) (s : State) :
  status s = STATUS_SEMI_AUTO \/ status s = STATUS_BINARY_TRIGGER_TAIL ->
  currBurstShotCount s < numShotsPerBurst (settings s) ->
  let x := snapshot w dt s in
  cycle w dt s =
    if forceReload (settings s) && (shotCount s >=? shotLimit (settings s))
    then exec transitionToStatusReload x
    else set_currBurstShotCount (wrap16 (currBurstShotCount s + 1))
           (afterShot x).
Proof.
  intros Hs Hb x. rewrite cycle_handler.
  subst x. destruct (snapshot_frame w dt s) as [bs Hx].
  assert (Hd : doNextShotAndGoToStatusReloadIfShotError
                 (numShotsPerBurst (settings (snapshot w dt s))) (snapshot w dt s)
               = (false,
                  if forceReload (settings s) && (shotCount s >=? shotLimit (settings s))
                  then exec transitionToStatusReload (snapshot w dt s)
                  else set_currBurstShotCount (wrap16 (currBurstShotCount s + 1))
                         (afterShot (snapshot w dt s)))).
  { rewrite Hx. set (x := set_buttons bs (tick dt s)).
    change (settings s) with (settings x) in *.
    change (shotCount s) with (shotCount x).
    change (currBurstShotCount s) with (currBurstShotCount x) in *.
    clearbody x.
    unfold doNextShotAndGoToStatusReloadIfShotError.
    unfold bind at 1. unfold gets at 1.
    replace (currBurstShotCount x <? numShotsPerBurst (settings x)) with true
      by (symmetry; apply Z.ltb_lt; exact Hb).
    unfold bind at 1.
    destruct (doOneShot_two_outcomes x) as [(Hf & Hl & E)|(H & E)]; rewrite E.
    - rewrite Hf, geb_true by exact Hl. reflexivity.
    - replace (forceReload (settings x) && (shotCount x >=? shotLimit (settings x)))
        with false
        by (destruct H as [->|H]; [reflexivity|];
            rewrite geb_false by exact H; now rewrite andb_false_r).
      cbn [negb]. unfold bind, modify, ret, afterShot.
      destruct (forceReload (settings x)); reflexivity. }
  destruct Hs as [Hs|Hs]; rewrite Hs.
  - rewrite handlerOf_semi_auto. exact (manageStatusSemiAuto_burst w _ _ Hd).
  - rewrite handlerOf_tail. exact (manageStatusBinaryTriggerTail_burst _ _ Hd).
Qed.

(** X6.  One iteration of a burst, in SEMI_AUTO or BINARY_TRIGGER_TAIL,
    while the burst counter is below [numShotsPerBurst]: if the shot is
    refused the machine goes to RELOAD with nothing fired; otherwise
    exactly one shot is fired and the burst counter is incremented, and
    no input is consulted. *)
Theorem burst_iteration (w : World) (dt : Z) (s : State) :
  status s = STATUS_SEMI_AUTO \/ status s = STATUS_BINARY_TRIGGER_TAIL ->
  currBurstShotCount s < numShotsPerBurst (settings s) ->
  let x := snapshot w dt s in
  cycle w dt s =
    if forceReload (settings s) && (shotCount s >=? shotLimit (settings s))
    then exec transitionToStatusReload x
    else set_currBurstShotCount (wrap16 (currBurstShotCount s + 1))
           (afterShot x).
Proof. apply burst_iteration_core. Qed.

Lemma burst_iteration_witness :
  (status relaxedBurst = STATUS_SEMI_AUTO \/
   status relaxedBurst = STATUS_BINARY_TRIGGER_TAIL) /\
  currBurstShotCount relaxedBurst < numShotsPerBurst (settings relaxedBurst) /\
  shotsFired (cycle (lowDuring []) 10 relaxedBurst) = 1%nat.
Proof.
  assert (Hs : status relaxedBurst = STATUS_SEMI_AUTO \/
               status relaxedBurst = STATUS_BINARY_TRIGGER_TAIL)
    by (left; reflexivity).
  assert (Hb : currBurstShotCount relaxedBurst
               < numShotsPerBurst (settings relaxedBurst)) by (cbn; lia).
  split; [exact Hs|]. split; [exact Hb|].
  rewrite (burst_iteration (lowDuring []) 10 relaxedBurst Hs Hb).
  vm_compute. reflexivity.
Defined.

(** ** Bursts and sustained fire, over several iterations *)

Lemma afterShot_fields s :
  status (afterShot s) = status s /\
  settings (afterShot s) = settings s /\
  currBurstShotCount (afterShot s) = currBurstShotCount s /\
  buttons (afterShot s) = buttons s /\
  shotsFired (afterShot s) = S (shotsFired s) /\
  clock (afterShot s) = clock s + dwellMs (settings s) + shotDelayMs (settings s) /\
  shotCount (afterShot s) =
    (if forceReload (settings s) then wrap16 (shotCount s + 1) else shotCount s).
Proof.
  unfold afterShot, shotsFired, shotEvents.
  destruct (forceReload (settings s)), (muzzleFlash (settings s)); cbn;
    rewrite List.filter_app, length_app; cbn; repeat split; lia.
Qed.

Lemma burst_step_fields w dt s :
  status s = STATUS_SEMI_AUTO \/ status s = STATUS_BINARY_TRIGGER_TAIL ->
  0 <= currBurstShotCount s < numShotsPerBurst (settings s) ->
  uint16 (numShotsPerBurst (settings s)) ->
  forceReload (settings s) = false \/
    (0 <= shotCount s < shotLimit (settings s) /\ uint16 (shotLimit (settings s))) ->
  status (cycle w dt s) = status s /\
  settings (cycle w dt s) = settings s /\
  currBurstShotCount (cycle w dt s) = currBurstShotCount s + 1 /\
  shotsFired (cycle w dt s) = S (shotsFired s) /\
  clock (cycle w dt s)
    = clock s + dt + dwellMs (settings s) + shotDelayMs (settings s) /\
  shotCount (cycle w dt s)
    = (if forceReload (settings s) then shotCount s + 1 else shotCount s).
Proof.
  intros Hs Hb Hn Hp.
  rewrite (burst_iteration_core w dt s Hs (proj2 Hb)).
  replace (forceReload (settings s) && (shotCount s >=? shotLimit (settings s)))
    with false
    by (destruct Hp as [->|[H _]]; [reflexivity|];
        rewrite geb_false by lia; now rewrite andb_false_r).
  destruct (afterShot_fields (snapshot w dt s))
    as (A1 & A2 & A3 & A4 & A5 & A6 & A7).
  destruct (snapshot_fields w dt s) as (S1 & S2 & S3 & S4 & S5 & S6 & S7 & S8).
  pose proof (snapshot_shotsFired w dt s) as S9.
  unfold shotsFired in *.
  cbn [set_currBurstShotCount status settings currBurstShotCount clock
       shotCount outputs].
  rewrite A1, A2, A5, A6, A7, S1, S2, S3, S8, S9.
  rewrite wrap16_small by (unfold uint16 in *; lia).
  repeat split.
  destruct Hp as [->|[H Hl]]; [reflexivity|].
  destruct (forceReload (settings s)); [|reflexivity].
  apply wrap16_small. unfold uint16 in *. lia.
Qed.

Lemma burst_takes_one_iteration_per_shot_core (w : World) :
  forall (dts : list Z) (s : State),
  status s = STATUS_SEMI_AUTO \/ status s = STATUS_BINARY_TRIGGER_TAIL ->
  uint16 (numShotsPerBurst (settings s)) ->
  0 <= currBurstShotCount s ->
  currBurstShotCount s + Z.of_nat (length dts) <= numShotsPerBurst (settings s) ->
  forceReload (settings s) = false \/
    (0 <= shotCount s /\
     shotCount s + Z.of_nat (length dts) <= shotLimit (settings s) /\
     uint16 (shotLimit (settings s))) ->
  status (run w dts s) = status s /\
  settings (run w dts s) = settings s /\
  currBurstShotCount (run w dts s) = currBurstShotCount s + Z.of_nat (length dts) /\
  shotsFired (run w dts s) = (shotsFired s + length dts)%nat /\
  shotCount (run w dts s)
    = (if forceReload (settings s)
       then shotCount s + Z.of_nat (length dts) else shotCount s) /\
  clock (run w dts s)
    = clock s + totalTime dts
      + Z.of_nat (length dts)
        * (dwellMs (settings s) + shotDelayMs (settings s)).
Proof.
  induction dts as [|dt rest IH]; intros s Hs Hn Hb Hk Hp.
  - cbn. repeat split; try lia. destruct (forceReload (settings s)); lia.
  - cbn [run length totalTime fold_right] in *.
    rewrite Nat2Z.inj_succ in *.
    assert (Hp1 : forceReload (settings s) = false \/
              (0 <= shotCount s < shotLimit (settings s) /\
               uint16 (shotLimit (settings s))))
      by (destruct Hp as [Hp|(H1 & H2 & H3)]; [now left|right; split; [lia|exact H3]]).
    destruct (burst_step_fields w dt s Hs ltac:(lia) Hn Hp1)
      as (B1 & B2 & B3 & B4 & B5 & B6).
    destruct (IH (cycle w dt s)) as (I1 & I2 & I3 & I4 & I5 & I6).
    + now rewrite B1.
    + now rewrite B2.
    + lia.
    + rewrite B2, B3. lia.
    + rewrite B2, B6.
      destruct Hp as [Hp|(H1 & H2 & H3)]; [now left|right].
      unfold uint16 in *. destruct (forceReload (settings s)); lia.
    + rewrite I1, I2, I3, I4, I5, I6, B1, B2, B3, B4, B5, B6.
      fold (totalTime rest). rewrite Z.mul_succ_l.
      repeat split; try lia.
      destruct (forceReload (settings s)); lia.
Qed.

(** X7.  A burst takes one iteration per shot.  In SEMI_AUTO or
    BINARY_TRIGGER_TAIL, as long as the burst counter stays within
    [numShotsPerBurst] and no shot is refused, [k] iterations fire exactly
    [k] shots, move the burst counter (and, with force-reload, the shot
    counter) up by [k], leave the status alone, and take the pauses
    between the iterations plus [k] times [dwellMs + shotDelayMs]. *)
Theorem burst_takes_one_iteration_per_shot (w : World) :
  forall (dts : list Z) (s : State),
  status s = STATUS_SEMI_AUTO \/ status s = STATUS_BINARY_TRIGGER_TAIL ->
  uint16 (numShotsPerBurst (settings s)) ->
  0 <= currBurstShotCount s ->
  currBurstShotCount s + Z.of_nat (length dts) <= numShotsPerBurst (settings s) ->
  forceReload (settings s) = false \/
    (0 <= shotCount s /\
     shotCount s + Z.of_nat (length dts) <= shotLimit (settings s) /\
     uint16 (shotLimit (settings s))) ->
  status (run w dts s) = status s /\
  settings (run w dts s) = settings s /\
  currBurstShotCount (run w dts s) = currBurstShotCount s + Z.of_nat (length dts) /\
  shotsFired (run w dts s) = (shotsFired s + length dts)%nat /\
  shotCount (run w dts s)
    = (if forceReload (settings s)
       then shotCount s + Z.of_nat (length dts) else shotCount s) /\
  clock (run w dts s)
    = clock s + totalTime dts
      + Z.of_nat (length dts)
        * (dwellMs (settings s) + shotDelayMs (settings s)).
Proof. apply burst_takes_one_iteration_per_shot_core. Qed.

Lemma burst_takes_one_iteration_per_shot_witness :
  status (run (lowDuring []) [10; 10; 10] relaxedBurst) = STATUS_SEMI_AUTO /\
  shotsFired (run (lowDuring []) [10; 10; 10] relaxedBurst)
    = (shotsFired relaxedBurst + 3)%nat.
Proof.
  destruct (burst_takes_one_iteration_per_shot (lowDuring []) [10; 10; 10]
              relaxedBurst)
    as (H1 & _ & _ & H4 & _).
  - left; reflexivity.
  - cbn; unfold uint16; lia.
  - cbn; lia.
  - cbn; lia.
  - left; reflexivity.
  - split; [exact H1|exact H4].
Defined.

Lemma tail_done w dt s :
  status s = STATUS_BINARY_TRIGGER_TAIL ->
  numShotsPerBurst (settings s) <= currBurstShotCount s ->
  cycle w dt s = exec transitionToStatusIdle (snapshot w dt s).
Proof.
  intros Hs Hb. rewrite cycle_handler, Hs, handlerOf_tail.
  destruct (snapshot_frame w dt s) as [bs ->].
  set (x := set_buttons bs (tick dt s)).
  change (settings s) with (settings x) in *.
  change (currBurstShotCount s) with (currBurstShotCount x) in Hb.
  clearbody x.
  unfold manageStatusBinaryTriggerTail, exec.
  unfold bind at 1. unfold gets at 1. unfold bind at 1.
  unfold doNextShotAndGoToStatusReloadIfShotError.
  unfold bind at 1. unfold gets at 1.
  replace (currBurstShotCount x <? numShotsPerBurst (settings x)) with false
    by (symmetry; apply Z.ltb_ge; exact Hb).
  reflexivity.
Qed.

(** X8.  The binary-trigger tail is one burst and then IDLE.  From the
    entry to BINARY_TRIGGER_TAIL, if no shot is refused, the first
    [numShotsPerBurst] iterations fire one shot each and stay in
    BINARY_TRIGGER_TAIL, and the next iteration fires nothing and goes to
    IDLE, whatever the inputs. *)
Theorem binary_trigger_tail_is_one_burst
    (w : World) (dts : list Z) (dt : Z) (s0 : State) :
  uint16 (numShotsPerBurst (settings s0)) ->
  Z.of_nat (length dts) = numShotsPerBurst (settings s0) ->
  forceReload (settings s0) = false \/
    (0 <= shotCount s0 /\
     shotCount s0 + Z.of_nat (length dts) <= shotLimit (settings s0) /\
     uint16 (shotLimit (settings s0))) ->
  let s := exec transitionToStatusBinaryTriggerTail s0 in
  status (run w dts s) = STATUS_BINARY_TRIGGER_TAIL /\
  shotsFired (run w dts s) = (shotsFired s0 + length dts)%nat /\
  status (cycle w dt (run w dts s)) = STATUS_IDLE /\
  shotsFired (cycle w dt (run w dts s)) = (shotsFired s0 + length dts)%nat.
Proof.
  intros Hn Hl Hp s.
  destruct (burst_takes_one_iteration_per_shot_core w dts s)
    as (H1 & H2 & H3 & H4 & _).
  - right; reflexivity.
  - exact Hn.
  - cbn; lia.
  - cbn. change (settings s) with (settings s0). lia.
  - exact Hp.
  - split; [exact H1|]. split; [exact H4|].
    rewrite (tail_done w dt (run w dts s)).
    + split; [reflexivity|].
      change (shotsFired (exec transitionToStatusIdle
                            (snapshot w dt (run w dts s))))
        with (shotsFired (snapshot w dt (run w dts s))).
      rewrite snapshot_shotsFired. exact H4.
    + exact H1.
    + rewrite H2, H3. cbn. change (settings s) with (settings s0). lia.
Qed.

Lemma binary_trigger_tail_is_one_burst_witness :
  status (cycle (lowDuring []) 10
            (run (lowDuring []) [10; 10; 10]
               (exec transitionToStatusBinaryTriggerTail (boot None))))
    = STATUS_IDLE.
Proof.
  destruct (binary_trigger_tail_is_one_burst (lowDuring []) [10; 10; 10] 10
              (boot None))
    as (_ & _ & H & _).
  - cbn; unfold uint16; lia.
  - reflexivity.
  - right. cbn. unfold uint16. lia.
  - exact H.
Defined.

Lemma poll_keeps_pin timeNow statusNow bd :
  pin (readButtonWithDebouncing_bd timeNow statusNow bd) = pin bd.
Proof.
  unfold readButtonWithDebouncing_bd.
  destruct (negb (statusNow =? buttonStatus bd)); cbn;
    match goal with |- context [if ?c then _ else _] => destruct c end;
    reflexivity.
Qed.

Lemma selectorHeld_snapshot w dt s :
  w fireSelectorPin (clock s + dt) = false ->
  selectorHeld (buttons s) ->
  selectorHeld (buttons (snapshot w dt s)).
Proof.
  intros Hw (bd & H0 & Hp & Hb & Hl).
  unfold snapshot. exists (pollAt w (clock (tick dt s)) bd).
  rewrite readAllButtons_polls_each_channel.
  change (buttons (tick dt s)) with (buttons s). rewrite H0.
  split; [reflexivity|]. unfold pollAt. rewrite Hp.
  change (clock (tick dt s)) with (clock s + dt). rewrite Hw.
  change LOW with BUTTON_PRESSED.
  rewrite poll_keeps_pin.
  rewrite (poll_steady _ BUTTON_PRESSED bd Hb).
  destruct (wrap32 (wrap32 (clock s + dt) - startTimeMs bd)
            >? buttonsDebouncingTimeMs); cbn; auto.
Qed.

Lemma selectorHeld_auto s :
  invertedFireSelector (settings s) = false ->
  selectorHeld (buttons s) ->
  eval isFireSelectorInAutoPosition s = true.
Proof.
  intros Hi (bd & H0 & _ & _ & Hl).
  unfold isFireSelectorInAutoPosition, buttonIsPressed, eval. unfold_m.
  cbn. change (Z.to_nat ID_BUTTON_FIRE_SELECTOR) with 0%nat.
  rewrite Hi, H0. unfold buttonIsPressed_bd. now rewrite Hl.
Qed.

(** X9.  Sustained fire.  In FULL_AUTO, with the fire selector (not
    inverted) held down and debounced, the trigger held down, and no shot
    refused, every iteration fires exactly one shot and the machine stays
    in FULL_AUTO: [k] iterations fire [k] shots and take the pauses between
    the iterations plus [k] times [dwellMs + shotDelayMs]. *)
Theorem full_auto_fires_one_shot_per_iteration (w : World) :
  forall (dts : list Z) (s : State),
  status s = STATUS_FULL_AUTO ->
  invertedFireSelector (settings s) = false ->
  selectorHeld (buttons s) ->
  (forall t, clock s <= t -> w fireSelectorPin t = false) ->
  (forall t, clock s <= t -> w triggerPin t = false) ->
  Forall (fun dt => 0 <= dt) dts ->
  0 <= dwellMs (settings s) ->
  0 <= shotDelayMs (settings s) ->
  forceReload (settings s) = false \/
    (0 <= shotCount s /\
     shotCount s + Z.of_nat (length dts) <= shotLimit (settings s) /\
     uint16 (shotLimit (settings s))) ->
  status (run w dts s) = STATUS_FULL_AUTO /\
  shotsFired (run w dts s) = (shotsFired s + length dts)%nat /\
  clock (run w dts s)
    = clock s + totalTime dts
      + Z.of_nat (length dts)
        * (dwellMs (settings s) + shotDelayMs (settings s)).
Proof.
  induction dts as [|dt rest IH];
    intros s Hs Hi Hh Hsel Htr Hdt Hdw Hsd Hp.
  - cbn. repeat split; [exact Hs|lia|lia].
  - cbn [run length totalTime fold_right] in *.
    rewrite Nat2Z.inj_succ in *.
    inversion Hdt as [|? ? Hdt0 Hdt']; subst.
    assert (Hw0 : w fireSelectorPin (clock s + dt) = false)
      by (apply Hsel; lia).
    pose proof (selectorHeld_snapshot w dt s Hw0 Hh) as Hh'.
    destruct (snapshot_fields w dt s) as (S1 & S2 & S3 & _ & _ & _ & _ & S8).
    pose proof (snapshot_shotsFired w dt s) as S9.
    assert (E : cycle w dt s = afterShot (snapshot w dt s)).
    { rewrite (full_auto_iteration_core w dt s Hs).
      rewrite selectorHeld_auto by (rewrite ?S2; assumption).
      cbn [negb].
      replace (forceReload (settings s) && (shotCount s >=? shotLimit (settings s)))
        with false
        by (destruct Hp as [->|(H1 & H2 & _)]; [reflexivity|];
            rewrite geb_false by lia; now rewrite andb_false_r).
      now rewrite Htr by lia. }
    destruct (afterShot_fields (snapshot w dt s))
      as (A1 & A2 & _ & A4 & A5 & A6 & A7).
    assert (Hc : clock (cycle w dt s)
                 = clock s + dt + dwellMs (settings s) + shotDelayMs (settings s))
      by (now rewrite E, A6, S2, S8).
    destruct (IH (cycle w dt s)) as (I1 & I2 & I3).
    + now rewrite E, A1, S1.
    + now rewrite E, A2, S2.
    + now rewrite E, A4.
    + intros t Ht. apply Hsel. lia.
    + intros t Ht. apply Htr. lia.
    + exact Hdt'.
    + now rewrite E, A2, S2.
    + now rewrite E, A2, S2.
    + rewrite E, A2, A7, S2, S3.
      destruct Hp as [Hp|(H1 & H2 & H3)]; [now left|right].
      destruct (forceReload (settings s)).
      * rewrite wrap16_small by (unfold uint16 in *; lia).
        unfold uint16 in *. lia.
      * unfold uint16 in *. lia.
    + rewrite I1, I2, I3, Hc. rewrite E, A2, A5, S2, S9.
      fold (totalTime rest). rewrite Z.mul_succ_l.
      repeat split; lia.
Qed.

Lemma sustainedFire_low p t :
  p = fireSelectorPin \/ p = triggerPin ->
  3000 <= t -> sustainedFire p t = false.
Proof.
  intros Hp Ht. unfold sustainedFire.
  rewrite (proj2 (Z.leb_le 2300 t)), (proj2 (Z.leb_le 3000 t)) by lia.
  destruct Hp as [-> | ->]; reflexivity.
Qed.

Lemma full_auto_fires_one_shot_per_iteration_witness :
  status (run sustainedFire [10; 10; 10; 10] sustained) = STATUS_FULL_AUTO /\
  shotsFired (run sustainedFire [10; 10; 10; 10] sustained)
    = (shotsFired sustained + 4)%nat.
Proof.
  assert (Hc : clock sustained = 3000) by (vm_compute; reflexivity).
  destruct (full_auto_fires_one_shot_per_iteration sustainedFire
              [10; 10; 10; 10] sustained)
    as (H1 & H2 & _).
  - vm_compute. reflexivity.
  - vm_compute. reflexivity.
  - eexists. vm_compute. repeat split.
  - intros t Ht. apply sustainedFire_low; [now left|lia].
  - intros t Ht. apply sustainedFire_low; [now right|lia].
  - repeat constructor; lia.
  - vm_compute. discriminate.
  - vm_compute. discriminate.
  - right. vm_compute. repeat split; discriminate.
  - split; [exact H1|exact H2].
Defined.

(** ** What every iteration keeps *)

Lemma afterShot_log s :
  energised (outputs (afterShot s)) = false /\
  eeprom (afterShot s) = eeprom s.
Proof.
  unfold afterShot, shotEvents, energised.
  destruct (forceReload (settings s)), (muzzleFlash (settings s)); cbn;
    rewrite fold_left_app; cbn; split; reflexivity.
Qed.

Ltac log_goal :=
  unfold shotsFired, energised in *; cbn;
  rewrite ?List.filter_app, ?length_app, ?fold_left_app; cbn;
  repeat split; auto; try lia; try congruence.

Lemma manageStatusMenu_log s :
  (energised (outputs s) = false ->
   energised (outputs (exec manageStatusMenu s)) = false) /\
  (eeprom s = Some (settings s) ->
   eeprom (exec manageStatusMenu s) = Some (settings (exec manageStatusMenu s))).
Proof.
  unfold manageStatusMenu, exec, bind.
  destruct (tom_updateMenu s) as (bs & m & H).
  destruct (updateMenu s) as [r s1]. cbn in H. subst s1.
  unfold saveNewSettingsToEepromAndDisplayExitMessage, commitSettings,
    saveSettingsToEeprom, displayMenuExitMessage, transitionToStatusIdle.
  unfold_m. cbn.
  repeat match goal with
         | |- context [if ?c then _ else _] => destruct c; cbn
         end; log_goal.
Qed.

Lemma outside_menu_log w dt s :
  status s <> STATUS_MENU ->
  eeprom (cycle w dt s) = eeprom s /\
  (shotsFired s <= shotsFired (cycle w dt s) <= shotsFired s + 1)%nat /\
  (status s <> STATUS_FULL_AUTO -> status s <> STATUS_SEMI_AUTO ->
   status s <> STATUS_BINARY_TRIGGER_TAIL ->
   shotsFired (cycle w dt s) = shotsFired s) /\
  (energised (outputs s) = false ->
   energised (outputs (cycle w dt s)) = false).
Proof.
  intros Hm. rewrite cycle_handler.
  destruct (snapshot_fields w dt s) as (Hst & Hse & _ & _ & _ & Hout & _).
  assert (Hee : eeprom (snapshot w dt s) = eeprom s)
    by (destruct (snapshot_frame w dt s) as [bs ->]; reflexivity).
  pose proof (snapshot_shotsFired w dt s) as Hsf.
  set (x := snapshot w dt s) in *. clearbody x.
  rewrite <- Hee, <- Hsf, <- Hout. clear Hee Hsf Hout Hse.
  destruct (afterShot_fields x) as (_ & _ & _ & _ & A5 & _).
  destruct (afterShot_log x) as (A8 & A9).
  set (y := afterShot x) in *.
  assert (E : doOneShot x = (false, x) \/ doOneShot x = (true, y))
    by (destruct (doOneShot_two_outcomes x) as [(_ & _ & E)|(_ & E)]; auto).
  clearbody y.
  unfold handlerOf.
  destruct (status s =? STATUS_IDLE) eqn:E0.
  { apply Z.eqb_eq in E0.
    unfold manageStatusIdle, isTriggerPressed, isFireSelectorInAutoPosition,
      buttonIsPressed, transitionToStatusFullAuto, transitionToStatusSemiAuto,
      thereIsANewJoySelectPress.
    destruct (tom_thereIsANewPress ID_BUTTON_JOY_SELECT x) as (bs & m & Hp).
    destruct (thereIsANewPress ID_BUTTON_JOY_SELECT x) as [sel x2] eqn:Ep.
    cbn in Hp. subst x2.
    destruct (tom_displayFirstMenuPage (set_buttons bs (set_menu m x)))
      as (bs' & m' & Hq).
    assert (Et : transitionToStatusMenu (set_buttons bs (set_menu m x))
                 = (tt, set_status STATUS_MENU
                          (set_buttons bs' (set_menu m' (set_buttons bs (set_menu m x)))))).
    { unfold transitionToStatusMenu, bind, modify.
      destruct (displayFirstMenuPage (set_buttons bs (set_menu m x))) as [[] z].
      cbn in Hq. now subst z. }
    clear E. run_handler; log_goal. }
  destruct (status s =? STATUS_FULL_AUTO) eqn:E1.
  { unfold manageStatusFullAuto, isFireSelectorInAutoPosition,
      buttonIsPressed, isTriggerPressed, transitionToStatusIdle,
      transitionToStatusReload.
    destruct E as [E|E]; run_handler; log_goal. }
  destruct (status s =? STATUS_SEMI_AUTO) eqn:E2.
  { unfold manageStatusSemiAuto, doNextShotAndGoToStatusReloadIfShotError,
      isFireSelectorInAutoPosition, buttonIsPressed, isTriggerPressed,
      transitionToStatusIdle, transitionToStatusReload,
      transitionToStatusBinaryTriggerTail.
    destruct E as [E|E]; run_handler; log_goal. }
  destruct (status s =? STATUS_BINARY_TRIGGER_TAIL) eqn:E3.
  { unfold manageStatusBinaryTriggerTail,
      doNextShotAndGoToStatusReloadIfShotError,
      transitionToStatusIdle, transitionToStatusReload.
    destruct E as [E|E]; run_handler; log_goal. }
  destruct (status s =? STATUS_RELOAD).
  { unfold manageStatusReload, isMagazineButtonPressed, buttonIsPressed,
      transitionToStatusIdle.
    clear E. run_handler; log_goal. }
  destruct (status s =? STATUS_MENU) eqn:Em.
  { apply Z.eqb_eq in Em. contradiction. }
  cbn. log_goal.
Qed.

Lemma run_invariant (P : State -> Prop) (w : World) :
  (forall dt s, P s -> P (cycle w dt s)) ->
  forall dts s, P s -> P (run w dts s).
Proof.
  intros Hstep. induction dts as [|dt rest IH]; intros s Hs; cbn [run].
  - exact Hs.
  - apply IH, Hstep, Hs.
Qed.

Lemma at_most_one_shot_per_iteration_core (w : World) (dt : Z) (s : State) :
  (shotsFired s <= shotsFired (cycle w dt s) <= shotsFired s + 1)%nat /\
  (status s <> STATUS_FULL_AUTO -> status s <> STATUS_SEMI_AUTO ->
   status s <> STATUS_BINARY_TRIGGER_TAIL ->
   shotsFired (cycle w dt s) = shotsFired s).
Proof.
  destruct (Z.eq_dec (status s) STATUS_MENU) as [Hm|Hm].
  - assert (H : shotsFired (cycle w dt s) = shotsFired s).
    { rewrite cycle_handler, Hm, handlerOf_menu.
      destruct (manageStatusMenu_effect (snapshot w dt s)) as (_ & _ & _ & -> & _).
      apply snapshot_shotsFired. }
    rewrite H. split; [lia|auto].
  - destruct (outside_menu_log w dt s Hm) as (_ & H1 & H2 & _). now split.
Qed.

(** X10.  An iteration fires at most one shot, and none at all unless the
    machine is in FULL_AUTO, SEMI_AUTO or BINARY_TRIGGER_TAIL: in IDLE,
    RELOAD and MENU the solenoid is never driven, whatever the trigger
    does. *)
Theorem at_most_one_shot_per_iteration (w : World) (dt : Z) (s : State) :
  (shotsFired s <= shotsFired (cycle w dt s) <= shotsFired s + 1)%nat /\
  (status s <> STATUS_FULL_AUTO -> status s <> STATUS_SEMI_AUTO ->
   status s <> STATUS_BINARY_TRIGGER_TAIL ->
   shotsFired (cycle w dt s) = shotsFired s).
Proof. apply at_most_one_shot_per_iteration_core. Qed.

(** X11.  The solenoid is never left energised: after the setup and after
    every iteration of the loop, whatever the stored settings, the inputs
    and the pace of the loop, the last write to the solenoid pin, if any,
    has switched it off. *)
Theorem solenoid_released_after_every_iteration
    (stored : option Settings) (w : World) (dts : list Z) :
  energised (outputs (run w dts (boot stored))) = false.
Proof.
  apply (run_invariant (fun s => energised (outputs s) = false)).
  - intros dt s Hs.
    destruct (Z.eq_dec (status s) STATUS_MENU) as [Hm|Hm].
    + rewrite cycle_handler, Hm, handlerOf_menu.
      apply (proj1 (manageStatusMenu_log (snapshot w dt s))).
      now destruct (snapshot_fields w dt s) as (_ & _ & _ & _ & _ & -> & _).
    + now apply (outside_menu_log w dt s Hm).
  - now destruct stored.
Qed.

(** X12.  The settings in use are always the ones in the EEPROM.  The
    setup loads the stored settings when the EEPROM is valid, and
    otherwise keeps the defaults and writes them; from then on, after
    every iteration, the EEPROM holds exactly the settings that the state
    machine uses. *)
Theorem settings_are_always_persisted
    (stored : option Settings) (w : World) (dts : list Z) :
  settings (boot stored) = default defaultSettings stored /\
  (In (EepromPut defaultSettings) (outputs (boot stored)) <-> stored = None) /\
  eeprom (run w dts (boot stored)) = Some (settings (run w dts (boot stored))).
Proof.
  split; [now destruct stored|]. split.
  - destruct stored; cbn; split; intros H; try discriminate; auto.
    repeat destruct H as [H|H]; discriminate || contradiction.
  - apply (run_invariant (fun s => eeprom s = Some (settings s))).
    + intros dt s Hs.
      destruct (Z.eq_dec (status s) STATUS_MENU) as [Hm|Hm].
      * rewrite cycle_handler, Hm, handlerOf_menu.
        apply (proj2 (manageStatusMenu_log (snapshot w dt s))).
        destruct (snapshot_frame w dt s) as [bs ->]. exact Hs.
      * destruct (outside_menu_log w dt s Hm) as (-> & _).
        destruct (step_outside_menu w dt s Hm) as (-> & _). exact Hs.
    + now destruct stored.
Qed.

(** X13.  The trigger is consulted in IDLE, FULL_AUTO and SEMI_AUTO only:
    in every other state (BINARY_TRIGGER_TAIL, RELOAD, MENU) the outcome
    of an iteration is determined by the debounced snapshot alone, so that
    pulling the trigger has no effect there. *)
Theorem trigger_ignored_outside_idle_and_fire
    (w1 w2 : World) (dt : Z) (s : State) :
  status s <> STATUS_IDLE ->
  status s <> STATUS_FULL_AUTO ->
  status s <> STATUS_SEMI_AUTO ->
  snapshot w1 dt s = snapshot w2 dt s ->
  cycle w1 dt s = cycle w2 dt s.
Proof.
  intros H0 H1 H2 Hs. rewrite !cycle_handler, Hs. unfold handlerOf.
  apply Z.eqb_neq in H0, H1, H2. now rewrite H0, H1, H2.
Qed.

Lemma trigger_ignored_outside_idle_and_fire_witness :
  cycle (lowDuring [(triggerPin, 0, 9000)]) 10
    (exec transitionToStatusReload (boot None))
  = cycle (lowDuring []) 10 (exec transitionToStatusReload (boot None)).
Proof.
  apply trigger_ignored_outside_idle_and_fire;
    try (vm_compute; discriminate).
  vm_compute. reflexivity.
Defined.

(** ** The settings menu *)

(** X14.  The up and down steps of a numeric setting saturate.  For a
    value within its bounds, a step [delta] no larger than the maximum and
    that does not overflow above the minimum: an increment gives
    [min (cur + delta) max], a decrement gives [max (cur - delta) min], so
    that the value stays within its bounds, and nothing else of the edited
    value changes. *)
Theorem setting_steps_saturate
    (ptr : UIntField) (cur vmin vmax lpd delta : Z) (doIncrement : bool) :
  uint16 vmin -> uint16 vmax -> vmin <= cur <= vmax ->
  0 <= delta <= vmax -> vmin + delta < 2 ^ 16 ->
  incDecSettingValue delta doIncrement (SVUInt ptr cur vmin vmax lpd)
    = SVUInt ptr
        (if doIncrement then Z.min (cur + delta) vmax
         else Z.max (cur - delta) vmin)
        vmin vmax lpd.
Proof.
  unfold uint16. intros Hmin Hmax Hc Hd Ho. unfold incDecSettingValue.
  destruct doIncrement.
  - rewrite (wrap16_small (vmax - delta)) by (unfold uint16; lia).
    destruct (Z.ltb_spec cur vmax) as [H|H].
    + destruct (Z.ltb_spec cur (vmax - delta)) as [G|G].
      * rewrite wrap16_small by (unfold uint16; lia). f_equal. lia.
      * f_equal. lia.
    + f_equal. lia.
  - rewrite (wrap16_small (vmin + delta)) by (unfold uint16; lia).
    rewrite !Z.gtb_ltb.
    destruct (Z.ltb_spec vmin cur) as [H|H].
    + destruct (Z.ltb_spec (vmin + delta) cur) as [G|G].
      * rewrite wrap16_small by (unfold uint16; lia). f_equal. lia.
      * f_equal. lia.
    + f_equal. lia.
Qed.

Lemma setting_steps_saturate_witness :
  incDecSettingValue SETTING_NUM_SHOT_LONG_PRESS_DELTA true
    (SVUInt FShotLimit 998 SETTING_NUM_SHOT_VALUE_MIN
       SETTING_NUM_SHOT_VALUE_MAX SETTING_NUM_SHOT_LONG_PRESS_DELTA)
  = SVUInt FShotLimit 1000 SETTING_NUM_SHOT_VALUE_MIN
      SETTING_NUM_SHOT_VALUE_MAX SETTING_NUM_SHOT_LONG_PRESS_DELTA.
Proof.
  apply (setting_steps_saturate FShotLimit 998 1 1000 5 5 true);
    unfold uint16; lia.
Defined.

Lemma settingsEqual_eq a b : settingsEqual a b = true <-> a = b.
Proof.
  split.
  - unfold settingsEqual. intros H.
    repeat (apply andb_true_iff in H; destruct H as [H ?]).
    repeat match goal with
           | E : Bool.eqb _ _ = true |- _ => apply Bool.eqb_prop in E
           | E : (_ =? _) = true |- _ => apply Z.eqb_eq in E
           end.
    destruct a, b; cbn in *. congruence.
  - intros <-. unfold settingsEqual.
    rewrite !Bool.eqb_reflx, !Z.eqb_refl. reflexivity.
Qed.

(** X15.  Committing the edited settings.  [commitSettings] reports a
    modification exactly when the edited copy differs from the settings in
    use in some member; in both cases the settings in use are the edited
    copy afterwards, and nothing else of the state changes. *)
Theorem commitSettings_reports_changes (s : State) :
  (eval commitSettings s = false <-> tempSettings (menu s) = settings s) /\
  exec commitSettings s = set_settings (tempSettings (menu s)) s.
Proof.
  unfold commitSettings, eval, exec. unfold_m. cbn.
  destruct (settingsEqual (settings s) (tempSettings (menu s))) eqn:E; cbn.
  - apply settingsEqual_eq in E. split; [now split|].
    rewrite <- E. now destruct s.
  - split; [|reflexivity]. split; [discriminate|].
    intros H. symmetry in H. apply settingsEqual_eq in H. congruence.
Qed.

Lemma displayFirstMenuPage_menu s :
  exec displayFirstMenuPage s =
    set_menu
      (set_currMenuCursorPos 0
         (set_currMenuPageNumSettings 6
            (set_currMenuPageFirstSettingId 0
               (set_currMenuPage 0
                  (set_menuMode MENU_MODE_DISPLAY_MENU_PAGE
                     (set_tempSettings (settings s) (menu s)))))))
      s.
Proof. reflexivity. Qed.

(** X16.  Opening the menu and saving at once changes nothing: the menu
    opens on the first row of the first page with a copy of the settings
    in use, and saving that copy reports "not modified", writes nothing to
    the EEPROM and leaves the settings in use as they are. *)
Theorem open_then_save_is_not_modified (s : State) :
  let s1 := exec transitionToStatusMenu s in
  let s2 := exec saveNewSettingsToEepromAndDisplayExitMessage s1 in
  status s1 = STATUS_MENU /\
  tempSettings (menu s1) = settings s /\
  currMenuPage (menu s1) = 0 /\ currMenuCursorPos (menu s1) = 0 /\
  menuMode (menu s1) = MENU_MODE_DISPLAY_MENU_PAGE /\
  menuCursorOk (menu s1) /\
  settings s2 = settings s /\
  eeprom s2 = eeprom s /\
  outputs s2 = outputs s
    ++ [ MenuExitMessage ID_MENU_EXIT_MESSAGE_NOT_MODIFIED;
         Delay MENU_EXIT_MESSAGE_DURATION_MS ].
Proof.
  intros s1 s2.
  assert (E1 : s1 = set_status STATUS_MENU (exec displayFirstMenuPage s))
    by reflexivity.
  rewrite displayFirstMenuPage_menu in E1.
  assert (Hc : commitSettings s1 = (false, s1)).
  { unfold commitSettings. unfold_m. rewrite E1. cbn.
    rewrite (proj2 (settingsEqual_eq (settings s) (settings s)) eq_refl).
    reflexivity. }
  assert (E2 : s2 = exec (displayMenuExitMessage ID_MENU_EXIT_MESSAGE_NOT_MODIFIED
                            MENU_EXIT_MESSAGE_DURATION_MS) s1).
  { subst s2. unfold saveNewSettingsToEepromAndDisplayExitMessage, exec.
    unfold bind at 1. now rewrite Hc. }
  rewrite E2, E1. cbn. rewrite <- app_assoc.
  repeat split; cbn; try reflexivity; try lia; discriminate.
Qed.

(** Case analysis on the integer tests of a goal. *)
Ltac zcases :=
  repeat (rewrite ?Z.gtb_ltb, ?Z.geb_leb;
          match goal with
          | |- context [?a <? ?b] => destruct (Z.ltb_spec a b)
          | |- context [?a <=? ?b] => destruct (Z.leb_spec a b)
          | |- context [?a =? ?b] => destruct (Z.eqb_spec a b)
          end; try lia; cbn).

Ltac menu_run :=
  unfold menuCursorOk in *;
  unfold moveMenuCursorUp, moveMenuCursorDown, displayMenuPage,
    moveMenuCursorTo, mapMenuRowToSettingId, evalMenuPageNumSettings,
    evalMenuPageNumSettingsByFirstSettingId in *;
  unfold_m; cbn in *;
  change numMenuPages with 2 in *;
  unfold numTotSettings, NUM_MAX_SETTINGS_PER_MENU_PAGE in *.

Lemma moveMenuCursorUp_ok s :
  menuCursorOk (menu s) -> menuCursorOk (menu (exec moveMenuCursorUp s)).
Proof.
  destruct s as [bs st sc cb rs stt m ee ck out].
  destruct m as [mode page num pos first pst pid lm ts sv].
  menu_run. intros (Hp & Hf & Hn & Hc). subst first num.
  assert (page = 0 \/ page = 1) as [-> | ->] by lia; cbn in *; zcases;
    repeat split; lia.
Qed.

Lemma moveMenuCursorDown_ok s :
  menuCursorOk (menu s) -> menuCursorOk (menu (exec moveMenuCursorDown s)).
Proof.
  destruct s as [bs st sc cb rs stt m ee ck out].
  destruct m as [mode page num pos first pst pid lm ts sv].
  menu_run. intros (Hp & Hf & Hn & Hc). subst first num.
  assert (page = 0 \/ page = 1) as [-> | ->] by lia; cbn in *; zcases;
    repeat split; lia.
Qed.

(** X17.  Moving the cursor keeps it on a setting that exists, across the
    pages: after "up" or "down" the cursor is on a row of the current
    page, and the setting under it is one of the [numTotSettings]
    settings. *)
Theorem cursor_stays_on_a_setting (s : State) (down : bool) :
  menuCursorOk (menu s) ->
  let s' := exec (if down then moveMenuCursorDown else moveMenuCursorUp) s in
  menuCursorOk (menu s') /\
  0 <= eval (mapMenuRowToSettingId (currMenuCursorPos (menu s'))) s'
    < numTotSettings.
Proof.
  intros H s'.
  assert (H' : menuCursorOk (menu s'))
    by (subst s'; destruct down;
        [now apply moveMenuCursorDown_ok|now apply moveMenuCursorUp_ok]).
  split; [exact H'|]. clearbody s'. clear H.
  destruct s' as [bs st sc cb rs stt m ee ck out].
  destruct m as [mode page num pos first pst pid lm ts sv].
  menu_run. destruct H' as (Hp & Hf & Hn & Hc). subst first num.
  unfold eval. cbn.
  assert (page = 0 \/ page = 1) as [-> | ->] by lia; cbn in *; zcases; lia.
Qed.

Lemma cursor_stays_on_a_setting_witness :
  menuCursorOk (menu (exec transitionToStatusMenu (boot None))) /\
  menuCursorOk
    (menu (exec moveMenuCursorDown (exec transitionToStatusMenu (boot None)))).
Proof.
  assert (H : menuCursorOk (menu (exec transitionToStatusMenu (boot None))))
    by (vm_compute; repeat split; discriminate).
  split; [exact H|].
  exact (proj1 (cursor_stays_on_a_setting
                  (exec transitionToStatusMenu (boot None)) true H)).
Defined.

(** X18.  "Down" then "up" brings the menu back where it was, page
    changes included, unless the cursor is on the last setting of the
    last page (where "down" does nothing); and "up" then "down" does,
    unless the cursor is on the first setting of the first page. *)
Theorem cursor_down_up_round_trip (s : State) :
  menuCursorOk (menu s) ->
  (~ (currMenuPage (menu s) = numMenuPages - 1 /\
      currMenuCursorPos (menu s) = currMenuPageNumSettings (menu s) - 1) ->
   exec (moveMenuCursorDown ;; moveMenuCursorUp) s = s) /\
  (~ (currMenuPage (menu s) = 0 /\ currMenuCursorPos (menu s) = 0) ->
   exec (moveMenuCursorUp ;; moveMenuCursorDown) s = s).
Proof.
  destruct s as [bs st sc cb rs stt m ee ck out].
  destruct m as [mode page num pos first pst pid lm ts sv].
  unfold exec. menu_run. intros (Hp & Hf & Hn & Hc). subst first num.
  assert (page = 0 \/ page = 1) as [-> | ->] by lia; cbn in *;
    split; intros Hl; zcases;
    cbv -[Z.add Z.sub Z.mul Z.min Z.max];
    repeat f_equal; lia.
Qed.

Lemma cursor_down_up_round_trip_witness :
  exec (moveMenuCursorDown ;; moveMenuCursorUp)
    (exec transitionToStatusMenu (boot None))
  = exec transitionToStatusMenu (boot None).
Proof.
  apply (proj1 (cursor_down_up_round_trip
                  (exec transitionToStatusMenu (boot None))
                  ltac:(vm_compute; repeat split; discriminate))).
  vm_compute. intros [H _]. discriminate.
Defined.

(** X19.  From IDLE to the menu.  In IDLE with the trigger released: a new
    press of the select button opens the menu, on the first row of the
    first page and on a copy of the settings in use, with no output
    action; without a new press the machine stays in IDLE.  In both cases
    the settings in use and the log are left as they are. *)
Theorem idle_select_opens_menu (w : World) (dt : Z) (s : State) :
  status s = STATUS_IDLE ->
  w triggerPin (clock s + dt) = true ->
  let x := snapshot w dt s in
  let s' := cycle w dt s in
  settings s' = settings s /\ outputs s' = outputs s /\
  (eval thereIsANewJoySelectPress x = true ->
   status s' = STATUS_MENU /\
   tempSettings (menu s') = settings s /\
   menuMode (menu s') = MENU_MODE_DISPLAY_MENU_PAGE /\
   currMenuPage (menu s') = 0 /\ currMenuCursorPos (menu s') = 0 /\
   menuCursorOk (menu s')) /\
  (eval thereIsANewJoySelectPress x = false -> status s' = STATUS_IDLE).
Proof.
  intros Hs Ht x s'. subst s'. rewrite cycle_handler, Hs, handlerOf_idle.
  destruct (snapshot_fields w dt s) as (S1 & S2 & _ & _ & _ & S6 & _ & S8).
  fold x in S1, S2, S6, S8 |- *. rewrite <- S8 in Ht. rewrite <- S2, <- S6.
  rewrite Hs in S1. clearbody x.
  assert (E0 : exec (manageStatusIdle w) x
               = exec (sel <- thereIsANewJoySelectPress ;;
                       if sel then transitionToStatusMenu else ret tt) x).
  { unfold manageStatusIdle, exec. unfold bind at 1.
    now rewrite isTriggerPressed_at, Ht. }
  rewrite E0. clear E0.
  unfold exec, eval, bind, thereIsANewJoySelectPress.
  destruct (tom_thereIsANewPress ID_BUTTON_JOY_SELECT x) as (bs & m & Hp).
  destruct (thereIsANewPress ID_BUTTON_JOY_SELECT x) as [sel x2].
  cbn [fst snd] in *. subst x2. destruct sel.
  - assert (E : transitionToStatusMenu (set_buttons bs (set_menu m x))
                = (tt, set_status STATUS_MENU
                         (exec displayFirstMenuPage (set_buttons bs (set_menu m x)))))
      by reflexivity.
    rewrite E, displayFirstMenuPage_menu. cbn.
    repeat split; try reflexivity; try lia; discriminate.
  - cbn. repeat split; try discriminate. intros _. exact S1.
Qed.

Lemma idle_select_opens_menu_witness :
  status beforeMenu = STATUS_IDLE /\
  selectPressed triggerPin (clock beforeMenu + 10) = true /\
  eval thereIsANewJoySelectPress (snapshot selectPressed 10 beforeMenu) = true /\
  status (cycle selectPressed 10 beforeMenu) = STATUS_MENU.
Proof.
  assert (Hs : status beforeMenu = STATUS_IDLE) by (vm_compute; reflexivity).
  assert (Ht : selectPressed triggerPin (clock beforeMenu + 10) = true)
    by (vm_compute; reflexivity).
  assert (Hp : eval thereIsANewJoySelectPress
                 (snapshot selectPressed 10 beforeMenu) = true)
    by (vm_compute; reflexivity).
  split; [exact Hs|]. split; [exact Ht|]. split; [exact Hp|].
  destruct (idle_select_opens_menu selectPressed 10 beforeMenu Hs Ht)
    as (_ & _ & H & _).
  exact (proj1 (H Hp)).
Defined.

(** X20.  In the menu, the settings in use change only by saving: an
    iteration in MENU that changes them leaves the menu for IDLE, has made
    them the edited copy, has written them to the EEPROM and has shown the
    message "saved". *)
Theorem menu_changes_settings_only_on_save (w : World) (dt : Z) (s : State) :
  status s = STATUS_MENU ->
  settings (cycle w dt s) <> settings s ->
  status (cycle w dt s) = STATUS_IDLE /\
  settings (cycle w dt s) = tempSettings (menu (cycle w dt s)) /\
  eeprom (cycle w dt s) = Some (settings (cycle w dt s)) /\
  In (EepromPut (settings (cycle w dt s))) (outputs (cycle w dt s)) /\
  In (MenuExitMessage ID_MENU_EXIT_MESSAGE_SAVED) (outputs (cycle w dt s)).
Proof.
  intros Hs. rewrite cycle_handler, Hs, handlerOf_menu.
  destruct (snapshot_fields w dt s) as (_ & <- & _).
  set (x := snapshot w dt s). clearbody x.
  unfold manageStatusMenu, exec, bind.
  destruct (tom_updateMenu x) as (bs & m & H).
  destruct (updateMenu x) as [r s1]. cbn in H. subst s1.
  unfold saveNewSettingsToEepromAndDisplayExitMessage, commitSettings,
    saveSettingsToEeprom, displayMenuExitMessage, transitionToStatusIdle.
  unfold_m. cbn.
  repeat match goal with
         | |- context [if ?c then _ else _] => destruct c; cbn
         end;
    intros Hne; try (exfalso; apply Hne; reflexivity).
  repeat split; rewrite ?in_app_iff; cbn; auto.
Qed.

Lemma menu_changes_settings_only_on_save_witness :
  status beforeSave = STATUS_MENU /\
  settings (cycle lowerTheLimit 10 beforeSave) <> settings beforeSave /\
  status (cycle lowerTheLimit 10 beforeSave) = STATUS_IDLE.
Proof.
  assert (Hs : status beforeSave = STATUS_MENU) by (vm_compute; reflexivity).
  assert (Hne : settings (cycle lowerTheLimit 10 beforeSave)
                <> settings beforeSave) by (vm_compute; discriminate).
  split; [exact Hs|]. split; [exact Hne|].
  exact (proj1 (menu_changes_settings_only_on_save lowerTheLimit 10 beforeSave
                  Hs Hne)).
Defined.

(** X21.  Editing a setting without changing it is harmless: with the
    cursor on a setting, entering the modification page and keeping the
    value writes back what was read, and the edited copy of the settings
    is the same as before. *)
Theorem edit_without_change_keeps_settings (s : State) :
  menuCursorOk (menu s) ->
  tempSettings (menu (exec (displayPageForSettingModify ;; commitSetting) s))
    = tempSettings (menu s).
Proof.
  destruct s as [bs st sc cb rs stt m ee ck out].
  destruct m as [mode page num pos first pst pid lm ts sv].
  unfold menuCursorOk, evalMenuPageNumSettings,
    evalMenuPageNumSettingsByFirstSettingId.
  cbn. change numMenuPages with 2.
  unfold numTotSettings, NUM_MAX_SETTINGS_PER_MENU_PAGE.
  intros (Hp & Hf & Hn & Hc). subst first num.
  unfold exec, displayPageForSettingModify, commitSetting, getSettingValue,
    initSettingValueUInt, initSettingValueBool, mapMenuRowToSettingId.
  unfold_m. cbn. unfold numTotSettings.
  unfold ID_SETTING_SHOT_DELAY_MS, ID_SETTING_BURST_DELAY_MS,
    ID_SETTING_DWELL_MS, ID_SETTING_TRIGGER_DEBOUNCING_MS,
    ID_SETTING_NUM_SHOTS_PER_BURST, ID_SETTING_SHOT_LIMIT,
    ID_SETTING_FULL_AUTO_BURST, ID_SETTING_BINARY_TRIGGER,
    ID_SETTING_FORCE_RELOAD, ID_SETTING_MUZZLE_FLASH,
    ID_SETTINGS_INVERTED_FIRE_SELECTOR.
  assert (page = 0 \/ page = 1) as [-> | ->] by lia; cbn in *; zcases;
    now destruct ts.
Qed.

Lemma edit_without_change_keeps_settings_witness :
  tempSettings
    (menu (exec (displayPageForSettingModify ;; commitSetting)
             (exec transitionToStatusMenu (boot None))))
  = tempSettings (menu (exec transitionToStatusMenu (boot None))).
Proof.
  apply edit_without_change_keeps_settings.
  vm_compute. repeat split; discriminate.
Defined.

(** X22.  The cursor walks through the settings one by one: "down" moves
    it to the next setting and "up" to the previous one, changing page
    where needed, and it stops at the last and at the first setting. *)
Theorem cursor_moves_one_setting (s : State) :
  menuCursorOk (menu s) ->
  selectedSetting (menu (exec moveMenuCursorDown s))
    = Z.min (selectedSetting (menu s) + 1) (numTotSettings - 1) /\
  selectedSetting (menu (exec moveMenuCursorUp s))
    = Z.max (selectedSetting (menu s) - 1) 0.
Proof.
  destruct s as [bs st sc cb rs stt m ee ck out].
  destruct m as [mode page num pos first pst pid lm ts sv].
  unfold exec, selectedSetting. menu_run.
  intros (Hp & Hf & Hn & Hc). subst first num.
  assert (page = 0 \/ page = 1) as [-> | ->] by lia; cbn in *;
    split; zcases; lia.
Qed.

Lemma cursor_moves_one_setting_witness :
  selectedSetting
    (menu (exec moveMenuCursorDown (exec transitionToStatusMenu (boot None))))
  = Z.min
      (selectedSetting (menu (exec transitionToStatusMenu (boot None))) + 1)
      (numTotSettings - 1).
Proof.
  apply (proj1 (cursor_moves_one_setting
                  (exec transitionToStatusMenu (boot None))
                  ltac:(vm_compute; repeat split; discriminate))).
Defined.

(** X23.  With force-reload enabled, once the shot counter has reached the
    limit no iteration fires a shot, in any state and whatever the inputs:
    firing resumes only after the counter is reset or the settings are
    changed. *)
Theorem no_shot_at_the_limit (w : World) (dt : Z) (s : State) :
  forceReload (settings s) = true ->
  shotLimit (settings s) <= shotCount s ->
  shotsFired (cycle w dt s) = shotsFired s.
Proof.
  intros Hf Hl.
  destruct (Z.eq_dec (status s) STATUS_FULL_AUTO) as [H1|H1].
  { rewrite (full_auto_iteration_core w dt s H1), Hf, geb_true by exact Hl.
    cbn [andb].
    destruct (negb (eval isFireSelectorInAutoPosition (snapshot w dt s)));
      exact (snapshot_shotsFired w dt s). }
  destruct (Z_lt_le_dec (currBurstShotCount s) (numShotsPerBurst (settings s)))
    as [Hb|Hb].
  - destruct (Z.eq_dec (status s) STATUS_SEMI_AUTO) as [H2|H2];
      [|destruct (Z.eq_dec (status s) STATUS_BINARY_TRIGGER_TAIL) as [H3|H3]].
    + rewrite (burst_iteration_core w dt s (or_introl H2) Hb), Hf, geb_true by exact Hl.
      apply snapshot_shotsFired.
    + rewrite (burst_iteration_core w dt s (or_intror H3) Hb), Hf, geb_true by exact Hl.
      apply snapshot_shotsFired.
    + now apply at_most_one_shot_per_iteration_core.
  - destruct (Z.eq_dec (status s) STATUS_SEMI_AUTO) as [H2|H2];
      [|destruct (Z.eq_dec (status s) STATUS_BINARY_TRIGGER_TAIL) as [H3|H3]].
    + now apply semi_auto_after_burst_core.
    + rewrite (tail_done w dt s H3 Hb). apply snapshot_shotsFired.
    + now apply at_most_one_shot_per_iteration_core.
Qed.

Lemma no_shot_at_the_limit_witness :
  shotsFired (cycle sustainedFire 10 (set_shotCount 30 sustained))
  = shotsFired (set_shotCount 30 sustained).
Proof.
  apply no_shot_at_the_limit; [vm_compute; reflexivity|].
  vm_compute. discriminate.
Defined.

(** ** More on the loop and on the menu *)

(** X24.  Reading the buttons polls every channel of the array exactly
    once, at the instant the iteration starts and with the level of the
    channel's own pin, and changes nothing else in the state. *)
Theorem every_channel_polled_once (w : World) (s : State) (j : nat) :
  buttons (exec (readAllButtons w) s) !! j
    = pollAt w (clock s) <$> (buttons s !! j) /\
  exec (readAllButtons w) s
    = set_buttons (buttons (exec (readAllButtons w) s)) s.
Proof.
  split; [apply readAllButtons_polls_each_channel|].
  unfold exec. destruct (readAllButtons_frame w s) as [bs ->]. reflexivity.
Qed.

Lemma outside_menu_burst w dt s :
  status s <> STATUS_MENU ->
  uint16 (numShotsPerBurst (settings s)) ->
  0 <= currBurstShotCount s <= numShotsPerBurst (settings s) ->
  0 <= currBurstShotCount (cycle w dt s)
    <= numShotsPerBurst (settings (cycle w dt s)).
Proof.
  intros Hm Hn Hb. destruct (step_outside_menu w dt s Hm) as (-> & _).
  rewrite cycle_handler.
  destruct (snapshot_fields w dt s) as (_ & Hse & _ & Hcb & _).
  set (x := snapshot w dt s) in *. clearbody x.
  rewrite <- Hse, <- Hcb in *. clear Hse Hcb.
  destruct (afterShot_fields x) as (_ & A2 & A3 & _).
  set (y := afterShot x) in *.
  assert (E : doOneShot x = (false, x) \/ doOneShot x = (true, y))
    by (destruct (doOneShot_two_outcomes x) as [(_ & _ & E)|(_ & E)]; auto).
  clearbody y. unfold uint16 in Hn.
  unfold handlerOf.
  destruct (status s =? STATUS_IDLE).
  { unfold manageStatusIdle, isTriggerPressed, isFireSelectorInAutoPosition,
      buttonIsPressed, transitionToStatusFullAuto, transitionToStatusSemiAuto,
      thereIsANewJoySelectPress.
    destruct (tom_thereIsANewPress ID_BUTTON_JOY_SELECT x) as (bs & m & Hp).
    destruct (thereIsANewPress ID_BUTTON_JOY_SELECT x) as [sel x2] eqn:Ep.
    cbn in Hp. subst x2.
    pose proof (transitionToStatusMenu_effect (set_buttons bs (set_menu m x)))
      as (_ & Hm1 & _).
    unfold exec in Hm1.
    destruct (transitionToStatusMenu (set_buttons bs (set_menu m x)))
      as [u x3] eqn:Et. cbn in Hm1.
    clear E. run_handler; lia. }
  destruct (status s =? STATUS_FULL_AUTO).
  { unfold manageStatusFullAuto, isFireSelectorInAutoPosition,
      buttonIsPressed, isTriggerPressed, transitionToStatusIdle,
      transitionToStatusReload.
    destruct E as [E|E]; run_handler; lia. }
  destruct (status s =? STATUS_SEMI_AUTO).
  { unfold manageStatusSemiAuto, doNextShotAndGoToStatusReloadIfShotError,
      isFireSelectorInAutoPosition, buttonIsPressed, isTriggerPressed,
      transitionToStatusIdle, transitionToStatusReload,
      transitionToStatusBinaryTriggerTail.
    destruct E as [E|E]; run_handler;
      rewrite ?wrap16_small by (unfold uint16; lia); lia. }
  destruct (status s =? STATUS_BINARY_TRIGGER_TAIL).
  { unfold manageStatusBinaryTriggerTail,
      doNextShotAndGoToStatusReloadIfShotError,
      transitionToStatusIdle, transitionToStatusReload.
    destruct E as [E|E]; run_handler;
      rewrite ?wrap16_small by (unfold uint16; lia); lia. }
  destruct (status s =? STATUS_RELOAD).
  { unfold manageStatusReload, isMagazineButtonPressed, buttonIsPressed,
      transitionToStatusIdle.
    clear E. run_handler; lia. }
  destruct (status s =? STATUS_MENU) eqn:Em.
  { apply Z.eqb_eq in Em. contradiction. }
  cbn. lia.
Qed.

(** X25.  The burst counter stays within the burst size: an iteration
    outside the menu keeps [0 <= currBurstShotCount <= numShotsPerBurst]
    (in the menu the counter is not touched, but the burst size can be
    edited). *)
Theorem burst_counter_within_burst_size (w : World) (dt : Z) (s : State) :
  uint16 (numShotsPerBurst (settings s)) ->
  0 <= currBurstShotCount s <= numShotsPerBurst (settings s) ->
  (status s <> STATUS_MENU ->
   0 <= currBurstShotCount (cycle w dt s)
     <= numShotsPerBurst (settings (cycle w dt s))) /\
  (status s = STATUS_MENU ->
   currBurstShotCount (cycle w dt s) = currBurstShotCount s).
Proof.
  intros Hn Hb. split.
  - intros Hm. now apply outside_menu_burst.
  - intros Hm. rewrite cycle_handler, Hm, handlerOf_menu.
    destruct (manageStatusMenu_effect (snapshot w dt s)) as (_ & -> & _).
    now destruct (snapshot_fields w dt s) as (_ & _ & _ & -> & _).
Qed.

Lemma burst_counter_within_burst_size_witness :
  0 <= currBurstShotCount (cycle (lowDuring []) 10 relaxedBurst)
    <= numShotsPerBurst (settings (cycle (lowDuring []) 10 relaxedBurst)).
Proof.
  apply (burst_counter_within_burst_size (lowDuring []) 10 relaxedBurst).
  - cbn. unfold uint16. lia.
  - cbn. lia.
  - vm_compute. discriminate.
Defined.

Lemma thereIsANewPress_held buttonId s bd :
  getButton (buttons s) buttonId = Some bd ->
  lastValidStatus bd = BUTTON_PRESSED ->
  precStatusIsPressed bd = true ->
  thereIsANewPress buttonId s = (false, s).
Proof.
  intros G Hl Hp. unfold thereIsANewPress. rewrite G.
  unfold thereIsANewPress_bd. rewrite Hl, Hp. cbn. f_equal.
  assert (E : setButton buttonId bd (buttons s) = buttons s).
  { revert G. unfold getButton, setButton.
    destruct (buttonId <? 0); [discriminate|]. apply list_insert_id. }
  rewrite E. now destruct s.
Qed.

(** X26.  A long press repeats the step.  While the up or down button that
    started the current press is still held (no new press), the edited
    value is left alone until the press has lasted
    [minDurationForLongPressMs]; from then on it is stepped by the
    long-press step of the setting each time
    [longPressIntervalBetweenIncDecMs] has elapsed since the last step,
    and nothing else changes but the time of the last step. *)
Theorem long_press_repeats_the_step
    (buttonId : Z) (doIncrement : bool) (s : State) (bd : ButtonData) :
  getButton (buttons s) buttonId = Some bd ->
  lastValidStatus bd = BUTTON_PRESSED ->
  precStatusIsPressed bd = true ->
  currPressButtonId (menu s) = buttonId ->
  let now := wrap32 (clock s) in
  let m := menu s in
  manageCursorUpDown buttonId doIncrement s =
    (true,
     if (wrap32 (now - currPressStartTimeMs m) >=? minDurationForLongPressMs)
        && (wrap32 (now - lastModificationTimeMs m)
            >=? longPressIntervalBetweenIncDecMs)
     then set_menu
            (set_settingValue
               (incDecSettingValue (longPressDeltaOf (settingValue m))
                  doIncrement (settingValue m))
               (set_lastModificationTimeMs now m)) s
     else s).
Proof.
  intros G Hl Hp Hc now m. unfold manageCursorUpDown.
  unfold bind at 1. rewrite (thereIsANewPress_held buttonId s bd G Hl Hp).
  unfold buttonIsPressed, incDecAndDisplaySettingValue. unfold_m. cbn.
  rewrite G. unfold buttonIsPressed_bd. rewrite Hl, Hc, !Z.eqb_refl. cbn.
  fold now m.
  destruct ((wrap32 (now - currPressStartTimeMs m) >=? minDurationForLongPressMs)
            && (wrap32 (now - lastModificationTimeMs m)
                >=? longPressIntervalBetweenIncDecMs)); reflexivity.
Qed.

Lemma long_press_repeats_the_step_witness :
  eval (manageCursorUpDown ID_BUTTON_JOY_DOWN false) duringLongPress = true.
Proof.
  assert (G : exists bd,
             getButton (buttons duringLongPress) ID_BUTTON_JOY_DOWN = Some bd /\
             lastValidStatus bd = BUTTON_PRESSED /\
             precStatusIsPressed bd = true).
  { eexists. split; [vm_compute; reflexivity|]. split; reflexivity. }
  destruct G as (bd & G & Hl & Hp).
  assert (Hc : currPressButtonId (menu duringLongPress) = ID_BUTTON_JOY_DOWN)
    by (vm_compute; reflexivity).
  unfold eval.
  rewrite (long_press_repeats_the_step ID_BUTTON_JOY_DOWN false
             duringLongPress bd G Hl Hp Hc).
  reflexivity.
Defined.
